(** * CMS_Deep_Learning: [utils/preprocessing.py]

    A shallow embedding of the preprocessing utilities (object profiles,
    the size resolver, the preprocessing engine, the budget splitter, the
    chunking planner, the batch generator and the export/import helpers)
    together with the properties that the specification states about them.

    Conventions of the embedding:
    - Python integers are [Z]; Python floats are exact rationals [Q], and
      [nan] is a separate constructor where the code can produce it;
    - a raised exception is the [Raise] outcome of a [result];
    - file access and the global numpy random state are threaded through
      an explicit [world] (an I/O log and the generator state);
    - pandas, numpy.random and the archiving layer are outside the file:
      they enter through the interfaces [Pandas], [NumpyRandom], [Archive];
    - [print] calls are not modelled. *)

From Stdlib Require Import ZArith QArith Qround Qabs List String Ascii Lia Bool.
From Stdlib Require Import Permutation DecimalString DecimalNat.
From stdpp Require Import base option list gmap strings sorting.

Open Scope string_scope.
Open Scope list_scope.
Open Scope Z_scope.

(** ** Exceptions and results *)

Inductive exn : Type :=
| ValueError (msg : string)
| IOError (msg : string)
| TypeError (msg : string)
| KeyError (key : string)
| IndexError
| AttributeError
| ZeroDivisionError
| AssertionError (msg : string).

Inductive result (A : Type) : Type :=
| Ok (a : A)
| Raise (e : exn).
Arguments Ok {A} a.
Arguments Raise {A} e.

#[global] Instance result_ret : MRet result := fun A a => Ok a.

#[global] Instance result_bind : MBind result := fun A B k r =>
  match r with
  | Ok a => k a
  | Raise e => Raise e
  end.

#[global] Instance result_fmap : FMap result := fun A B f r =>
  match r with
  | Ok a => Ok (f a)
  | Raise e => Raise e
  end.

(** [[f(a) for a in l]] where [f] may raise. *)
Fixpoint rmap {A B} (f : A -> result B) (l : list A) : result (list B) :=
  match l with
  | [] => Ok []
  | a :: l' => b ← f a; bs ← rmap f l'; Ok (b :: bs)
  end.

(** ** Python primitives *)

Module Py.

(** [int(x)] on a float: truncation toward zero. *)
Definition int (x : Q) : Z := Z.quot (Qnum x) (Zpos (Qden x)).

Definition Qlt_bool (x y : Q) : bool := negb (Qle_bool y x).

Definition Qsum (l : list Q) : Q := fold_left Qplus l (0 # 1)%Q.

Definition Zsum (l : list Z) : Z := fold_left Z.add l 0.

Definition len {A} (l : list A) : Z := Z.of_nat (length l).

(** The loop behind [range(start, stop, step)] for a positive step. *)
Fixpoint range_up (fuel : nat) (cur stop step : Z) : list Z :=
  match fuel with
  | O => []
  | S fuel' =>
      if cur <? stop then cur :: range_up fuel' (cur + step) stop step else []
  end.

Fixpoint range_down (fuel : nat) (cur stop step : Z) : list Z :=
  match fuel with
  | O => []
  | S fuel' =>
      if stop <? cur then cur :: range_down fuel' (cur + step) stop step else []
  end.

(** [range(start, stop, step)]; a zero step raises [ValueError]. Every
    iteration moves [cur] by at least one, so [|stop - start|] iterations
    are enough. *)
Definition range (start stop step : Z) : result (list Z) :=
  if step =? 0 then Raise (ValueError "range() arg 3 must not be zero")
  else if 0 <? step then Ok (range_up (Z.to_nat (stop - start)) start stop step)
  else Ok (range_down (Z.to_nat (start - stop)) start stop step).

(** [x[:n]] *)
Definition slice_to {A} (x : list A) (n : Z) : list A :=
  if 0 <=? n then firstn (Z.to_nat n) x
  else firstn (Z.to_nat (len x + n)) x.

(** [x[a:b]] for [0 <= a], [0 <= b]. *)
Definition slice {A} (x : list A) (a b : Z) : list A :=
  firstn (Z.to_nat (b - a)) (skipn (Z.to_nat a) x).

(** [l[i]] with Python's negative indices. *)
Definition getitem {A} (l : list A) (i : Z) : result A :=
  let j := if i <? 0 then i + len l else i in
  if (j <? 0) || (len l <=? j) then Raise IndexError
  else match nth_error l (Z.to_nat j) with
       | Some a => Ok a
       | None => Raise IndexError
       end.

(** [l[i] = v] *)
Definition setitem {A} (l : list A) (i : Z) (v : A) : result (list A) :=
  let j := if i <? 0 then i + len l else i in
  if (j <? 0) || (len l <=? j) then Raise IndexError
  else Ok (<[Z.to_nat j := v]> l).

(** [[v] * n] *)
Definition replicate {A} (v : A) (n : Z) : list A := repeat v (Z.to_nat n).

(** [l.count(x)] *)
Definition count (x : string) (l : list string) : Z :=
  len (filter (fun y => y = x) l).

(** [x in l] on strings *)
Definition contains (x : string) (l : list string) : bool :=
  existsb (String.eqb x) l.

(** [l.index(x)] *)
Fixpoint index_of (x : string) (l : list string) : option nat :=
  match l with
  | [] => None
  | y :: l' => if String.eqb x y then Some O else S <$> index_of x l'
  end.

(** [str(n)] for a non-negative integer. *)
Definition str_nat (n : nat) : string := NilZero.string_of_uint (Nat.to_uint n).

(** Insertion of [a] after every element that is not strictly greater:
    the building block of a stable sort. *)
Fixpoint insert_by {A} (le : A -> A -> bool) (a : A) (l : list A) : list A :=
  match l with
  | [] => [a]
  | b :: l' => if le b a then b :: insert_by le a l' else a :: b :: l'
  end.

(** [sorted(l)] / [l.sort()]: stable. *)
Definition sort_by {A} (le : A -> A -> bool) (l : list A) : list A :=
  fold_left (fun acc a => insert_by le a acc) l [].

(** [files.sort()] on path names: code-point order. *)
Definition sort_strings (l : list string) : list string := sort_by String.leb l.

Definition ends_with (suffix s : string) : bool :=
  let n := String.length s in
  let k := String.length suffix in
  (k <=? n)%nat && String.eqb (String.substring (n - k) k s) suffix.

End Py.

(** ** Data model *)

(** Attributes that the code leaves untyped: [addColumns] and
    [punctuation] hold [None], a number or a dictionary of constants. *)
Inductive pyval : Type :=
| PyNone
| PyNum (q : Q)
| PyDict (d : list (string * Q)).

(** An [ascending] argument in the style of [pandas.DataFrame.sort]: one
    flag, or one flag per column. *)
Inductive asc_flag : Type :=
| AscBool (b : bool)
| AscList (l : list bool).

(** [flag == True] *)
Definition eq_True (a : asc_flag) : bool :=
  match a with
  | AscBool true => true
  | _ => false
  end.

Record ObjectProfile : Type := mkObjectProfile {
  name : string;
  max_size : option Z;            (* [None] or [-1]: unresolved *)
  pre_sort_columns : option (list string);
  pre_sort_ascending : asc_flag;
  sort_columns : option (list string);
  sort_ascending : asc_flag;
  query : option string;
  shuffle : bool;
  addColumns : pyval;
  punctuation : pyval;
  class_name : string
}.

(** [ObjectProfile.__init__] *)
Definition ObjectProfile_init (name : string) (max_size : Z)
    (pre_sort_columns : option (list string)) (pre_sort_ascending : asc_flag)
    (sort_columns : option (list string)) (sort_ascending : asc_flag)
    (query : option string) (shuffle : bool)
    (addColumns : pyval) (punctuation : pyval) : result ObjectProfile :=
  if max_size <? -1 then
    Raise (ValueError "max_size cannot be less than -1.")
  else if (match addColumns with PyNone | PyDict _ => false | PyNum _ => true end) then
    Raise (ValueError "arguement addColumns must be a dictionary")
  else
    Ok {| name := name;
          max_size := Some max_size;
          pre_sort_columns := pre_sort_columns;
          pre_sort_ascending := pre_sort_ascending;
          sort_columns := sort_columns;
          sort_ascending := sort_ascending;
          query := query;
          shuffle := shuffle;
          addColumns := addColumns;
          punctuation := punctuation;
          class_name := "ObjectProfile" |}.

(** [profile.max_size == -1 or profile.max_size == None] *)
Definition unresolved_max (p : ObjectProfile) : bool :=
  match max_size p with
  | None => true
  | Some m => m =? -1
  end.

(** A profile written as a plain dictionary; an absent key is [None]. *)
Record profile_dict : Type := mkProfileDict {
  d_class_name : option string;
  d_name : option string;
  d_max_size : option Z;
  d_pre_sort_columns : option (list string);
  d_pre_sort_ascending : option asc_flag;
  d_sort_columns : option (list string);
  d_sort_ascending : option asc_flag;
  d_query : option string;
  d_shuffle : option bool;
  d_punctuation : pyval;
  d_addColumns : pyval
}.

Inductive profile_arg : Type :=
| P_obj (p : ObjectProfile)
| P_dict (d : profile_dict).

(** One row of a table: the entry it belongs to and its cells, in the
    order of the frame's columns. *)
Record frow : Type := mkRow { Entry : Z; cells : list Q }.

Record DataFrame : Type := mkFrame { columns : list string; rows : list frow }.

(** A two-dimensional float array as the list of its rows. *)
Definition array2 : Type := list (list Q).

Definition has_shape (a : array2) (n : Z) (w : Z) : Prop :=
  Py.len a = n /\ Forall (fun r => Py.len r = w) a.

(** The [NumValues] frame: one row per entry, one column of row counts
    per object type. *)
Record NumValFrame : Type := mkNumVal {
  nv_entries : Z;
  nv_columns : gmap string (list Z)
}.

(** [num_val_frame[a:b]] *)
Definition nv_slice (nv : NumValFrame) (a b : Z) : NumValFrame :=
  {| nv_entries := Py.len (Py.slice (seq 0 (Z.to_nat (nv_entries nv))) a b);
     nv_columns := (fun c => Py.slice c a b) <$> nv_columns nv |}.

(** [num_val_frame[key]] *)
Definition nv_getitem (nv : NumValFrame) (key : string) : result (list Z) :=
  match nv_columns nv !! key with
  | Some c => Ok c
  | None => Raise (KeyError key)
  end.

(** A pandas file: the [NumValues] frame and one table per object type. *)
Record pandas_file : Type := mkFile {
  NumValues : option NumValFrame;
  tables : gmap string DataFrame
}.

(** The file system as the code sees it: the [.msg] and [.h5] files under
    each existing directory prefix, and the content of each file. *)
Record filesystem : Type := mkFS {
  fs_dirs : gmap string (list string);
  fs_files : gmap string pandas_file
}.

Inductive io_event : Type :=
| Ev_isdir (d : string)
| Ev_glob (pattern : string)
| Ev_store_open (f : string)
| Ev_store_get (f key : string)
| Ev_store_select (f key : string) (start stop : Z)
| Ev_store_close (f : string)
| Ev_read_msgpack (f : string)
| Ev_msgpack_meta (f : string).

(** ** Interfaces of the libraries *)

(** [numpy.random]: the global generator state and [shuffle]. *)
Class NumpyRandom : Type := {
  rng : Type;
  np_random_shuffle : forall A : Type, list A -> rng -> list A * rng
}.

(** [pandas]: [DataFrame.sort] and [DataFrame.query]. *)
Class Pandas : Type := {
  pd_sort : list string -> asc_flag -> DataFrame -> result DataFrame;
  pd_query : string -> DataFrame -> result DataFrame
}.

(** ** The world: I/O log and generator state *)

Section World.
Context `{NumpyRandom}.

Record world : Type := mkWorld { io_log : list io_event; rng_state : rng }.

Definition M (A : Type) : Type := world -> result A * world.

Definition run {A} (m : M A) (w : world) : result A * world := m w.

#[export] Instance M_ret : MRet M := fun A a w => (Ok a, w).

#[export] Instance M_bind : MBind M := fun A B k m w =>
  match m w with
  | (Ok a, w') => k a w'
  | (Raise e, w') => (Raise e, w')
  end.

Definition lift {A} (r : result A) : M A := fun w => (r, w).

Definition raise {A} (e : exn) : M A := lift (Raise e).

Definition emit (e : io_event) : M unit :=
  fun w => (Ok tt, {| io_log := io_log w ++ [e]; rng_state := rng_state w |}).

(** [np.random.shuffle(l)] *)
Definition shuffleM {A} (l : list A) : M (list A) :=
  fun w => let '(l', g) := np_random_shuffle A l (rng_state w) in
           (Ok l', {| io_log := io_log w; rng_state := g |}).

(** A [for] loop with an accumulator. *)
Fixpoint foldM {A B} (f : B -> A -> M B) (l : list A) (b : B) : M B :=
  match l with
  | [] => mret b
  | a :: l' => b' ← f b a; foldM f l' b'
  end.

End World.

(** ** The table source adapter *)

Inductive storeType : Type := hdf5 | msgpack.

Section Sources.
Context `{NumpyRandom}.
Variable fs : filesystem.

(** [glob.glob(data_dir + "*" + ext)] *)
Definition glob (data_dir ext : string) : M (list string) :=
  _ ← emit (Ev_glob (data_dir +:+ "*" +:+ ext));
  mret (List.filter (Py.ends_with ext) (default [] (fs_dirs fs !! data_dir))).

Definition getFiles_StoreType (data_dir : string) : M (list string * storeType) :=
  _ ← emit (Ev_isdir data_dir);
  if negb (bool_decide (is_Some (fs_dirs fs !! data_dir))) then
    raise (IOError "Directory does not exist.")
  else
    msgFiles ← glob data_dir ".msg";
    hdfFiles ← glob data_dir ".h5";
    fst ← (if Py.len msgFiles =? 0 then mret (hdfFiles, hdf5)
           else if Py.len hdfFiles =? 0 then mret (msgFiles, msgpack)
           else raise (IOError "Directory contains both .msg files and .h5 files"));
    if Py.len (fst.1) <? 1 then raise (IOError "Cannot read from empty directory")
    else mret fst.

(** Modelled from the spec: [msgpack_assertMeta] of [utils/meta.py] is not
    part of the sources at hand; it yields the meta frames of a [.msg]
    file, of which only the row-count index [NumValues] is used. A file
    without that table is corrupt. *)
Definition msgpack_assertMeta (filename : string) : M (option NumValFrame) :=
  _ ← emit (Ev_msgpack_meta filename);
  match fs_files fs !! filename with
  | Some file => mret (NumValues file)
  | None => raise (IOError "unreadable file")
  end.

Definition getNumValFrame (filename : string) (st : storeType) : M NumValFrame :=
  match st with
  | hdf5 =>
      _ ← emit (Ev_store_open filename);
      _ ← emit (Ev_store_get filename "NumValues");
      match fs_files fs !! filename with
      | Some {| NumValues := Some nv |} =>
          _ ← emit (Ev_store_close filename);
          mret nv
      | _ => raise (IOError "Please check to see if the files is corrupted.")
      end
  | msgpack =>
      meta_frames ← msgpack_assertMeta filename;
      match meta_frames with
      | Some nv => mret nv
      | None => raise (KeyError "NumValues")
      end
  end.

(** [store.get('/' + key)], [store.select('/' + key, start, stop)] and
    [frames[key][start:stop]]. *)
Definition read_table (f key : string) (st : storeType) (whole : bool)
    (select_start select_stop : Z) : M DataFrame :=
  _ ← (match st with
       | hdf5 => if whole then emit (Ev_store_get f key)
                 else emit (Ev_store_select f key select_start select_stop)
       | msgpack => mret tt
       end);
  match fs_files fs !! f ≫= (fun file => tables file !! key) with
  | None => raise (KeyError key)
  | Some frame =>
      match st with
      | hdf5 =>
          if whole then mret frame
          else mret {| columns := columns frame;
                       rows := Py.slice (rows frame) select_start select_stop |}
      | msgpack =>
          mret {| columns := columns frame;
                  rows := Py.slice (rows frame) select_start select_stop |}
      end
  end.

End Sources.

(** ** The size resolver *)

(** A running maximum is an integer, or [nan] after an empty column. *)
Inductive pynum : Type :=
| Nan
| Int (z : Z).

(** [Series.max()] of a column of row counts. *)
Definition series_max (c : list Z) : pynum :=
  match c with
  | [] => Nan
  | a :: c' => Int (fold_left Z.max c' a)
  end.

(** [max(a, b)]: [b] when [b > a], else [a]; no comparison with [nan]
    holds. *)
Definition py_max (a b : pynum) : pynum :=
  match a, b with
  | Int x, Int y => if x <? y then b else a
  | _, _ => a
  end.

(** [int(np.ceil(v * padding_multiplier))] *)
Definition ceil_scaled (v : pynum) (padding_multiplier : Q) : result Z :=
  match v with
  | Nan => Raise (ValueError "cannot convert float NaN to integer")
  | Int z => Ok (Qceiling (inject_Z z * padding_multiplier))
  end.

Definition set_max_size (p : ObjectProfile) (m : Z) : ObjectProfile :=
  {| name := name p;
     max_size := Some m;
     pre_sort_columns := pre_sort_columns p;
     pre_sort_ascending := pre_sort_ascending p;
     sort_columns := sort_columns p;
     sort_ascending := sort_ascending p;
     query := query p;
     shuffle := shuffle p;
     addColumns := addColumns p;
     punctuation := punctuation p;
     class_name := class_name p |}.

(** A [for] loop with an accumulator whose body may raise. *)
Fixpoint rfold {A B} (f : B -> A -> result B) (l : list A) (b : B) : result B :=
  match l with
  | [] => Ok b
  | a :: l' => b' ← f b a; rfold f l' b'
  end.

Section Resolver.
Context `{NumpyRandom}.
Variable fs : filesystem.

(** Lines 105-106: the update of the running maxima by one file. *)
Definition update_maxes (unresolved : list ObjectProfile) (num_val_frame : NumValFrame)
    (maxes : gmap string pynum) : result (gmap string pynum) :=
  rfold (fun maxes profile =>
           col ← nv_getitem num_val_frame (name profile);
           match maxes !! name profile with
           | Some cur => Ok (<[name profile := py_max (series_max col) cur]> maxes)
           | None => Raise (KeyError (name profile))
           end)
        unresolved maxes.

(** Lines 87-106: the scan of every file of every source directory. *)
Definition scan_sources (unresolved : list ObjectProfile)
    (label_dir_pairs : list (string * string))
    (maxes : gmap string pynum) : M (gmap string pynum) :=
  foldM (fun maxes (pair : string * string) =>
           fst ← getFiles_StoreType fs pair.2;
           foldM (fun maxes f =>
                    num_val_frame ← getNumValFrame fs f fst.2;
                    lift (update_maxes unresolved num_val_frame maxes))
                 (Py.sort_strings fst.1) maxes)
        label_dir_pairs maxes.

(** The function mutates the profiles in place and returns nothing; the
    model returns the list of profiles as it stands afterwards. *)
Definition resolveProfileMaxes (object_profiles : list ObjectProfile)
    (label_dir_pairs : list (string * string)) (padding_multiplier : Q)
    : M (list ObjectProfile) :=
  let unresolved := List.filter unresolved_max object_profiles in
  let maxes := fold_left (fun maxes profile => <[name profile := Int 0]> maxes)
                         unresolved (∅ : gmap string pynum) in
  if Py.len unresolved =? 0 then mret object_profiles
  else
    maxes ← scan_sources unresolved label_dir_pairs maxes;
    lift (rmap (fun profile =>
                  if unresolved_max profile then
                    match maxes !! name profile with
                    | Some v => set_max_size profile <$> ceil_scaled v padding_multiplier
                    | None => Raise (KeyError (name profile))
                    end
                  else Ok profile)
               object_profiles).

End Resolver.

(** ** The preprocessing engine *)

(** [np.zeros((n, w))] *)
Definition np_zeros (n w : Z) : result array2 :=
  if (n <? 0) || (w <? 0) then Raise (ValueError "negative dimensions are not allowed")
  else Ok (Py.replicate (Py.replicate 0%Q w) n).

(** [np.append(a, b, axis=0)] where [b] has [w] columns. *)
Definition np_append0 (a b : array2) (w : Z) : result array2 :=
  if forallb (fun r => Py.len r =? w) a then Ok (a ++ b)
  else Raise (ValueError "all the input array dimensions except for the concatenation axis must match exactly").

(** [x[key] = value] on a frame: overwrite the column, or add it last. *)
Definition set_column (x : DataFrame) (key : string) (value : Q) : DataFrame :=
  match Py.index_of key (columns x) with
  | Some i =>
      {| columns := columns x;
         rows := map (fun r => {| Entry := Entry r; cells := <[i := value]> (cells r) |})
                     (rows x) |}
  | None =>
      {| columns := columns x ++ [key];
         rows := map (fun r => {| Entry := Entry r; cells := cells r ++ [value] |})
                     (rows x) |}
  end.

(** [x.columns.get_loc(s)] *)
Definition get_loc (cols : list string) (s : string) : result nat :=
  match Py.index_of s cols with
  | Some i => Ok i
  | None => Raise (KeyError s)
  end.

(** [x[observ_types].values] *)
Definition select_columns (x : DataFrame) (observ_types : list string) : result array2 :=
  locs ← rmap (get_loc (columns x)) observ_types;
  Ok (map (fun r => map (fun i => nth i (cells r) 0%Q) locs) (rows x)).

(** [v.argsort()]: the indices that sort [v]; equal keys keep their order. *)
Definition np_argsort (v : list Q) : list nat :=
  map fst (Py.sort_by (fun a b => Qle_bool a.2 b.2) (zip (seq 0 (length v)) v)).

(** [x[:, loc]] *)
Definition column_of (x : array2) (loc : nat) : list Q :=
  map (fun r => nth loc r 0%Q) x.

(** [x[idx]] *)
Definition np_take {A} (d : A) (x : list A) (idx : list nat) : list A :=
  map (fun i => nth i x d) idx.

(** Lines 369-372: one pass of the sort on column [loc]. *)
Definition sort_pass (sort_ascending : asc_flag) (x : array2) (loc : nat) : array2 :=
  if eq_True sort_ascending then np_take [] x (np_argsort (column_of x loc))
  else np_take [] x (rev (np_argsort (column_of x loc))).

(** [frame.groupby(["Entry"])]: one group per entry, in the order of the
    entry ids. *)
Definition groupby_Entry (frame : DataFrame) : list (Z * DataFrame) :=
  map (fun k => (k, {| columns := columns frame;
                       rows := List.filter (fun r => Entry r =? k) (rows frame) |}))
      (Py.sort_by Z.leb (remove_dups (map Entry (rows frame)))).

Section Engine.
Context `{NumpyRandom} `{Pandas}.
Variable fs : filesystem.

Definition padItem (x : array2) (max_size vecsize : Z) (shuffle : bool) : M array2 :=
  out ← (if max_size <? Py.len x then mret (Py.slice_to x max_size)
         else lift (z ← np_zeros (max_size - Py.len x) vecsize;
                    np_append0 x z vecsize));
  if shuffle then shuffleM out else mret out.

(** Lines 351-374: the transform of the rows of one entry. *)
Definition preprocess_group (profile : ObjectProfile) (max_size : Z)
    (observ_types : list string) (vecsize : Z) (x : DataFrame) : M array2 :=
  x ← lift (match pre_sort_columns profile with
            | Some cols => pd_sort cols (pre_sort_ascending profile) x
            | None => Ok x
            end);
  x ← lift (match query profile with
            | Some q => pd_query q x
            | None => Ok x
            end);
  x ← lift (match addColumns profile with
            | PyNone => Ok x
            | PyDict d => Ok (fold_left (fun x kv => set_column x kv.1 kv.2) d x)
            | PyNum _ => Raise AttributeError
            end);
  x ← lift (select_columns x observ_types);
  sort_locs ← lift (match sort_columns profile with
                    | Some cols => Some <$> rmap (get_loc observ_types) cols
                    | None => Ok None
                    end);
  x ← padItem x max_size vecsize (shuffle profile);
  let x := match sort_locs with
           | Some locs => fold_left (sort_pass (sort_ascending profile)) (rev locs) x
           | None => x
           end in
  lift (match punctuation profile with
        | PyNone => Ok x
        | PyNum c => np_append0 x [Py.replicate c vecsize] vecsize
        | PyDict _ => Raise (TypeError "unsupported operand type(s) for *")
        end).

(** Lines 350-378: every group is transformed and stored in its slot. *)
Definition preprocess_groups (profile : ObjectProfile) (max_size : Z)
    (observ_types : list string) (vecsize : Z) (arr_start file_start_read : Z)
    (groups : list (Z * DataFrame)) (arr : list (option array2))
    : M (list (option array2)) :=
  foldM (fun arr (g : Z * DataFrame) =>
           x ← preprocess_group profile max_size observ_types vecsize g.2;
           lift (Py.setitem arr (arr_start + g.1 - file_start_read) (Some x)))
        groups arr.

(** Lines 382-383: a slot that is still empty receives zeros. *)
Definition fill_slot (max_size vecsize : Z) (arr : list (option array2)) (i : Z)
    : result (list (option array2)) :=
  cur ← Py.getitem arr i;
  match cur with
  | None => z ← np_zeros max_size vecsize; Py.setitem arr i (Some z)
  | Some _ => Ok arr
  end.

(** Lines 381-383: the slots of the window that are still empty. *)
Definition fill_missing (max_size vecsize : Z) (arr_start samples_to_read : Z)
    (arr : list (option array2)) : result (list (option array2)) :=
  idx ← Py.range arr_start (arr_start + samples_to_read) 1;
  rfold (fill_slot max_size vecsize) idx arr.

(** Lines 340-383: one table slice of one profile into the sample list. *)
Definition preprocess_frame (profile : ObjectProfile) (max_size : Z)
    (observ_types : list string) (vecsize : Z)
    (arr_start file_start_read samples_to_read : Z)
    (frame : DataFrame) (arr : list (option array2)) : M (list (option array2)) :=
  arr ← preprocess_groups profile max_size observ_types vecsize
          arr_start file_start_read (groupby_Entry frame) arr;
  lift (fill_missing max_size vecsize arr_start samples_to_read arr).

End Engine.

(** Lines 205-206: the labels that occur more than once. *)
Definition duplicate_labels (label_dir_pairs : list (string * string)) : list string :=
  let labels := map fst label_dir_pairs in
  remove_dups (List.filter (fun x => 1 <? Py.count x labels) labels).

(** Lines 217-236: a profile given as a dictionary is rebuilt (the last
    two arguments are passed in the order punctuation, addColumns), and
    every profile must be resolved and add only observable columns. *)
Definition check_profile (observ_types : list string) (p : profile_arg)
    : result ObjectProfile :=
  profile ← match p with
            | P_obj o => Ok o
            | P_dict d =>
                if bool_decide (d_class_name d = Some "ObjectProfile") then
                  match d_name d with
                  | None => Raise (KeyError "name")
                  | Some n =>
                      ObjectProfile_init n
                        (default 100 (d_max_size d))
                        (d_pre_sort_columns d)
                        (default (AscBool true) (d_pre_sort_ascending d))
                        (d_sort_columns d)
                        (default (AscBool true) (d_sort_ascending d))
                        (d_query d)
                        (default false (d_shuffle d))
                        (d_punctuation d)
                        (d_addColumns d)
                  end
                else Raise AttributeError
            end;
  if unresolved_max profile then
    Raise (ValueError "ObjectProfile max_sizes must be resolved before preprocessing.")
  else
    match addColumns profile with
    | PyNone => Ok profile
    | PyDict d =>
        if forallb (fun kv : string * Q => Py.contains kv.1 observ_types) d then Ok profile
        else Raise (ValueError "addColumn Key must be in observ_types")
    | PyNum _ => Raise AttributeError
    end.

(** Lines 239-243: the one-hot vector of each label. *)
Definition build_label_vecs (label_dir_pairs : list (string * string))
    : gmap string (list Q) :=
  let num_labels := Py.len label_dir_pairs in
  fold_left (fun label_vecs (il : nat * (string * string)) =>
               <[il.2.1 := <[il.1 := 1%Q]> (Py.replicate 0%Q num_labels)]> label_vecs)
            (zip (seq 0 (length label_dir_pairs)) label_dir_pairs) ∅.

(** The variables of the loop over the files of one directory. *)
Record loop_state : Type := mkLoop {
  samples_read : Z;
  location : Z;
  X_train : list (list (option array2));
  X_train_indices : list Z
}.

Section EngineMain.
Context `{NumpyRandom} `{Pandas}.
Variable fs : filesystem.
Variables (start samples_per_label : Z).
Variable object_profiles : list ObjectProfile.
Variable observ_types : list string.

(** Lines 317-386: one profile, on the file [f]. *)
Definition preprocess_profile (f : string) (st : storeType)
    (file_total_entries file_start_read samples_to_read : Z)
    (skip_val_frame num_val_frame : NumValFrame)
    (X : list (list (option array2)) * list Z) (ip : nat * ObjectProfile)
    : M (list (list (option array2)) * list Z) :=
  let index := Z.of_nat ip.1 in
  let profile := ip.2 in
  let key := name profile in
  max_size ← lift (match max_size profile with
                   | Some m => Ok m
                   | None => Raise (TypeError "max_size is None")  (* excluded by line 230 *)
                   end);
  skip ← lift (nv_getitem skip_val_frame key);
  let select_start := Py.Zsum skip in
  nums ← lift (nv_getitem num_val_frame key);
  let select_stop := select_start + Py.Zsum nums in
  frame ← read_table fs f key st (samples_to_read =? file_total_entries)
            select_start select_stop;
  arr_start ← lift (Py.getitem X.2 index);
  arr ← lift (Py.getitem X.1 index);
  arr ← preprocess_frame profile max_size observ_types (Py.len observ_types)
          arr_start file_start_read samples_to_read frame arr;
  X1 ← lift (Py.setitem X.1 index arr);
  X2 ← lift (Py.setitem X.2 index (arr_start + samples_to_read));
  mret (X1, X2).

(** Lines 263-402: the body of the loop over the files; the boolean tells
    whether the loop is left by [break]. *)
Definition read_file (st : storeType) (ls : loop_state) (f : string)
    : M (loop_state * bool) :=
  num_val_frame ← getNumValFrame fs f st;
  let file_total_entries := nv_entries num_val_frame in
  if negb (0 <? file_total_entries) then
    raise (AssertionError "num_val_frame has zero values")
  else if location ls + file_total_entries <=? start then
    mret ({| samples_read := samples_read ls;
             location := location ls + file_total_entries;
             X_train := X_train ls;
             X_train_indices := X_train_indices ls |}, false)
  else
    _ ← (match st with
         | hdf5 => emit (Ev_store_open f)
         | msgpack => emit (Ev_read_msgpack f)
         end);
    let file_start_read := if start - location ls <? 0 then 0 else start - location ls in
    let samples_to_read := Z.min (samples_per_label - samples_read ls)
                                 (file_total_entries - file_start_read) in
    if negb (0 <=? samples_to_read) then raise (AssertionError "")
    else
      let skip_val_frame := nv_slice num_val_frame 0 file_start_read in
      let num_val_frame := nv_slice num_val_frame file_start_read
                                    (file_start_read + samples_to_read) in
      X ← foldM (preprocess_profile f st file_total_entries file_start_read
                   samples_to_read skip_val_frame num_val_frame)
                (zip (seq 0 (length object_profiles)) object_profiles)
                (X_train ls, X_train_indices ls);
      _ ← (match st with
           | hdf5 => emit (Ev_store_close f)
           | msgpack => mret tt
           end);
      let ls' := {| samples_read := samples_read ls + samples_to_read;
                    location := location ls + file_total_entries;
                    X_train := X.1;
                    X_train_indices := X.2 |} in
      if samples_per_label <=? samples_read ls' then
        if samples_read ls' =? samples_per_label then mret (ls', true)
        else raise (AssertionError "")
      else mret (ls', false).

Fixpoint read_files (st : storeType) (files : list string) (ls : loop_state)
    : M loop_state :=
  match files with
  | [] => mret ls
  | f :: files' =>
      '(ls', brk) ← read_file st ls f;
      if brk : bool then mret ls' else read_files st files' ls'
  end.

(** Lines 256-410: one label and its directory. *)
Definition read_label (label_vecs : gmap string (list Q))
    (acc : list (list (option array2)) * list Z * list (option (list Q)) * Z)
    (pair : string * string)
    : M (list (list (option array2)) * list Z * list (option (list Q)) * Z) :=
  let '(X, X_indices, y_train, y_train_start) := acc in
  fst ← getFiles_StoreType fs pair.2;
  ls ← read_files fst.2 (Py.sort_strings fst.1)
         {| samples_read := 0; location := 0;
            X_train := X; X_train_indices := X_indices |};
  if negb (samples_read ls =? samples_per_label) then
    raise (IOError "Not enough data to read in range")
  else
    vec ← lift (match label_vecs !! pair.1 with
                | Some v => Ok v
                | None => Raise (KeyError pair.1)
                end);
    idx ← lift (Py.range 0 samples_per_label 1);
    y_train ← lift (rfold (fun y i => Py.setitem y (y_train_start + i) (Some vec))
                          idx y_train);
    mret (X_train ls, X_train_indices ls, y_train, y_train_start + samples_per_label).

End EngineMain.

Section EngineEntry.
Context `{NumpyRandom} `{Pandas}.
Variable fs : filesystem.

Definition preprocessFromPandas_label_dir_pairs
    (label_dir_pairs : list (string * string)) (start samples_per_label : Z)
    (object_profiles : list profile_arg) (observ_types : list string)
    : M (list (list (option array2)) * list (option (list Q))) :=
  if negb (Py.len (duplicate_labels label_dir_pairs) =? 0) then
    raise (ValueError "Cannot have duplicate labels")
  else
    let num_labels := Py.len label_dir_pairs in
    if Py.contains "Entry" observ_types then
      raise (ValueError "Using Entry in observ_types can result in skewed training results. Just don't.")
    else
      object_profiles ← lift (rmap (check_profile observ_types) object_profiles);
      let label_vecs := build_label_vecs label_dir_pairs in
      let X := map (fun _ => Py.replicate None (samples_per_label * num_labels))
                   object_profiles in
      let X_indices := map (fun _ => 0) object_profiles in
      let y_train := Py.replicate None (samples_per_label * num_labels) in
      acc ← foldM (read_label fs start samples_per_label object_profiles observ_types
                     label_vecs)
                  label_dir_pairs (X, X_indices, y_train, 0);
      let X := acc.1.1.1 in
      let y_train := acc.1.2 in
      indices ← shuffleM (seq 0 (length y_train));
      mret (map (fun arr => np_take None arr indices) X, np_take None y_train indices).

End EngineEntry.

(** ** The budget splitter *)

(** [np.isclose(a, b)] with the default tolerances
    [rtol = 1e-05], [atol = 1e-08]. *)
Definition np_isclose (a b : Q) : bool :=
  Qle_bool (Qabs (a - b)) ((1 # 100000000) + (1 # 100000) * Qabs b)%Q.

(** Lines 567-572: the running start of every count. *)
Fixpoint starts_of (start : Z) (nums : list Z) : list (Z * Z) :=
  match nums with
  | [] => []
  | n :: nums' => (start, n) :: starts_of (start + n) nums'
  end.

Definition start_num_fromSplits (splits : list Q) (length : Z) : result (list (Z * Z)) :=
  if existsb (fun x => Py.Qlt_bool x 0) splits then
    Raise (ValueError "Splits cannot be negative")
  else
    let are_static_vals := map (fun x => 0 <? Py.int x) splits in
    rl ← (if existsb id are_static_vals then
            let ratios := map fst (List.filter (fun sa => negb sa.2) (zip splits are_static_vals)) in
            let static_vals := map fst (List.filter (fun sa => sa.2) (zip splits are_static_vals)) in
            let s := Py.Qsum static_vals in
            if Py.Qlt_bool (inject_Z length) s then
              Raise (ValueError "Static values have sum exceeding given length")
            else Ok (ratios, (inject_Z length - s)%Q)
          else Ok (splits, inject_Z length));
    let ratios := rl.1 in
    let length := rl.2 in
    if (0 <? Py.len ratios) && negb (np_isclose (Py.Qsum ratios) 1) then
      Raise (ValueError "Sum of splits must equal 1.0")
    else
      let nums := map (fun sa : Q * bool => if sa.2 then Py.int sa.1
                                             else Py.int (sa.1 * length)%Q)
                      (zip splits are_static_vals) in
      Ok (starts_of 0 nums).

(** ** The chunking planner *)

(** Modelled from the spec: [DataProcedure] of [utils/archiving.py] is not
    among the sources at hand. A task of the archive is known by the
    function it wraps and the arguments of the call, which is what keys
    its cache. *)
#[warnings="-register-all"]
Inductive DataProcedure : Type :=
| DP_preprocess (archive_dir : string) (label_dir_pairs : list (string * string))
    (proc_start proc_num : Z) (object_profiles : list ObjectProfile)
    (observ_types : list string)
| DP_genFromDPs (archive_dir : string) (dps : list DataProcedure) (batch_size : Z).

Definition dp_window (dp : DataProcedure) : option (Z * Z) :=
  match dp with
  | DP_preprocess _ _ proc_start proc_num _ _ => Some (proc_start, proc_num)
  | DP_genFromDPs _ _ _ => None
  end.

Definition procsFrom_label_dir_pairs (start samples_per_label stride : Z)
    (archive_dir : string) (label_dir_pairs : list (string * string))
    (object_profiles : list ObjectProfile) (observ_types : list string)
    : result (list DataProcedure) :=
  let end_ := start + samples_per_label in
  proc_starts ← Py.range start end_ stride;
  Ok (map (fun proc_start =>
             let proc_num := Z.min stride (end_ - proc_start) in
             DP_preprocess archive_dir label_dir_pairs proc_start proc_num
                           object_profiles observ_types)
          proc_starts).

Definition strideFromTargetSize (object_profiles : list ObjectProfile)
    (num_labels : list (string * string)) (observ_types : list string)
    (megabytes : Q) : result Z :=
  sizes ← rmap (fun o => match max_size o with
                         | Some m => Ok m
                         | None => Raise (TypeError "unsupported operand type(s) for +")
                         end) object_profiles;
  let megabytes_per_sample :=
    (inject_Z (Py.Zsum sizes) * inject_Z (Py.len observ_types) * 24 / (1000 * 1000))%Q in
  if Qeq_bool megabytes_per_sample 0 then Raise ZeroDivisionError
  else Ok (Py.int (megabytes / megabytes_per_sample)).

Definition getGensDefaultFormat (archive_dir : string) (splits : list Q) (length : Z)
    (object_profiles : list ObjectProfile) (label_dir_pairs : list (string * string))
    (observ_types : list string) (batch_size : Z) (megabytes : Q)
    : result (list DataProcedure * list (DataProcedure * Z) * Z) :=
  stride ← strideFromTargetSize object_profiles label_dir_pairs observ_types 500;
  SNs ← start_num_fromSplits splits length;
  all ← rfold (fun (all : list DataProcedure * list (DataProcedure * Z)) (s : Z * Z) =>
                 dps ← procsFrom_label_dir_pairs s.1 s.2 stride archive_dir
                         label_dir_pairs object_profiles observ_types;
                 let gen_DP := DP_genFromDPs archive_dir dps batch_size in
                 let num_samples := Py.len label_dir_pairs * s.2 in
                 Ok (all.1 ++ dps, all.2 ++ [(gen_DP, num_samples)]))
              SNs ([], []);
  if batch_size =? 0 then Raise ZeroDivisionError
  else
    let max_q_size := Z.max (Qceiling (inject_Z stride / inject_Z batch_size)) 1 in
    Ok (all.1, all.2, max_q_size).

(** ** Arrays *)

(** A numpy array: its shape and its cells in row-major order. *)
Record ndarray : Type := mkArray { shape : list Z; data : list Q }.

Definition Zprod (l : list Z) : Z := fold_left Z.mul l 1.

(** [x.shape[0]] *)
Definition shape0 (x : ndarray) : result Z :=
  match shape x with
  | n :: _ => Ok n
  | [] => Raise IndexError
  end.

(** [x[start:end]] along the first axis, for [0 <= start] and [0 <= end]. *)
Definition nd_slice (x : ndarray) (start end_ : Z) : result ndarray :=
  match shape x with
  | [] => Raise IndexError
  | n :: rest =>
      let s := Z.min start n in
      let e := Z.max s (Z.min end_ n) in
      let k := Zprod rest in
      Ok {| shape := (e - s) :: rest; data := Py.slice (data x) (s * k) (e * k) |}
  end.

(** A value that is a list or a single object. *)
Inductive list_or (A : Type) : Type :=
| Single (a : A)
| Listed (l : list A).
Arguments Single {A} a.
Arguments Listed {A} l.

(** [if(not isinstance(X, list)): X = [X]] *)
Definition as_list {A} (x : list_or A) : list A :=
  match x with
  | Single a => [a]
  | Listed l => l
  end.

(** ** The batch generator *)

(** Modelled from the spec: [DataProcedure.getData] resolves a task to its
    [(X, Y)]; it returns what was computed for the same call before, so
    it is a function of the task. *)
Class Archive : Type := {
  getData : DataProcedure -> result (list_or ndarray * list_or ndarray)
}.

(** An element of the list handed to the generator. *)
Inductive pyobj : Type :=
| Obj_DP (dp : DataProcedure)
| Obj_other (type_name : string).

Definition batch : Type := list ndarray * list ndarray.

(** Where the generator is suspended: before its first step, at the top
    of [while True], in the loop over the tasks (with the indices still to
    visit), or in the loop over the batches of a chunk (with the starts
    still to visit). *)
Inductive gen_state : Type :=
| G_init
| G_epoch
| G_chunk (todo : list Z)
| G_batch (todo : list Z) (X Y : list ndarray) (tot : Z) (starts : list Z).

Section Generator.
Context `{Archive}.
Variable dps : list pyobj.
Variable batch_size : Z.

(** One step of the body of [genFromDPs] with [threading=False]: either a
    batch is yielded or control moves on silently. *)
Definition genFromDPs_step (s : gen_state) : result (option batch * gen_state) :=
  match s with
  | G_init =>
      if forallb (fun dp => match dp with Obj_DP _ => true | Obj_other _ => false end) dps
      then Ok (None, G_epoch)
      else Raise (TypeError "Only takes DataProcedure")
  | G_epoch =>
      todo ← Py.range 0 (Py.len dps) 1;
      Ok (None, G_chunk todo)
  | G_chunk [] => Ok (None, G_epoch)
  | G_chunk (i :: todo) =>
      dp ← Py.getitem dps i;
      XY ← (match dp with
            | Obj_DP d => getData d
            | Obj_other _ => Raise AttributeError
            end);
      let X := as_list XY.1 in
      let Y := as_list XY.2 in
      y0 ← Py.getitem Y 0;
      tot ← shape0 y0;
      x0 ← Py.getitem X 0;
      totx ← shape0 x0;
      if negb (tot =? totx) then Raise (AssertionError "")
      else
        starts ← Py.range 0 tot batch_size;
        Ok (None, G_batch todo X Y tot starts)
  | G_batch todo X Y tot [] => Ok (None, G_chunk todo)
  | G_batch todo X Y tot (start :: starts) =>
      let end_ := start + Z.min batch_size (tot - start) in
      bx ← rmap (fun x => nd_slice x start end_) X;
      by_ ← rmap (fun y => nd_slice y start end_) Y;
      Ok (Some (bx, by_), G_batch todo X Y tot starts)
  end.

(** [next(gen)]: run to the next [yield]. [None] when [fuel] steps did
    not reach one. *)
Fixpoint genFromDPs_next (fuel : nat) (s : gen_state)
    : option (result (batch * gen_state)) :=
  match fuel with
  | O => None
  | S fuel' =>
      match genFromDPs_step s with
      | Raise e => Some (Raise e)
      | Ok (Some b, s') => Some (Ok (b, s'))
      | Ok (None, s') => genFromDPs_next fuel' s'
      end
  end.

(** The first [n] batches, each found within [fuel] steps. *)
Fixpoint genFromDPs_take (fuel : nat) (n : nat) (s : gen_state)
    : option (result (list batch * gen_state)) :=
  match n with
  | O => Some (Ok ([], s))
  | S n' =>
      match genFromDPs_next fuel s with
      | None => None
      | Some (Raise e) => Some (Raise e)
      | Some (Ok (b, s')) =>
          match genFromDPs_take fuel n' s' with
          | None => None
          | Some (Raise e) => Some (Raise e)
          | Some (Ok (bs, s'')) => Some (Ok (b :: bs, s''))
          end
      end
  end.

End Generator.

(** ** Export and import *)

(** What a file of an export directory holds: a text file with a shape
    header and rows of numbers, or a saved array. The text of a number
    ([%.18e]) is taken to determine the number. *)
Inductive file_content : Type :=
| F_csv (header : string) (table : list (list Q))
| F_npy (a : ndarray).

Record disk : Type := mkDisk {
  dirs : gset string;
  files : gmap string file_content
}.

(** [if(d[len(d)-1] != "/"): d = d + "/"] *)
Definition with_slash (d : string) : result string :=
  if String.eqb d "" then Raise IndexError
  else if Py.ends_with "/" d then Ok d
  else Ok (d +:+ "/").

(** [if(not os.path.isdir(d)): os.makedirs(d)] *)
Definition ensure_dir (d : string) (dk : disk) : disk :=
  {| dirs := {[ d ]} ∪ dirs dk; files := files dk |}.

Definition write_file (p : string) (c : file_content) (dk : disk) : disk :=
  {| dirs := dirs dk; files := <[p := c]> (files dk) |}.

(** [s.split(",")] *)
Fixpoint split_commas (s : string) : list string :=
  match s with
  | EmptyString => [EmptyString]
  | String c s' =>
      if Ascii.eqb c "," then EmptyString :: split_commas s'
      else match split_commas s' with
           | [] => [String c EmptyString]
           | w :: ws => String c w :: ws
           end
  end.

Definition is_digit (c : ascii) : bool :=
  let n := nat_of_ascii c in ((48 <=? n) && (n <=? 57))%nat.

(** [re.sub("\D", "", s)] *)
Fixpoint only_digits (s : string) : string :=
  match s with
  | EmptyString => EmptyString
  | String c s' => if is_digit c then String c (only_digits s') else only_digits s'
  end.

(** [int(s)] on a string of digits; the empty string raises. *)
Definition int_of_digits (s : string) : result Z :=
  if String.eqb s "" then Raise (ValueError "invalid literal for int() with base 10: ''")
  else Ok (fold_left (fun acc c => 10 * acc + (Z.of_nat (nat_of_ascii c) - 48))
                     (list_ascii_of_string s) 0).

(** [str(shape)] for a tuple of dimensions. *)
Definition str_shape (sh : list Z) : string :=
  match sh with
  | [] => "()"
  | [n] => "(" +:+ Py.str_nat (Z.to_nat n) +:+ ",)"
  | n :: sh' =>
      "(" +:+ fold_left (fun acc m => acc +:+ ", " +:+ Py.str_nat (Z.to_nat m))
                        sh' (Py.str_nat (Z.to_nat n)) +:+ ")"
  end.

(** The rows of [np.reshape(obj, (rows, cols))] as [np.savetxt] writes them. *)
Fixpoint chunks (rows : nat) (cols : nat) (d : list Q) : list (list Q) :=
  match rows with
  | O => []
  | S rows' => firstn cols d :: chunks rows' cols (skipn cols d)
  end.

Definition newline : string := String (ascii_of_nat 10) EmptyString.

(** The inner [writeit] of [XY_to_CSV], with the index [i] of the array. *)
Definition csv_writeit (obj : ndarray) (path strbeginning : string) (i : nat)
    (dk : disk) : result disk :=
  let p := path +:+ strbeginning +:+ Py.str_nat i +:+ ".csv" in
  let header := "#Shape: " +:+ str_shape (shape obj) +:+ newline in
  match shape obj with
  | [] => Raise IndexError
  | n :: rest =>
      Ok (write_file p (F_csv header (chunks (Z.to_nat n) (Z.to_nat (Zprod rest)) (data obj))) dk)
  end.

Definition XY_to_CSV (X Y : list_or ndarray) (csvdir : string) (dk : disk) : result disk :=
  csvdir ← with_slash csvdir;
  let dk := ensure_dir csvdir dk in
  let X_path := csvdir +:+ "X/" in
  let Y_path := csvdir +:+ "Y/" in
  let dk := ensure_dir Y_path (ensure_dir X_path dk) in
  dk ← rfold (fun dk (ix : nat * ndarray) => csv_writeit ix.2 X_path "X_" ix.1 dk)
             (zip (seq 0 (length (as_list X))) (as_list X)) dk;
  rfold (fun dk (iy : nat * ndarray) => csv_writeit iy.2 Y_path "Y_" iy.1 dk)
        (zip (seq 0 (length (as_list Y))) (as_list Y)) dk.

(** [glob.glob(path + "*")] followed by [files.sort()]: the names directly
    under [path], in code-point order. *)
Definition sorted_glob (path : string) (dk : disk) : list string :=
  Py.sort_strings
    (List.filter (fun p => String.prefix path p &&
                           negb (existsb (Ascii.eqb "/")
                                   (list_ascii_of_string
                                      (String.substring (String.length path)
                                         (String.length p - String.length path) p))))
                 (map fst (map_to_list (files dk)))).

(** The inner [readit] of [XY_from_CSV]. *)
Definition csv_readit (path : string) (dk : disk) : result ndarray :=
  match files dk !! path with
  | Some (F_csv shape_str table) =>
      sh ← rmap (fun s => int_of_digits (only_digits s)) (split_commas shape_str);
      let arr := concat table in
      if Zprod sh =? Py.len arr then Ok {| shape := sh; data := arr |}
      else Raise (ValueError "total size of new array must be unchanged")
  | Some (F_npy _) => Raise (ValueError "could not convert string to float")
  | None => Raise (IOError "No such file or directory")
  end.

Definition XY_from_CSV (csvdir : string) (dk : disk)
    : result (list ndarray * list ndarray) :=
  csvdir ← with_slash csvdir;
  let X_path := csvdir +:+ "X/" in
  let Y_path := csvdir +:+ "Y/" in
  if negb (bool_decide (X_path ∈ dirs dk)) || negb (bool_decide (Y_path ∈ dirs dk)) then
    Raise (IOError "csv directory does not contain X/, Y/")
  else
    X ← rmap (fun p => csv_readit p dk) (sorted_glob X_path dk);
    Y ← rmap (fun p => csv_readit p dk) (sorted_glob Y_path dk);
    Ok (X, Y).

(** The inner [writeit] of [XY_to_pickle]: [np.save] adds the extension. *)
Definition pickle_writeit (obj : ndarray) (path strbeginning : string) (i : nat)
    (dk : disk) : disk :=
  let p := path +:+ strbeginning +:+ Py.str_nat i in
  write_file (p +:+ ".npy") (F_npy obj) dk.

Definition XY_to_pickle (X Y : list_or ndarray) (pickledir : string) (dk : disk)
    : result disk :=
  pickledir ← with_slash pickledir;
  let dk := ensure_dir pickledir dk in
  let X_path := pickledir +:+ "X/" in
  let Y_path := pickledir +:+ "Y/" in
  let dk := ensure_dir Y_path (ensure_dir X_path dk) in
  let dk := fold_left (fun dk (ix : nat * ndarray) => pickle_writeit ix.2 X_path "X_" ix.1 dk)
                      (zip (seq 0 (length (as_list X))) (as_list X)) dk in
  Ok (fold_left (fun dk (iy : nat * ndarray) => pickle_writeit iy.2 Y_path "Y_" iy.1 dk)
                (zip (seq 0 (length (as_list Y))) (as_list Y)) dk).

(** The inner [readit] of [XY_from_pickle]. *)
Definition pickle_readit (path : string) (dk : disk) : result ndarray :=
  match files dk !! path with
  | Some (F_npy arr) => Ok arr
  | Some (F_csv _ _) => Raise (IOError "Failed to interpret file as a pickle")
  | None => Raise (IOError "No such file or directory")
  end.

Definition XY_from_pickle (pickledir : string) (dk : disk)
    : result (list ndarray * list ndarray) :=
  pickledir ← with_slash pickledir;
  let X_path := pickledir +:+ "X/" in
  let Y_path := pickledir +:+ "Y/" in
  if negb (bool_decide (X_path ∈ dirs dk)) || negb (bool_decide (Y_path ∈ dirs dk)) then
    Raise (IOError "Pickle directory does not contain X/, Y/")
  else
    X ← rmap (fun p => pickle_readit p dk) (sorted_glob X_path dk);
    Y ← rmap (fun p => pickle_readit p dk) (sorted_glob Y_path dk);
    Ok (X, Y).

(** The disk before anything was exported. *)
Definition empty_disk : disk := {| dirs := ∅; files := ∅ |}.

Definition cell_array (v : Z) : ndarray := {| shape := [1; 1]; data := [inject_Z v] |}.

Definition eleven_arrays : list ndarray := map cell_array [0; 1; 2; 3; 4; 5; 6; 7; 8; 9; 10].

(** ** Vocabulary of the specification *)

(** [tiles lo hi ws]: the windows [ws], in their order, follow one another
    without gap or overlap from [lo] and end at [hi]. *)
Inductive tiles : Z -> Z -> list (Z * Z) -> Prop :=
| tiles_nil lo : tiles lo lo []
| tiles_cons lo n hi ws :
    0 <= n -> tiles (lo + n) hi ws -> tiles lo hi ((lo, n) :: ws).

(** The sample [x] lies in the window [w]. *)
Definition in_window (x : Z) (w : Z * Z) : Prop := w.1 <= x < w.1 + w.2.

(** A split that is an absolute count, and one that is a ratio. *)
Definition is_count (x : Q) : bool :=
  Qle_bool 0 x && Qeq_bool x (inject_Z (Py.int x)).

Definition is_fraction (x : Q) : bool :=
  Py.Qlt_bool 0 x && Py.Qlt_bool x 1.

(** A split that is not a positive count: a fraction, or a count of
    zero. *)
Definition is_ratio (x : Q) : bool := is_fraction x || Qeq_bool x 0.

(** A valid list of splits for a budget: counts and fractions only, the
    counts within the budget, and the fractions adding up to about one
    when the list holds a split that is not a positive count. A list of
    positive counts alone has no sum of fractions to meet. *)
Definition valid_splits (splits : list Q) (length : Z) : Prop :=
  Forall (fun x => is_count x = true \/ is_fraction x = true) splits /\
  (Py.Qsum (List.filter is_count splits) <= inject_Z length)%Q /\
  (existsb is_ratio splits = true ->
   np_isclose (Py.Qsum (List.filter is_fraction splits)) 1 = true).

(** What the counts leave of the budget. *)
Definition left_over (splits : list Q) (length : Z) : Q :=
  (inject_Z length - Py.Qsum (List.filter is_count splits))%Q.

(** What a split receives: a fraction the integer part of its share of
    what the counts leave, a count itself. *)
Definition share (splits : list Q) (length : Z) (x : Q) : Z :=
  if is_fraction x then Py.int (x * left_over splits length)%Q else Py.int x.

(** The window of the task that starts at [proc_start]. *)
Definition chunk_of (stop stride proc_start : Z) : Z * Z :=
  (proc_start, Z.min stride (stop - proc_start)).

(** [addColumns] is neither [None] nor a dictionary. *)
Definition bad_addColumns (a : pyval) : Prop :=
  a <> PyNone /\ forall d, a <> PyDict d.

(** The array [x] has [n] samples along its first axis. *)
Definition has_samples (n : Z) (x : ndarray) : Prop :=
  exists rest, shape x = n :: rest.

(** A resolved chunk [(X, Y)] of [n] samples. *)
Definition holds_samples (n : Z) (XY : list_or ndarray * list_or ndarray) : Prop :=
  as_list XY.1 <> [] /\ as_list XY.2 <> [] /\
  Forall (has_samples n) (as_list XY.1) /\ Forall (has_samples n) (as_list XY.2).

(** The samples [a], ..., [b - 1] of an array, in their order. *)
Definition sample_range (a b : Z) (x : ndarray) : ndarray :=
  {| shape := (b - a) :: tail (shape x);
     data := Py.slice (data x) (a * Zprod (tail (shape x))) (b * Zprod (tail (shape x))) |}.

(** The same samples of every array of a chunk. *)
Definition batch_of (a b : Z) (XY : list_or ndarray * list_or ndarray) : batch :=
  (map (sample_range a b) (as_list XY.1), map (sample_range a b) (as_list XY.2)).

(** One pass over two chunks of ten samples in batches of four. *)
Definition two_chunk_pass (c1 c2 : list_or ndarray * list_or ndarray) : list batch :=
  [batch_of 0 4 c1; batch_of 4 8 c1; batch_of 8 10 c1;
   batch_of 0 4 c2; batch_of 4 8 c2; batch_of 8 10 c2].

(** An archive whose chunk tasks resolve to ten samples each: one input
    array that counts on from the start of the window, and the labels. *)
Definition counting_chunk (start : Z) : list_or ndarray * list_or ndarray :=
  (Listed [mkArray [10; 1] (map (fun i => inject_Z (start + Z.of_nat i)) (seq 0 10))],
   Single (mkArray [10; 2] (concat (repeat [1; 0]%Q 10)))).

Definition counting_archive : Archive :=
  {| getData := fun dp =>
       match dp_window dp with
       | Some w => Ok (counting_chunk w.1)
       | None => Raise (TypeError "not a chunk task")
       end |}.

(** The files of a source directory, as the scans visit them. *)
Definition dir_files (fs : filesystem) (data_dir : string) : list string :=
  let here := default [] (fs_dirs fs !! data_dir) in
  let msgFiles := List.filter (Py.ends_with ".msg") here in
  let hdfFiles := List.filter (Py.ends_with ".h5") here in
  Py.sort_strings (if Py.len msgFiles =? 0 then hdfFiles else msgFiles).

(** The row counts of the object type [key] for the entries of a file. *)
Definition file_counts (fs : filesystem) (key : string) (f : string) : list Z :=
  match fs_files fs !! f ≫= NumValues with
  | Some nv => default [] (nv_columns nv !! key)
  | None => []
  end.

(** The same for all entries of all files of all source directories. *)
Definition all_counts (fs : filesystem) (label_dir_pairs : list (string * string))
    (key : string) : list Z :=
  concat (map (fun pair : string * string =>
                 concat (map (file_counts fs key) (dir_files fs pair.2)))
              label_dir_pairs).

(** The largest of them, and 0 when there is none. *)
Definition observed_max (fs : filesystem) (label_dir_pairs : list (string * string))
    (key : string) : Z :=
  fold_left Z.max (all_counts fs label_dir_pairs key) 0.

(** No row-count index of the file system is empty. *)
Definition nonempty_indexes (fs : filesystem) : Prop :=
  forall f file nv key col,
    fs_files fs !! f = Some file -> NumValues file = Some nv ->
    nv_columns nv !! key = Some col -> col <> [].

(** The running maxima follow the counts seen so far. *)
Definition tracks (names : list string) (maxes : gmap string pynum)
    (seen : string -> list Z) : Prop :=
  forall k, k ∈ names -> maxes !! k = Some (Int (fold_left Z.max (seen k) 0)).

(** What the size resolver leaves in a profile. *)
Definition resolved_profile (fs : filesystem) (label_dir_pairs : list (string * string))
    (padding_multiplier : Q) (p : ObjectProfile) : ObjectProfile :=
  if unresolved_max p then
    set_max_size p (Qceiling (inject_Z (observed_max fs label_dir_pairs (name p))
                              * padding_multiplier))
  else p.

(** The number of rows that the punctuation of a profile adds. *)
Definition punctuation_rows (p : ObjectProfile) : Z :=
  match punctuation p with
  | PyNone => 0
  | _ => 1
  end.

(** The entry is seen in the slice of the table. *)
Definition observed (frame : DataFrame) (entry : Z) : Prop :=
  entry ∈ map Entry (rows frame).

(** The slot of the sample list that belongs to an entry. *)
Definition slot_of (arr_start file_start_read entry : Z) : nat :=
  Z.to_nat (arr_start + entry - file_start_read).

(** [np.zeros((n, w))] as a value. *)
Definition zeros (n w : Z) : array2 := Py.replicate (Py.replicate 0%Q w) n.

(** What [padItem] makes of an array before any shuffle. *)
Definition padded (x : array2) (max_size vecsize : Z) : array2 :=
  if max_size <? Py.len x then firstn (Z.to_nat max_size) x
  else x ++ zeros (max_size - Py.len x) vecsize.

(** A small source: one directory with two files and one object type. *)
Definition photon_counts (counts : list Z) : pandas_file :=
  {| NumValues := Some {| nv_entries := Py.len counts;
                          nv_columns := {[ "Photon" := counts ]} |};
     tables := ∅ |}.

Definition two_file_source : filesystem :=
  {| fs_dirs := {[ "data/qcd/" := ["data/qcd/b.h5"; "data/qcd/a.h5"] ]};
     fs_files := {[ "data/qcd/a.h5" := photon_counts [2; 5; 1];
                    "data/qcd/b.h5" := photon_counts [3; 7] ]} |}.

(** A source directory with three files, given by the row counts of the
    photons in the entries of each; a file may have no entry. *)
Definition three_file_source (a b c : list Z) : filesystem :=
  {| fs_dirs := {[ "data/qcd/" := ["data/qcd/a.h5"; "data/qcd/b.h5"; "data/qcd/c.h5"] ]};
     fs_files := {[ "data/qcd/a.h5" := photon_counts a;
                    "data/qcd/b.h5" := photon_counts b;
                    "data/qcd/c.h5" := photon_counts c ]} |}.

Definition photon_profile (max_size : option Z) : ObjectProfile :=
  mkObjectProfile "Photon" max_size None (AscBool true) None (AscBool true) None false
                  PyNone PyNone "ObjectProfile".

(** A table of photons for three entries, of which the second has none,
    a profile that keeps two of them, shuffles and punctuates with 9, and
    a source directory that holds the table. *)
Definition photon_table : DataFrame :=
  {| columns := ["E"; "PT"];
     rows := [mkRow 0 [5; 1]%Q; mkRow 0 [6; 2]%Q; mkRow 0 [7; 3]%Q; mkRow 2 [8; 4]%Q] |}.

Definition punctuated_photons : ObjectProfile :=
  mkObjectProfile "Photon" (Some 2) None (AscBool true) None (AscBool true) None true
                  PyNone (PyNum 9) "ObjectProfile".

Definition photon_source : filesystem :=
  {| fs_dirs := {[ "data/qcd/" := ["data/qcd/a.h5"] ]};
     fs_files := {[ "data/qcd/a.h5" :=
                      {| NumValues := Some {| nv_entries := 3;
                                              nv_columns := {[ "Photon" := [3; 0; 1] ]} |};
                         tables := {[ "Photon" := photon_table ]} |} ]} |}.

(** A tensor that the engine may emit for a profile: the tensor of an
    observed entry, or the zero tensor of an entry that was not seen. *)
Definition good_tensor (p : ObjectProfile) (vecsize : Z) (t : array2) : Prop :=
  exists m, max_size p = Some m /\
            (has_shape t (m + punctuation_rows p) vecsize \/ t = zeros m vecsize).

(** A slot of a sample list on the way: still empty, or filled with such
    a tensor. *)
Definition slot_ok (p : ObjectProfile) (vecsize : Z) (slot : option array2) : Prop :=
  slot = None \/ exists t, slot = Some t /\ good_tensor p vecsize t.

(** A sample list on the way: of [total] slots, all of them in order and
    the first [filled] of them filled. *)
Definition samples_ok (p : ObjectProfile) (vecsize : Z) (total : nat) (filled : Z)
    (arr : list (option array2)) : Prop :=
  length arr = total /\
  (forall n slot, arr !! n = Some slot -> slot_ok p vecsize slot) /\
  (forall n : nat, Z.of_nat n < filled -> arr !! n <> Some None).

(** The sample lists of all the profiles on the way, those before
    [split] with [filled'] and the others with [filled] slots filled, and
    the positions that are kept of it. *)
Definition lists_ok (profiles : list ObjectProfile) (vecsize : Z) (total : nat)
    (split : nat) (filled' filled : Z)
    (X : list (list (option array2)) * list Z) : Prop :=
  length X.1 = length profiles /\ length X.2 = length profiles /\
  forall (i : nat) p, profiles !! i = Some p ->
    exists arr, X.1 !! i = Some arr /\
                X.2 !! i = Some (if (i <? split)%nat then filled' else filled) /\
                samples_ok p vecsize total
                  (if (i <? split)%nat then filled' else filled) arr.

(** A profile as the constructor leaves it. *)
Definition constructed (pa : profile_arg) : Prop :=
  match pa with
  | P_obj p => forall m, max_size p = Some m -> -1 <= m
  | P_dict _ => True
  end.

(** Library instances on which the statements below are run: a
    generator whose shuffle reverses, and a pandas whose sort and query
    keep the frame as it is. *)
Definition reversing_random : NumpyRandom :=
  {| rng := unit; np_random_shuffle := fun A l g => (rev l, g) |}.

Definition plain_pandas : Pandas :=
  {| pd_sort := fun _ _ x => Ok x; pd_query := fun _ x => Ok x |}.

Definition quiet_world : @world reversing_random :=
  @mkWorld reversing_random [] tt.

(** ** The mutual length of the sources *)

(** [min(l)] *)
Definition py_min (l : list Z) : result Z :=
  match l with
  | [] => Raise (ValueError "min() arg is an empty sequence")
  | a :: l' => Ok (fold_left Z.min l' a)
  end.

Section MutualLength.
Context `{NumpyRandom}.
Variable fs : filesystem.

(** [store.keys()]: the paths of the tables of an HDF store. *)
Definition store_keys (f : string) : list string :=
  match fs_files fs !! f with
  | Some file =>
      (match NumValues file with Some _ => ["/NumValues"] | None => [] end)
      ++ map (fun kv : string * DataFrame => "/" +:+ kv.1) (map_to_list (tables file))
  | None => []
  end.

(** Lines 501-541: the number of entries of one file. The store that is
    opened for an [.h5] file is not closed. *)
Definition count_entries (st : storeType) (keys : option (list string)) (f : string)
    : M Z :=
  num_val_frame ←
    match st with
    | hdf5 =>
        _ ← emit (Ev_store_open f);
        if match keys with
           | Some ks => negb (forallb (fun k => bool_decide (k ∈ store_keys f)) ks)
           | None => false
           end
        then raise (KeyError ("File: " +:+ f +:+ " may be corrupted"))
        else
          _ ← emit (Ev_store_get f "/NumValues");
          match fs_files fs !! f ≫= NumValues with
          | Some nv => mret nv
          | None => raise (KeyError ("/NumValues " +:+ f))
          end
    | msgpack =>
        _ ← emit (Ev_read_msgpack f);
        match fs_files fs !! f with
        | Some file =>
            match NumValues file with
            | Some nv => mret nv
            | None => raise (KeyError "NumValues")
            end
        | None => raise (IOError "unreadable file")
        end
    end;
  mret (nv_entries num_val_frame).

Definition maxMutualLength (label_dir_pairs : list (string * string))
    (object_profiles : option (list ObjectProfile)) : M Z :=
  label_totals ←
    foldM (fun (label_totals : gmap string Z) (pair : string * string) =>
             fst ← getFiles_StoreType fs pair.2;
             let files := Py.sort_strings fst.1 in
             let keys := map (fun o => "/" +:+ name o) <$> object_profiles in
             foldM (fun (label_totals : gmap string Z) f =>
                      file_total_entries ← count_entries fst.2 keys f;
                      match label_totals !! pair.1 with
                      | Some t => mret (<[pair.1 := t + file_total_entries]> label_totals)
                      | None => raise (KeyError pair.1)
                      end)
                   files (<[pair.1 := 0]> label_totals))
          label_dir_pairs ∅;
  lift (py_min (map snd (map_to_list label_totals))).

End MutualLength.

(** ** The generator over the sources *)

(** A generator of [genFromDPs] does nothing before its first [next]; it
    is known by the list and the batch size it was made for, and
    [genFromDPs_step] runs it from [G_init]. *)
Definition genFrom_label_dir_pairs (start samples_per_label stride batch_size : Z)
    (archive_dir : string) (label_dir_pairs : list (string * string))
    (object_profiles : list ObjectProfile) (observ_types : list string)
    : result (list pyobj * Z) :=
  dps ← procsFrom_label_dir_pairs start samples_per_label stride archive_dir
          label_dir_pairs object_profiles observ_types;
  Ok (map Obj_DP dps, batch_size).

(** ** Further vocabulary *)

(** The size of one sample in megabytes, as [strideFromTargetSize] takes
    it: 24 bytes for each cell of each object. *)
Definition megabytes_per_sample (sizes : list Z) (observ_types : list string) : Q :=
  (inject_Z (Py.Zsum sizes) * inject_Z (Py.len observ_types) * 24 / (1000 * 1000))%Q.

(** The vector of the label at position [i] among [n] labels: a one at
    [i], zeros elsewhere. *)
Definition one_hot (n : Z) (i : nat) : list Q := <[i := 1%Q]> (Py.replicate 0%Q n).

(** The labels of the samples before the final shuffle: the sources in
    their order, [samples_per_label] slots for each, every slot with the
    vector of its source. *)
Definition label_column (num_labels : nat) (samples_per_label : Z)
    : list (option (list Q)) :=
  map (fun n => Some (one_hot (Z.of_nat num_labels) (n / Z.to_nat samples_per_label)))
      (seq 0 (num_labels * Z.to_nat samples_per_label)).

(** The number of entries of a file, which is the length of its
    row-count index, and of a source directory. *)
Definition file_entries (fs : filesystem) (f : string) : Z :=
  match fs_files fs !! f ≫= NumValues with
  | Some nv => nv_entries nv
  | None => 0
  end.

Definition dir_entries (fs : filesystem) (data_dir : string) : Z :=
  Py.Zsum (map (file_entries fs) (dir_files fs data_dir)).

(** No row-count index has a negative length. *)
Definition counted_indexes (fs : filesystem) : Prop :=
  forall f file nv,
    fs_files fs !! f = Some file -> NumValues file = Some nv -> 0 <= nv_entries nv.

(** From one row to the next the rows never step down, or never step
    up, in the column [loc]. *)
Definition ascending_on (loc : nat) (x : array2) : Prop :=
  Sorted (fun r1 r2 : list Q => (nth loc r1 0 <= nth loc r2 0)%Q) x.

Definition descending_on (loc : nat) (x : array2) : Prop :=
  Sorted (fun r1 r2 : list Q => (nth loc r2 0 <= nth loc r1 0)%Q) x.

(** The file extension of each kind of store, and the other kind. *)
Definition extension (st : storeType) : string :=
  match st with hdf5 => ".h5" | msgpack => ".msg" end.

Definition other_store (st : storeType) : storeType :=
  match st with hdf5 => msgpack | msgpack => hdf5 end.

(** The names under a directory prefix that end in the extension of a
    kind of store. *)
Definition listed (fs : filesystem) (data_dir : string) (st : storeType) : list string :=
  List.filter (Py.ends_with (extension st)) (default [] (fs_dirs fs !! data_dir)).

(** The directory name with its final slash, as the export and the
    import use it. *)
Definition slashed (d : string) : string :=
  if Py.ends_with "/" d then d else d +:+ "/".

(** No file of the disk has a name that starts with [path]. *)
Definition nothing_under (path : string) (dk : disk) : Prop :=
  forall p, is_Some (files dk !! p) -> String.prefix path p = false.

(** Nothing was exported to the directory before. *)
Definition fresh_export_dir (d : string) (dk : disk) : Prop :=
  nothing_under (slashed d +:+ "X/") dk /\ nothing_under (slashed d +:+ "Y/") dk.

(** The name of the file of the array at index [i]. *)
Definition export_name (path strbeginning ext : string) (i : nat) : string :=
  path +:+ strbeginning +:+ Py.str_nat i +:+ ext.

(** The disk after one file was written for each array of [l], the
    indices counted from [a]. *)
Definition write_all (name : nat -> string) (content : ndarray -> file_content)
    (a : nat) (l : list ndarray) (dk : disk) : disk :=
  fold_left (fun dk (ix : nat * ndarray) => write_file (name ix.1) (content ix.2) dk)
            (zip (seq a (length l)) l) dk.

(** The text of a number holds digits only. *)
Definition all_digits (s : string) : Prop :=
  Forall (fun c => is_digit c = true) (list_ascii_of_string s).

(** The file that the inner [writeit] of [XY_to_CSV] writes for an
    array: the shape line and the rows of the reshaped array. *)
Definition csv_content (obj : ndarray) : file_content :=
  F_csv ("#Shape: " +:+ str_shape (shape obj) +:+ newline)
        (match shape obj with
         | [] => []
         | n :: rest => chunks (Z.to_nat n) (Z.to_nat (Zprod rest)) (data obj)
         end).

(** An array as numpy holds it: no negative dimension, and as many
    numbers as the shape says. *)
Definition well_formed (x : ndarray) : Prop :=
  Forall (fun n => 0 <= n) (shape x) /\ Zprod (shape x) = Py.len (data x).

(** The number of dimensions of an array. *)
Definition ndim (x : ndarray) : nat := length (shape x).

(** ** The text of a profile *)

(** [repr] of the attribute values, as ['%r'] formats them. *)
Class PyRepr : Type := {
  repr_name : string -> string;
  repr_max_size : option Z -> string;
  repr_columns : list string -> string;
  repr_ascending : asc_flag -> string;
  repr_query : string -> string;
  repr_shuffle : bool -> string
}.

(** [ObjectProfile.__str__] *)
Definition ObjectProfile_str `{PyRepr} (self : ObjectProfile) : string :=
  let main_clause :=
    "name:" +:+ repr_name (name self) +:+ " max_size=" +:+ repr_max_size (max_size self) +:+ " " in
  let sort_clause := "" in
  let query_clause := "" in
  let sort_clause :=
    match pre_sort_columns self with
    | Some c => "pre_sort_columns=" +:+ repr_columns c +:+ " pre_sort_ascending="
                +:+ repr_ascending (pre_sort_ascending self) +:+ " "
    | None => sort_clause
    end in
  let sort_clause :=
    match sort_columns self with
    | Some c => "sort_columns=" +:+ repr_columns c +:+ " sort_ascending="
                +:+ repr_ascending (sort_ascending self) +:+ " "
    | None => sort_clause
    end in
  let query_clause :=
    match query self with
    | Some q => "query=" +:+ repr_query q +:+ " "
    | None => query_clause
    end in
  let shuffle_clause := "shuffle=" +:+ repr_shuffle (shuffle self) in
  main_clause +:+ sort_clause +:+ query_clause +:+ shuffle_clause.

(** The profile with other pre-sort instructions. *)
Definition with_pre_sort (p : ObjectProfile) (cols : option (list string)) (asc : asc_flag)
    : ObjectProfile :=
  {| name := name p;
     max_size := max_size p;
     pre_sort_columns := cols;
     pre_sort_ascending := asc;
     sort_columns := sort_columns p;
     sort_ascending := sort_ascending p;
     query := query p;
     shuffle := shuffle p;
     addColumns := addColumns p;
     punctuation := punctuation p;
     class_name := class_name p |}.

(** ** The argument decoder *)

(** A value that is passed to the decoder; the items of a dictionary are
    in the order of its iteration. *)
#[warnings="-register-all"]
Inductive argument : Type :=
| A_none
| A_bool (b : bool)
| A_num (n : Z)
| A_str (s : string)
| A_strs (l : list string)
| A_dict (items : list (string * argument))
| A_profiles (l : list ObjectProfile).

(** [d.get(key, default)] on the items of a dictionary. *)
Fixpoint dict_get (items : list (string * argument)) (key : string) (default : argument)
    : argument :=
  match items with
  | [] => default
  | (k, v) :: items' => if String.eqb k key then v else dict_get items' key default
  end.

(** [v == s] for a string [s]. *)
Definition eq_str (v : argument) (s : string) : bool :=
  match v with
  | A_str t => String.eqb t s
  | _ => false
  end.

(** [v[key]] for a string [key]. *)
Definition getitem_str (v : argument) (key : string) : result argument :=
  match v with
  | A_dict items =>
      if existsb (fun kv => String.eqb kv.1 key) items then Ok (dict_get items key A_none)
      else Raise (KeyError key)
  | A_str _ => Raise (TypeError "string indices must be integers")
  | A_strs _ => Raise (TypeError "list indices must be integers")
  | _ => Raise (TypeError "object is not subscriptable")
  end.

(** [v.get(key, default)] *)
Definition get_default (v : argument) (key : string) (default : argument) : result argument :=
  match v with
  | A_dict items => Ok (dict_get items key default)
  | _ => Raise AttributeError
  end.

Section Decoder.
(** The call [ObjectProfile(a1, a2, a3, a4, a5, a6)] on six positional
    values of any type. *)
Variable construct :
  argument -> argument -> argument -> argument -> argument -> argument -> result ObjectProfile.

(** The body of the inner loop: [profile] is what the iteration over the
    dictionary yields. *)
Definition decode_profile (profile : argument) : result ObjectProfile :=
  a1 ← getitem_str profile "name";
  a2 ← get_default profile "max_size" (A_num 100);
  a3 ← get_default profile "sort_columns" A_none;
  a4 ← get_default profile "sort_ascending" (A_bool true);
  a5 ← get_default profile "query" A_none;
  a6 ← get_default profile "shuffle" (A_bool false);
  construct a1 a2 a3 a4 a5 a6.

(** [isinstance(a, dict) and a.get('class_name', None) == "ObjectProfile"] *)
Definition is_profile_dict (a : argument) : bool :=
  match a with
  | A_dict items => eq_str (dict_get items "class_name" A_none) "ObjectProfile"
  | _ => false
  end.

Definition decode_argument (a : argument) : result argument :=
  if is_profile_dict a then
    match a with
    | A_dict profiles =>
        (* [for profile in profiles]: the iteration yields the keys *)
        decoded ← rmap decode_profile (map (fun kv => A_str kv.1) profiles);
        Ok (A_profiles decoded)
    | _ => Ok a
    end
  else Ok a.

Definition label_dir_pairs_args_decoder (args : list argument)
    (kargs : list (string * argument))
    : result (list argument * list (string * argument)) :=
  out ← rmap decode_argument args;
  Ok (out, kargs).

End Decoder.

(** * Properties *)

(** ** ObjectProfile *)

(** C10: the constructor raises [ValueError] exactly when [max_size < -1]
    or [addColumns] is neither [None] nor a dictionary, it raises nothing
    else, and on success every argument is stored on the instance as it
    was given; in particular [-1] and [0] are accepted. *)
Theorem ObjectProfile_init_raises_iff :
  forall nm ms psc psa sc sa q sh ac pu,
    let r := ObjectProfile_init nm ms psc psa sc sa q sh ac pu in
    ((exists msg, r = Raise (ValueError msg)) <-> (ms < -1 \/ bad_addColumns ac)) /\
    (forall e, r = Raise e -> exists msg, e = ValueError msg) /\
    (forall p, r = Ok p ->
       p = mkObjectProfile nm (Some ms) psc psa sc sa q sh ac pu "ObjectProfile") /\
    (forall a, ~ bad_addColumns a ->
       (exists p, ObjectProfile_init nm (-1) psc psa sc sa q sh a pu = Ok p) /\
       (exists p, ObjectProfile_init nm 0 psc psa sc sa q sh a pu = Ok p)).
Proof.
  intros nm ms psc psa sc sa q sh ac pu r. subst r.
  unfold ObjectProfile_init, bad_addColumns.
  repeat split.
  - intros [msg Hr]. destruct (Z.ltb_spec ms (-1)); [by left|].
    right. destruct ac; try discriminate; split; congruence.
  - intros [Hlt | [Hn Hd]].
    + destruct (Z.ltb_spec ms (-1)); [eauto | lia].
    + destruct (ms <? -1); [eauto|].
      destruct ac; [congruence | eauto | exfalso; eapply Hd; eauto].
  - intros e. destruct (ms <? -1); [intros [= <-]; eauto|].
    destruct ac; intros [= <-]; eauto.
  - intros p. destruct (ms <? -1); [discriminate|].
    destruct ac; intros [= <-]; reflexivity.
  - destruct a as [|x|d]; simpl; eauto.
    exfalso. apply H. split; [discriminate | intros d; discriminate].
  - destruct a as [|x|d]; simpl; eauto.
    exfalso. apply H. split; [discriminate | intros d; discriminate].
Qed.

(** ** Results *)

Lemma bind_Ok {A B} (r : result A) (k : A -> result B) (b : B) :
  (r ≫= k) = Ok b -> exists a, r = Ok a /\ k a = Ok b.
Proof. destruct r as [a|e]; [eauto | discriminate]. Qed.

Lemma fmap_Ok {A B} (f : A -> B) (r : result A) (b : B) :
  f <$> r = Ok b -> exists a, r = Ok a /\ b = f a.
Proof. destruct r as [a|e]; [intros [= <-]; eauto | discriminate]. Qed.

Ltac bind_inv H :=
  let a := fresh "a" in
  let E := fresh "E" in
  apply bind_Ok in H; destruct H as (a & E & H).

Lemma rmap_length {A B} (f : A -> result B) (l : list A) (bs : list B) :
  rmap f l = Ok bs -> length bs = length l.
Proof.
  revert bs. induction l as [|a l IH]; intros bs Hm; simpl in Hm.
  - by injection Hm as <-.
  - bind_inv Hm. bind_inv Hm. injection Hm as <-. simpl. f_equal. eauto.
Qed.

Lemma rmap_Forall2 {A B} (f : A -> result B) (l : list A) (bs : list B) :
  rmap f l = Ok bs -> Forall2 (fun a b => f a = Ok b) l bs.
Proof.
  revert bs. induction l as [|a l IH]; intros bs Hm; simpl in Hm.
  - injection Hm as <-. constructor.
  - bind_inv Hm. bind_inv Hm. injection Hm as <-. constructor; eauto.
Qed.

Lemma rmap_total {A B} (f : A -> result B) (l : list A) :
  Forall (fun a => exists b, f a = Ok b) l ->
  exists bs, rmap f l = Ok bs.
Proof.
  induction 1 as [|a l [b Hb] _ [bs Hbs]]; simpl; [eauto|].
  rewrite Hb; simpl. rewrite Hbs; simpl. eauto.
Qed.

(** ** Default generators *)

Lemma rfold_procs_chunks (g : Z * Z -> result (list DataProcedure))
    (tag : list DataProcedure -> Z * Z -> DataProcedure * Z) :
  forall SNs (acc r : list DataProcedure * list (DataProcedure * Z)),
    rfold (fun all s => dps ← g s; Ok (all.1 ++ dps, all.2 ++ [tag dps s])) SNs acc = Ok r ->
    exists chunks, rmap g SNs = Ok chunks /\ r.1 = acc.1 ++ concat chunks.
Proof.
  induction SNs as [|s SNs IH]; intros acc r Hr; simpl in Hr.
  - injection Hr as <-. exists []. by rewrite app_nil_r.
  - bind_inv Hr. bind_inv E. injection E as <-.
    apply IH in Hr as (chunks & Hc & ->). simpl.
    exists (a0 :: chunks). rewrite E0; simpl. rewrite Hc; simpl.
    split; [done|]. by rewrite app_assoc.
Qed.

(** C9: the stride of [getGensDefaultFormat], and with it the windows it
    builds, do not depend on the argument [megabytes]: two calls that
    differ in it only give the same outcome, the stride being computed by
    [strideFromTargetSize] for a target of 500 megabytes. *)
Theorem getGensDefaultFormat_ignores_megabytes :
  forall archive_dir splits length object_profiles label_dir_pairs observ_types
         batch_size (m1 m2 : Q),
    getGensDefaultFormat archive_dir splits length object_profiles label_dir_pairs
      observ_types batch_size m1
    = getGensDefaultFormat archive_dir splits length object_profiles label_dir_pairs
        observ_types batch_size m2
    /\ (forall all_dps all_datasets max_q_size,
          getGensDefaultFormat archive_dir splits length object_profiles
            label_dir_pairs observ_types batch_size m1
          = Ok (all_dps, all_datasets, max_q_size) ->
          exists stride SNs chunks,
            strideFromTargetSize object_profiles label_dir_pairs observ_types 500
              = Ok stride /\
            start_num_fromSplits splits length = Ok SNs /\
            rmap (fun s : Z * Z =>
                    procsFrom_label_dir_pairs s.1 s.2 stride archive_dir
                      label_dir_pairs object_profiles observ_types) SNs = Ok chunks /\
            all_dps = concat chunks /\
            max_q_size = Z.max (Qceiling (inject_Z stride / inject_Z batch_size)) 1).
Proof.
  intros. split; [reflexivity|].
  intros all_dps all_datasets max_q_size Hg.
  unfold getGensDefaultFormat in Hg.
  bind_inv Hg. bind_inv Hg. bind_inv Hg.
  destruct (batch_size =? 0); [discriminate|].
  injection Hg as <- <- <-.
  apply rfold_procs_chunks in E1 as (chunks & Hc & ->).
  exists a, a0, chunks. by repeat split.
Qed.

(** The stride itself does follow the target: the fixed argument, not the
    stride function, is what makes the planner blind to [megabytes]. *)
Example strideFromTargetSize_follows_megabytes :
  let profile := mkObjectProfile "Electron" (Some 100) None (AscBool true) None
                   (AscBool true) None false PyNone PyNone "ObjectProfile" in
  strideFromTargetSize [profile] [] ["E"; "Px"] 500 = Ok 104166 /\
  strideFromTargetSize [profile] [] ["E"; "Px"] 100 = Ok 20833.
Proof. split; reflexivity. Qed.

(** ** The chunking planner *)

Section Chunks.
Variables (stop stride : Z).
Hypothesis stride_pos : 0 < stride.

Lemma range_up_tiles fuel cur :
  stop - cur <= Z.of_nat fuel -> cur <= stop ->
  tiles cur stop (map (chunk_of stop stride) (Py.range_up fuel cur stop stride)).
Proof.
  revert cur. induction fuel as [|fuel IH]; intros cur Hfuel Hle; simpl.
  - replace cur with stop by lia. constructor.
  - destruct (Z.ltb_spec cur stop) as [Hlt|Hge]; simpl.
    + unfold chunk_of at 1. simpl. destruct (Z_le_gt_dec stride (stop - cur)) as [Hs|Hs].
      * rewrite Z.min_l by done. constructor; [lia|]. apply IH; lia.
      * rewrite Z.min_r by lia. constructor; [lia|].
        replace (cur + (stop - cur)) with stop by lia.
        destruct fuel; simpl; [constructor|].
        destruct (Z.ltb_spec (cur + stride) stop); [lia|]. constructor.
    + replace cur with stop by lia. constructor.
Qed.

Lemma range_up_sizes fuel cur :
  Forall (fun w : Z * Z => 0 < w.2 <= stride)
         (map (chunk_of stop stride) (Py.range_up fuel cur stop stride)).
Proof.
  revert cur. induction fuel as [|fuel IH]; intros cur; simpl; [constructor|].
  destruct (Z.ltb_spec cur stop); simpl; [|constructor].
  constructor; [simpl; lia | apply IH].
Qed.

(** Every chunk but the last has exactly [stride] samples. *)
Lemma range_up_full fuel cur :
  forall ws w, map (chunk_of stop stride) (Py.range_up fuel cur stop stride) = ws ++ [w] ->
               Forall (fun v : Z * Z => v.2 = stride) ws.
Proof.
  revert cur. induction fuel as [|fuel IH]; intros cur ws w Heq; simpl in Heq.
  - by destruct ws.
  - destruct (Z.ltb_spec cur stop); simpl in Heq; [|by destruct ws].
    destruct ws as [|v ws]; [constructor|].
    injection Heq as <- Heq. constructor; [|by eapply IH].
    simpl. destruct fuel; simpl in Heq; [by destruct ws|].
    destruct (Z.ltb_spec (cur + stride) stop); [lia | by destruct ws].
Qed.

End Chunks.

Lemma tiles_le lo hi ws : tiles lo hi ws -> lo <= hi.
Proof. induction 1; lia. Qed.

Lemma tiles_bounds lo hi ws :
  tiles lo hi ws ->
  forall j v, ws !! j = Some v -> lo <= v.1 /\ v.1 + v.2 <= hi.
Proof.
  induction 1 as [lo | lo n hi ws Hn Ht IH]; intros j v Hj.
  - by rewrite lookup_nil in Hj.
  - apply tiles_le in Ht as Hle. destruct j as [|j]; simpl in Hj.
    + injection Hj as <-. simpl. lia.
    + apply IH in Hj. lia.
Qed.

Lemma tiles_covers_once lo hi ws :
  tiles lo hi ws ->
  forall x, lo <= x < hi ->
    exists i w, ws !! i = Some w /\ in_window x w /\
                forall j v, ws !! j = Some v -> in_window x v -> j = i.
Proof.
  induction 1 as [lo | lo n hi ws Hn Ht IH]; intros x Hx; [lia|].
  destruct (Z_lt_ge_dec x (lo + n)) as [Hin|Hout].
  - exists O, (lo, n). repeat split; simpl; try lia.
    intros [|j] v Hj Hv; [done|]. simpl in Hj.
    eapply tiles_bounds in Hj; [|exact Ht]. unfold in_window in Hv. lia.
  - destruct (IH x) as (i & w & Hi & Hw & Huniq); [lia|].
    exists (S i), w. repeat split; try done; try apply Hw.
    intros [|j] v Hj Hv.
    + injection Hj as <-. unfold in_window in Hv. simpl in Hv. lia.
    + f_equal. eapply Huniq; eauto.
Qed.

(** C4: for a positive stride the planner cuts the window
    [(start, samples_per_label)] into tasks whose windows follow one
    another from [start] to its end without gap or overlap, so that every
    sample of the window lies in exactly one of them; each has between 1
    and [stride] samples and all but the last have [stride]. *)
Theorem procsFrom_label_dir_pairs_tiles :
  forall start samples_per_label stride archive_dir label_dir_pairs
         object_profiles observ_types,
    0 < stride -> 0 <= samples_per_label ->
    exists dps ws,
      procsFrom_label_dir_pairs start samples_per_label stride archive_dir
        label_dir_pairs object_profiles observ_types = Ok dps /\
      map dp_window dps = map Some ws /\
      tiles start (start + samples_per_label) ws /\
      (forall x, start <= x < start + samples_per_label ->
         exists i w, ws !! i = Some w /\ in_window x w /\
                     forall j v, ws !! j = Some v -> in_window x v -> j = i) /\
      Forall (fun w : Z * Z => 0 < w.2 <= stride) ws /\
      (forall ws' w, ws = ws' ++ [w] -> Forall (fun v : Z * Z => v.2 = stride) ws').
Proof.
  intros start spl stride archive_dir ldp ops obs Hstride Hspl.
  unfold procsFrom_label_dir_pairs, Py.range.
  destruct (Z.eqb_spec stride 0); [lia|].
  destruct (Z.ltb_spec 0 stride); [|lia]. simpl.
  set (starts := Py.range_up _ _ _ _).
  exists (map (fun proc_start =>
                 DP_preprocess archive_dir ldp proc_start
                   (Z.min stride (start + spl - proc_start)) ops obs) starts),
         (map (chunk_of (start + spl) stride) starts).
  assert (Ht : tiles start (start + spl) (map (chunk_of (start + spl) stride) starts)).
  { apply range_up_tiles; lia. }
  split_and!.
  - reflexivity.
  - rewrite !map_map. reflexivity.
  - exact Ht.
  - by apply tiles_covers_once.
  - apply range_up_sizes. done.
  - intros ws' w. apply range_up_full.
Qed.

(** The window of 230 samples with stride 100. *)
Lemma procsFrom_label_dir_pairs_230_100 :
  (fmap (M := list) dp_window <$> procsFrom_label_dir_pairs 0 230 100 "archive" [] [] [])
    = Ok [Some (0, 100); Some (100, 100); Some (200, 30)] /\
  exists dps ws,
    procsFrom_label_dir_pairs 0 230 100 "archive" [] [] [] = Ok dps /\
    map dp_window dps = map Some ws /\
    tiles 0 (0 + 230) ws /\
    (forall x, 0 <= x < 0 + 230 ->
       exists i w, ws !! i = Some w /\ in_window x w /\
                   forall j v, ws !! j = Some v -> in_window x v -> j = i) /\
    Forall (fun w : Z * Z => 0 < w.2 <= 100) ws /\
    (forall ws' w, ws = ws' ++ [w] -> Forall (fun v : Z * Z => v.2 = 100) ws').
Proof.
  split; [reflexivity|].
  apply (procsFrom_label_dir_pairs_tiles 0 230 100 "archive" [] [] []); lia.
Defined.

(** ** Duplicate labels *)

Lemma count_cons (x y : string) (l : list string) :
  Py.count x (y :: l) = (if decide (y = x) then 1 else 0) + Py.count x l.
Proof.
  unfold Py.count, Py.len. rewrite filter_cons.
  destruct (decide (y = x)); simpl length; lia.
Qed.

Lemma count_nonneg (x : string) (l : list string) : 0 <= Py.count x l.
Proof. unfold Py.count, Py.len. lia. Qed.

Lemma count_elem (x : string) (l : list string) : x ∈ l -> 0 < Py.count x l.
Proof.
  induction 1 as [x l | x y l Hin IH]; rewrite count_cons.
  - rewrite decide_True by done. pose proof (count_nonneg x l). lia.
  - destruct (decide (y = x)); lia.
Qed.

Lemma NoDup_of_counts (l : list string) :
  (forall x, x ∈ l -> Py.count x l <= 1) -> NoDup l.
Proof.
  induction l as [|a l IH]; intros Hc; [constructor|].
  apply NoDup_cons. split.
  - intros Hin. apply count_elem in Hin.
    specialize (Hc a ltac:(left)). rewrite count_cons, decide_True in Hc by done. lia.
  - apply IH. intros x Hx. specialize (Hc x ltac:(by right)).
    rewrite count_cons in Hc. destruct (decide (a = x)); lia.
Qed.

Lemma duplicate_labels_found (label_dir_pairs : list (string * string)) :
  ~ NoDup (map fst label_dir_pairs) -> duplicate_labels label_dir_pairs <> [].
Proof.
  intros Hdup Hnil. apply Hdup, NoDup_of_counts. intros x Hx.
  destruct (Z.ltb_spec 1 (Py.count x (map fst label_dir_pairs))) as [Hlt|]; [|done].
  exfalso. apply Z.ltb_lt in Hlt.
  assert (Hin : x ∈ duplicate_labels label_dir_pairs).
  { unfold duplicate_labels. apply elem_of_remove_dups, list_elem_of_In, filter_In.
    split; [by apply list_elem_of_In | done]. }
  rewrite Hnil in Hin. by apply not_elem_of_nil in Hin.
Qed.

(** C7: when the label-source pairs hold a label twice, the engine
    raises the [ValueError] on duplicate labels (the configuration error
    of the specification) and leaves the world as it found it: nothing was
    looked up or read, and the generator was not used. *)
Theorem preprocessFromPandas_duplicate_labels `{NumpyRandom} `{Pandas} :
  forall (fs : filesystem) (label_dir_pairs : list (string * string))
         (start samples_per_label : Z) (object_profiles : list profile_arg)
         (observ_types : list string) (w : world),
    ~ NoDup (map fst label_dir_pairs) ->
    run (preprocessFromPandas_label_dir_pairs fs label_dir_pairs start
           samples_per_label object_profiles observ_types) w
    = (Raise (ValueError "Cannot have duplicate labels"), w).
Proof.
  intros fs ldp start spl ops obs w Hdup.
  apply duplicate_labels_found in Hdup.
  unfold preprocessFromPandas_label_dir_pairs, run.
  destruct (duplicate_labels ldp) as [|d ds] eqn:Hd; [done|].
  reflexivity.
Qed.

Lemma preprocessFromPandas_duplicate_labels_run :
  ~ NoDup (map fst [("qcd", "data/qcd/"); ("qcd", "data/ttbar/")]) /\
  @run reversing_random _
    (@preprocessFromPandas_label_dir_pairs reversing_random plain_pandas
       (mkFS ∅ ∅) [("qcd", "data/qcd/"); ("qcd", "data/ttbar/")] 0 10 [] ["E"])
    quiet_world
  = (Raise (ValueError "Cannot have duplicate labels"), quiet_world).
Proof.
  assert (Hdup : ~ NoDup (map fst [("qcd", "data/qcd/"); ("qcd", "data/ttbar/")])).
  { simpl. intros Hnd. apply NoDup_cons in Hnd as [Hnotin _]. apply Hnotin. left. }
  split; [exact Hdup|].
  exact (@preprocessFromPandas_duplicate_labels reversing_random plain_pandas
           (mkFS ∅ ∅) [("qcd", "data/qcd/"); ("qcd", "data/ttbar/")] 0 10 [] ["E"]
           quiet_world Hdup).
Defined.

(** ** The budget splitter *)

Lemma int_floor (x : Q) : (0 <= x)%Q -> Py.int x = Qfloor x.
Proof.
  destruct x as [n d]. unfold Qle, Py.int, Qfloor. simpl. intros Hn.
  apply Z.quot_div_nonneg; lia.
Qed.

Lemma int_nonneg (x : Q) : (0 <= x)%Q -> 0 <= Py.int x.
Proof.
  intros Hx. rewrite int_floor by done.
  change 0 with (Qfloor 0). by apply Qfloor_resp_le.
Qed.

Lemma int_comp (x y : Q) : (0 <= x)%Q -> (x == y)%Q -> Py.int x = Py.int y.
Proof.
  intros Hx Hxy. rewrite !int_floor; [by apply Qfloor_comp | by rewrite <- Hxy | done].
Qed.

Lemma int_le (x : Q) : (0 <= x)%Q -> (inject_Z (Py.int x) <= x)%Q.
Proof. intros Hx. rewrite int_floor by done. apply Qfloor_le. Qed.

Lemma Qsum_from (l : list Q) (a : Q) : (fold_left Qplus l a == a + Py.Qsum l)%Q.
Proof.
  unfold Py.Qsum. revert a. induction l as [|x l IH]; intros a; simpl.
  - ring.
  - rewrite IH, (IH (0 + x)%Q). ring.
Qed.

Lemma Qsum_cons (x : Q) (l : list Q) : (Py.Qsum (x :: l) == x + Py.Qsum l)%Q.
Proof. unfold Py.Qsum at 1. simpl. rewrite Qsum_from. ring. Qed.

Lemma Zsum_from (l : list Z) (a : Z) : fold_left Z.add l a = a + Py.Zsum l.
Proof.
  unfold Py.Zsum. revert a. induction l as [|x l IH]; intros a; simpl; [lia|].
  rewrite IH, (IH (0 + x)). lia.
Qed.

Lemma Zsum_cons (x : Z) (l : list Z) : Py.Zsum (x :: l) = x + Py.Zsum l.
Proof. unfold Py.Zsum at 1. simpl. rewrite Zsum_from. lia. Qed.

Lemma starts_of_tiles (nums : list Z) (start : Z) :
  Forall (fun n => 0 <= n) nums ->
  tiles start (start + Py.Zsum nums) (starts_of start nums).
Proof.
  intros Hn. revert start. induction Hn as [|n nums Hn _ IH]; intros start; simpl.
  - replace (start + Py.Zsum []) with start by (unfold Py.Zsum; simpl; lia). constructor.
  - rewrite Zsum_cons. constructor; [done|].
    replace (start + (n + Py.Zsum nums)) with (start + n + Py.Zsum nums) by lia. apply IH.
Qed.

Lemma starts_of_counts (nums : list Z) (start : Z) :
  map snd (starts_of start nums) = nums.
Proof. revert start. induction nums; intros; simpl; f_equal; auto. Qed.

(** The list comprehensions over [zip(splits, are_static_vals)]. *)
Lemma zip_filter_fst {A} (f : A -> bool) (g : bool -> bool) (l : list A) :
  map fst (List.filter (fun sa : A * bool => g sa.2) (zip l (map f l)))
  = List.filter (fun x => g (f x)) l.
Proof.
  induction l as [|x l IH]; simpl; [done|].
  destruct (g (f x)); simpl; by rewrite IH.
Qed.

Lemma zip_map_snd {A B} (f : A -> bool) (h : A * bool -> B) (l : list A) :
  map h (zip l (map f l)) = map (fun x => h (x, f x)) l.
Proof. induction l as [|x l IH]; simpl; [done|]. by rewrite IH. Qed.

Lemma fraction_bounds (x : Q) : is_fraction x = true -> (0 < x)%Q /\ (x < 1)%Q.
Proof.
  intros Hf. apply andb_true_iff in Hf as [H0 H1]. unfold Py.Qlt_bool in *.
  apply negb_true_iff in H0, H1. split.
  - destruct (Qlt_le_dec 0 x) as [|Hle]; [done|]. apply Qle_bool_iff in Hle. congruence.
  - destruct (Qlt_le_dec x 1) as [|Hle]; [done|]. apply Qle_bool_iff in Hle. congruence.
Qed.

Lemma fraction_int (x : Q) : is_fraction x = true -> Py.int x = 0.
Proof.
  intros Hf. apply fraction_bounds in Hf as [H0 H1].
  rewrite int_floor by (by apply Qlt_le_weak).
  pose proof (Qfloor_le x) as Hle. pose proof (Qlt_floor x) as Hlt.
  assert (Hlo : (inject_Z (Qfloor x) < inject_Z 1)%Q) by (eapply Qle_lt_trans; eauto).
  assert (Hhi : (inject_Z 0 < inject_Z (Qfloor x + 1))%Q) by (eapply Qlt_trans; eauto).
  rewrite <- Zlt_Qlt in Hlo, Hhi. lia.
Qed.

Lemma count_value (x : Q) : is_count x = true -> (x == inject_Z (Py.int x))%Q.
Proof. intros Hc. apply andb_true_iff in Hc as [_ Hc]. by apply Qeq_bool_iff. Qed.

Lemma count_not_fraction (x : Q) : is_count x = true -> is_fraction x = false.
Proof.
  intros Hc. destruct (is_fraction x) eqn:Hf; [|done]. exfalso.
  pose proof (fraction_int x Hf) as Hi. apply count_value in Hc. rewrite Hi in Hc.
  apply fraction_bounds in Hf as [H0 _]. rewrite Hc in H0. by apply Qlt_irrefl in H0.
Qed.

Section ValidSplit.
Variable x : Q.
Hypothesis x_valid : is_count x = true \/ is_fraction x = true.

Lemma valid_nonneg : (0 <= x)%Q.
Proof.
  destruct x_valid as [Hc|Hf].
  - apply andb_true_iff in Hc as [Hc _]. by apply Qle_bool_iff.
  - apply fraction_bounds in Hf as [Hf _]. by apply Qlt_le_weak.
Qed.

(** The code's test [int(x) > 0] singles out the counts that are not zero. *)
Lemma static_count : (0 <? Py.int x) = true -> is_count x = true.
Proof.
  intros Hs. destruct x_valid as [|Hf]; [done|].
  rewrite (fraction_int x Hf) in Hs. discriminate.
Qed.

Lemma ratio_zero : (0 <? Py.int x) = false -> is_fraction x = false -> (x == 0)%Q.
Proof.
  intros Hs Hf. destruct x_valid as [Hc|]; [|congruence].
  pose proof (int_nonneg _ valid_nonneg). apply count_value in Hc.
  apply Z.ltb_ge in Hs. replace (Py.int x) with 0 in Hc by lia. exact Hc.
Qed.

End ValidSplit.

Section Splitter.
Variable splits : list Q.
Variable length : Z.
Hypothesis splits_valid : valid_splits splits length.

Lemma no_negative_split : existsb (fun x => Py.Qlt_bool x 0) splits = false.
Proof.
  apply not_true_is_false. intros Hex. apply existsb_exists in Hex as (x & Hin & Hneg).
  destruct splits_valid as [elements_valid _].
  rewrite Forall_forall in elements_valid.
  apply list_elem_of_In, elements_valid, valid_nonneg in Hin.
  unfold Py.Qlt_bool in Hneg. apply negb_true_iff in Hneg.
  apply Qle_bool_iff in Hin. congruence.
Qed.

(** The ratios of the code are the fractions and the zero counts. *)
Lemma code_ratios_sum (l : list Q) :
  Forall (fun x => is_count x = true \/ is_fraction x = true) l ->
  (Py.Qsum (List.filter (fun x => negb (0 <? Py.int x)) l)
   == Py.Qsum (List.filter is_fraction l))%Q.
Proof.
  induction 1 as [|x l Hx _ IH]; simpl; [reflexivity|].
  destruct (0 <? Py.int x) eqn:Hs; simpl.
  - rewrite (count_not_fraction x (static_count x Hx Hs)). exact IH.
  - pose proof (ratio_zero x Hx Hs) as Hz. destruct (is_fraction x).
    + rewrite !Qsum_cons, IH. reflexivity.
    + rewrite Qsum_cons, IH, Hz by done. ring.
Qed.

Lemma code_static_sum (l : list Q) :
  Forall (fun x => is_count x = true \/ is_fraction x = true) l ->
  (Py.Qsum (List.filter (fun x => 0 <? Py.int x) l)
   == Py.Qsum (List.filter is_count l))%Q.
Proof.
  induction 1 as [|x l Hx _ IH]; simpl; [reflexivity|].
  destruct (0 <? Py.int x) eqn:Hs; simpl.
  - rewrite (static_count x Hx Hs), !Qsum_cons, IH. reflexivity.
  - pose proof (ratio_zero x Hx Hs) as Hz. pose proof (count_not_fraction x) as Hn.
    destruct (is_count x); [|exact IH].
    rewrite Qsum_cons, IH, Hz by auto. ring.
Qed.

Lemma no_static_sum (l : list Q) :
  Forall (fun x => is_count x = true \/ is_fraction x = true) l ->
  existsb id (map (fun x => 0 <? Py.int x) l) = false ->
  (Py.Qsum (List.filter is_count l) == 0)%Q /\ List.filter (fun x => negb (0 <? Py.int x)) l = l.
Proof.
  induction 1 as [|x l Hx _ IH]; simpl; [by split|].
  intros Hex. apply orb_false_iff in Hex as [Hs Hex]. unfold id in Hs.
  destruct (IH Hex) as [IH1 IH2]. rewrite Hs. simpl. rewrite IH2. split; [|done].
  pose proof (ratio_zero x Hx Hs) as Hz. pose proof (count_not_fraction x) as Hn.
  destruct (is_count x); [|done].
  rewrite Qsum_cons, IH1, Hz by auto. ring.
Qed.

Lemma counts_nonneg_sum (l : list Q) :
  Forall (fun x => is_count x = true \/ is_fraction x = true) l ->
  (0 <= Py.Qsum l)%Q.
Proof.
  induction 1 as [|x l Hx _ IH]; [done|].
  rewrite Qsum_cons. apply valid_nonneg in Hx.
  replace 0%Q with (0 + 0)%Q by done. by apply Qplus_le_compat.
Qed.

End Splitter.

Section Shares.
Variable splits : list Q.
Variable length : Z.
Hypothesis splits_valid : valid_splits splits length.

Lemma left_over_nonneg : (0 <= (left_over splits length))%Q.
Proof.
  destruct splits_valid as (_ & Hs & _). unfold left_over.
  apply (Qplus_le_l _ _ (Py.Qsum (List.filter is_count splits))). ring_simplify. exact Hs.
Qed.

(** The count the code gives to a split is its share. *)
Lemma code_num_share (x L : Q) :
  is_count x = true \/ is_fraction x = true ->
  (L == (left_over splits length))%Q ->
  (if 0 <? Py.int x then Py.int x else Py.int (x * L)%Q) = share splits length x.
Proof.
  intros Hx HL. unfold share.
  pose proof (valid_nonneg x Hx) as Hx0. pose proof left_over_nonneg as HL0.
  assert (HxL : (0 <= x * L)%Q).
  { rewrite HL. by apply Qmult_le_0_compat. }
  destruct (0 <? Py.int x) eqn:Hs.
  - by rewrite (count_not_fraction x (static_count x Hx Hs)).
  - pose proof (ratio_zero x Hx Hs) as Hz. destruct (is_fraction x).
    + apply int_comp; [done|]. by rewrite HL.
    + apply int_comp; [done|]. rewrite Hz by done. ring.
Qed.

Lemma code_nums_shares (L : Q) (l : list Q) :
  Forall (fun x => is_count x = true \/ is_fraction x = true) l ->
  (L == (left_over splits length))%Q ->
  map (fun sa : Q * bool => if sa.2 then Py.int sa.1 else Py.int (sa.1 * L)%Q)
      (zip l (map (fun x => 0 <? Py.int x) l))
  = map (share splits length) l.
Proof.
  intros Hl HL. rewrite (zip_map_snd (fun x => 0 <? Py.int x)). simpl.
  induction Hl as [|x l Hx _ IH]; simpl; [done|].
  f_equal; [by apply code_num_share | exact IH].
Qed.

Lemma shares_nonneg (l : list Q) :
  Forall (fun x => is_count x = true \/ is_fraction x = true) l ->
  Forall (fun n => 0 <= n) (map (share splits length) l).
Proof.
  induction 1 as [|x l Hx _ IH]; simpl; constructor; [|done].
  pose proof (valid_nonneg x Hx). pose proof left_over_nonneg.
  unfold share.
  destruct (is_fraction x); apply int_nonneg; [by apply Qmult_le_0_compat | done].
Qed.

Lemma shares_bound (l : list Q) :
  Forall (fun x => is_count x = true \/ is_fraction x = true) l ->
  (inject_Z (Py.Zsum (map (share splits length) l))
   <= Py.Qsum (List.filter is_count l) + (left_over splits length) * Py.Qsum (List.filter is_fraction l))%Q.
Proof.
  induction 1 as [|x l Hx _ IH]; simpl.
  - unfold Py.Zsum, Py.Qsum; simpl. rewrite Qmult_0_r. done.
  - rewrite Zsum_cons, inject_Z_plus.
    pose proof (valid_nonneg x Hx) as Hx0. pose proof left_over_nonneg as HL0.
    pose proof (count_not_fraction x) as Hn. pose proof (count_value x) as Hv.
    unfold share at 1.
    destruct (is_fraction x) eqn:Hf.
    + assert (Hc : is_count x = false).
      { destruct (is_count x); [|done]. specialize (Hn eq_refl). congruence. }
      rewrite Hc, Qsum_cons.
      assert (Hle : (inject_Z (Py.int (x * (left_over splits length))) <= x * (left_over splits length))%Q).
      { apply int_le. by apply Qmult_le_0_compat. }
      eapply Qle_trans; [apply Qplus_le_compat; [exact Hle | exact IH]|].
      ring_simplify. apply Qle_refl.
    + destruct Hx as [Hc|]; [|congruence]. rewrite Hc, Qsum_cons.
      rewrite <- (Hv Hc).
      eapply Qle_trans; [apply Qplus_le_compat; [apply Qle_refl | exact IH]|].
      ring_simplify. apply Qle_refl.
Qed.

End Shares.

Lemma np_isclose_comp (a a' b : Q) : (a == a')%Q -> np_isclose a b = np_isclose a' b.
Proof. intros Ha. unfold np_isclose. by rewrite Ha. Qed.

(** The code sums a split with the ratios exactly when it is not a
    positive count. *)
Lemma ratio_taken (x : Q) :
  is_count x = true \/ is_fraction x = true ->
  negb (0 <? Py.int x) = is_ratio x.
Proof.
  intros Hx. unfold is_ratio. destruct (0 <? Py.int x) eqn:Hs; simpl.
  - rewrite (count_not_fraction x (static_count x Hx Hs)). simpl. symmetry.
    apply not_true_is_false. intros Hz%Qeq_bool_iff.
    assert (Hi : Py.int x = Py.int 0) by (apply int_comp; [by apply valid_nonneg | done]).
    rewrite Hi in Hs. discriminate.
  - pose proof (ratio_zero x Hx Hs) as Hz.
    destruct (is_fraction x); [done|]. simpl. symmetry.
    apply Qeq_bool_iff. by apply Hz.
Qed.

Lemma code_ratios_present (l : list Q) :
  Forall (fun x => is_count x = true \/ is_fraction x = true) l ->
  (0 <? Py.len (List.filter (fun x => negb (0 <? Py.int x)) l)) = existsb is_ratio l.
Proof.
  induction 1 as [|x l Hx _ IH]; [done|]. simpl.
  rewrite (ratio_taken x Hx). destruct (is_ratio x); simpl; [|exact IH].
  apply Z.ltb_lt. unfold Py.len. simpl. lia.
Qed.

Lemma elements_no_negative (l : list Q) :
  Forall (fun x => is_count x = true \/ is_fraction x = true) l ->
  existsb (fun x => Py.Qlt_bool x 0) l = false.
Proof.
  induction 1 as [|x l Hx _ IH]; [done|]. simpl. rewrite IH, orb_false_r.
  unfold Py.Qlt_bool. apply negb_false_iff, Qle_bool_iff. by apply valid_nonneg.
Qed.




(** ** Export and import *)

(** C8 fails on the code for a list of eleven arrays: the files are read
    back in the order of their names, in which [X_10] comes before [X_2],
    so the third array returned by either import is the eleventh exported
    one. *)
Theorem XY_roundtrip_eleven_arrays :
  let X := eleven_arrays in
  let Y := [cell_array 7] in
  let reordered := map cell_array [0; 1; 10; 2; 3; 4; 5; 6; 7; 8; 9] in
  (dk ← XY_to_pickle (Listed X) (Listed Y) "out" empty_disk; XY_from_pickle "out" dk)
    = Ok (reordered, Y) /\
  (dk ← XY_to_CSV (Listed X) (Listed Y) "out" empty_disk; XY_from_CSV "out" dk)
    = Ok (reordered, Y) /\
  reordered <> X.
Proof. split_and!; [by vm_compute.. | discriminate]. Qed.

(** With at most ten arrays on each side the names sort in the order of
    the indices, and what was exported is what comes back. *)
Example XY_roundtrip_two_arrays :
  let X := [mkArray [2; 1; 2] [1 # 2; 3; 0; 7]%Q; mkArray [2; 3] [1; 2; 3; 4; 5; 6]%Q] in
  let Y := [mkArray [2; 2] [1; 0; 0; 1]%Q] in
  (dk ← XY_to_pickle (Listed X) (Listed Y) "out/" empty_disk; XY_from_pickle "out/" dk)
    = Ok (X, Y) /\
  (dk ← XY_to_CSV (Listed X) (Listed Y) "out/" empty_disk; XY_from_CSV "out/" dk)
    = Ok (X, Y).
Proof. split; by vm_compute. Qed.

(** A one-dimensional array is written with the header [(n,)], which the
    CSV import cannot read back. *)
Example XY_from_CSV_one_dimensional :
  (dk ← XY_to_CSV (Listed [cell_array 3]) (Single (mkArray [2] [1; 2]%Q)) "out" empty_disk;
   XY_from_CSV "out" dk)
  = Raise (ValueError "invalid literal for int() with base 10: ''").
Proof. by vm_compute. Qed.

(** ** The batch generator *)

Section GeneratorSteps.
Context `{Archive}.
Variable dps : list pyobj.
Variable batch_size : Z.

Lemma next_silent fuel s s' :
  genFromDPs_step dps batch_size s = Ok (None, s') ->
  genFromDPs_next dps batch_size (S fuel) s = genFromDPs_next dps batch_size fuel s'.
Proof. intros Hs. simpl. by rewrite Hs. Qed.

Lemma next_yield fuel s b s' :
  genFromDPs_step dps batch_size s = Ok (Some b, s') ->
  genFromDPs_next dps batch_size (S fuel) s = Some (Ok (b, s')).
Proof. intros Hs. simpl. by rewrite Hs. Qed.

Lemma take_app fuel n m s bs s' bs' s'' :
  genFromDPs_take dps batch_size fuel n s = Some (Ok (bs, s')) ->
  genFromDPs_take dps batch_size fuel m s' = Some (Ok (bs', s'')) ->
  genFromDPs_take dps batch_size fuel (n + m) s = Some (Ok (bs ++ bs', s'')).
Proof.
  revert s bs. induction n as [|n IH]; intros s bs Hn Hm; simpl in *.
  - by injection Hn as <- <-.
  - destruct (genFromDPs_next dps batch_size fuel s) as [[[b s1]|e]|]; try discriminate.
    destruct (genFromDPs_take dps batch_size fuel n s1) as [[[bs1 s2]|e]|] eqn:Ht;
      try discriminate.
    injection Hn as <- <-. rewrite (IH s1 bs1 Ht Hm). reflexivity.
Qed.

Lemma take_prefix fuel n m s bs s'' :
  genFromDPs_take dps batch_size fuel (n + m) s = Some (Ok (bs, s'')) ->
  exists s', genFromDPs_take dps batch_size fuel n s = Some (Ok (firstn n bs, s')).
Proof.
  revert s bs. induction n as [|n IH]; intros s bs Hn; simpl in *; [eauto|].
  destruct (genFromDPs_next dps batch_size fuel s) as [[[b s1]|e]|]; try discriminate.
  destruct (genFromDPs_take dps batch_size fuel (n + m) s1) as [[[bs1 s2]|e]|] eqn:Ht;
    try discriminate.
  injection Hn as <- <-. destruct (IH _ _ Ht) as [s' ->]. simpl. eauto.
Qed.

Lemma slice_sample_range (n a b : Z) (x : ndarray) :
  has_samples n x -> 0 <= a <= b -> b <= n -> nd_slice x a b = Ok (sample_range a b x).
Proof.
  intros [rest Hx] Hab Hb. unfold nd_slice, sample_range. rewrite Hx. simpl.
  rewrite (Z.min_l a n), (Z.min_l b n), (Z.max_r a b) by lia. reflexivity.
Qed.

Lemma slice_sample_range_all (n a b : Z) (X : list ndarray) :
  Forall (has_samples n) X -> 0 <= a <= b -> b <= n ->
  rmap (fun x => nd_slice x a b) X = Ok (map (sample_range a b) X).
Proof.
  intros HX Hab Hb. induction HX as [|x X Hx _ IH]; simpl; [done|].
  rewrite (slice_sample_range n) by done. simpl. by rewrite IH.
Qed.

Lemma step_batch (n : Z) todo XY start stop starts :
  holds_samples n XY -> 0 <= start -> 0 <= batch_size -> start <= n ->
  stop = start + Z.min batch_size (n - start) ->
  genFromDPs_step dps batch_size
    (G_batch todo (as_list XY.1) (as_list XY.2) n (start :: starts))
  = Ok (Some (batch_of start stop XY),
        G_batch todo (as_list XY.1) (as_list XY.2) n starts).
Proof.
  intros (_ & _ & HX & HY) Hs Hb Hn ->. unfold genFromDPs_step.
  rewrite (slice_sample_range_all n), (slice_sample_range_all n) by (done || lia). reflexivity.
Qed.

Lemma step_chunk (n : Z) i todo d XY :
  Py.getitem dps i = Ok (Obj_DP d) -> getData d = Ok XY -> holds_samples n XY ->
  genFromDPs_step dps batch_size (G_chunk (i :: todo))
  = (starts ← Py.range 0 n batch_size;
     Ok (None, G_batch todo (as_list XY.1) (as_list XY.2) n starts)).
Proof.
  intros Hi Hd (HX0 & HY0 & HX & HY). unfold genFromDPs_step. rewrite Hi. simpl.
  rewrite Hd. simpl.
  destruct (as_list XY.1) as [|x X]; [done|].
  destruct (as_list XY.2) as [|y Y]; [done|].
  apply Forall_cons in HX as [[rx Hx] _]. apply Forall_cons in HY as [[ry Hy] _].
  unfold Py.getitem. simpl. unfold shape0. rewrite Hx, Hy. simpl.
  by rewrite Z.eqb_refl.
Qed.

End GeneratorSteps.

Section TwoChunks.
Context `{Archive}.
Variables d1 d2 : DataProcedure.
Variables c1 c2 : list_or ndarray * list_or ndarray.
Hypothesis resolve1 : getData d1 = Ok c1.
Hypothesis resolve2 : getData d2 = Ok c2.
Hypothesis ten1 : holds_samples 10 c1.
Hypothesis ten2 : holds_samples 10 c2.

Local Abbreviation dps := [Obj_DP d1; Obj_DP d2].

Lemma take_S fuel n s :
  genFromDPs_take dps 4 fuel (S n) s =
  match genFromDPs_next dps 4 fuel s with
  | None => None
  | Some (Raise e) => Some (Raise e)
  | Some (Ok (b, s')) =>
      match genFromDPs_take dps 4 fuel n s' with
      | None => None
      | Some (Raise e) => Some (Raise e)
      | Some (Ok (bs, s'')) => Some (Ok (b :: bs, s''))
      end
  end.
Proof. reflexivity. Qed.

Lemma next_load fuel i todo d c :
  Py.getitem dps i = Ok (Obj_DP d) -> getData d = Ok c -> holds_samples 10 c ->
  genFromDPs_next dps 4 (S (S fuel)) (G_chunk (i :: todo))
  = Some (Ok (batch_of 0 4 c, G_batch todo (as_list c.1) (as_list c.2) 10 [4; 8])).
Proof.
  intros Hi Hd Hc.
  rewrite (next_silent _ _ _ _ (G_batch todo (as_list c.1) (as_list c.2) 10 [0; 4; 8]))
    by (by erewrite (step_chunk _ _ 10) by eauto).
  apply next_yield, (step_batch _ _ 10); (done || lia).
Qed.

Lemma next_batch fuel todo c a b starts :
  holds_samples 10 c -> 0 <= a <= 10 -> b = a + Z.min 4 (10 - a) ->
  genFromDPs_next dps 4 (S fuel) (G_batch todo (as_list c.1) (as_list c.2) 10 (a :: starts))
  = Some (Ok (batch_of a b c, G_batch todo (as_list c.1) (as_list c.2) 10 starts)).
Proof. intros Hc Ha Hb. apply next_yield, (step_batch _ _ 10); (done || lia). Qed.

Ltac gen_next :=
  rewrite take_S;
  repeat first
    [ rewrite (next_silent _ _ _ G_init G_epoch) by reflexivity
    | rewrite (next_silent _ _ _ G_epoch (G_chunk [0; 1])) by reflexivity
    | rewrite (next_silent _ _ _ (G_chunk []) G_epoch) by reflexivity
    | rewrite (next_silent _ _ _ (G_batch [] _ _ _ []) (G_chunk [])) by reflexivity
    | rewrite (next_silent _ _ _ (G_batch [1] _ _ _ []) (G_chunk [1])) by reflexivity ];
  first [ rewrite (next_load _ 0 _ d1 c1) by done
        | rewrite (next_load _ 1 _ d2 c2) by done
        | rewrite (next_batch _ _ _ 4 8) by (done || lia)
        | rewrite (next_batch _ _ _ 8 10) by (done || lia) ].

Lemma first_pass :
  genFromDPs_take dps 4 5 6 G_init
  = Some (Ok (two_chunk_pass c1 c2, G_batch [] (as_list c2.1) (as_list c2.2) 10 [])).
Proof. do 6 gen_next. reflexivity. Qed.

Lemma next_pass :
  genFromDPs_take dps 4 5 6 (G_batch [] (as_list c2.1) (as_list c2.2) 10 [])
  = Some (Ok (two_chunk_pass c1 c2, G_batch [] (as_list c2.1) (as_list c2.2) 10 [])).
Proof. do 6 gen_next. reflexivity. Qed.

Lemma later_passes (q : nat) :
  genFromDPs_take dps 4 5 (6 * q) (G_batch [] (as_list c2.1) (as_list c2.2) 10 [])
  = Some (Ok (concat (repeat (two_chunk_pass c1 c2) q),
              G_batch [] (as_list c2.1) (as_list c2.2) 10 [])).
Proof.
  induction q as [|q IH]; [reflexivity|].
  replace (6 * S q)%nat with (6 + 6 * q)%nat by lia.
  rewrite (take_app _ _ _ _ _ _ _ _ _ _ next_pass IH). reflexivity.
Qed.

Lemma passes (q : nat) :
  exists s,
    genFromDPs_take dps 4 5 (6 * q) G_init
    = Some (Ok (concat (repeat (two_chunk_pass c1 c2) q), s)).
Proof.
  destruct q as [|q]; [by exists G_init|].
  replace (6 * S q)%nat with (6 + 6 * q)%nat by lia.
  eexists. rewrite (take_app _ _ _ _ _ _ _ _ _ _ first_pass (later_passes q)). reflexivity.
Qed.

End TwoChunks.

Lemma slice_app {A} (l : list A) (a b c : Z) :
  0 <= a <= b -> b <= c -> Py.slice l a b ++ Py.slice l b c = Py.slice l a c.
Proof.
  intros Hab Hbc. unfold Py.slice.
  replace (Z.to_nat b) with (Z.to_nat a + Z.to_nat (b - a))%nat by lia.
  replace (Z.to_nat (c - a)) with (Z.to_nat (b - a) + Z.to_nat (c - b))%nat by lia.
  rewrite <- drop_drop. apply take_take_drop.
Qed.

Lemma slice_all {A} (l : list A) (c : Z) : Py.len l <= c -> Py.slice l 0 c = l.
Proof.
  intros Hc. unfold Py.slice, Py.len in *. simpl. apply firstn_all2. lia.
Qed.

(** The batches of a chunk, one after the other, are the chunk. *)
Lemma sample_ranges_concat (x : ndarray) :
  Py.len (data x) = 10 * Zprod (tail (shape x)) ->
  data (sample_range 0 4 x) ++ data (sample_range 4 8 x) ++ data (sample_range 8 10 x)
  = data x.
Proof.
  intros Hlen. unfold sample_range. simpl data.
  assert (0 <= Zprod (tail (shape x))) by (unfold Py.len in Hlen; lia).
  rewrite !slice_app by lia. apply slice_all. lia.
Qed.

(** C6: with two chunk tasks of ten samples each and batches of four, the
    generator yields, for ever, the batches of one pass over the two
    chunks: the samples 0-3, 4-7 and 8-9 of the first chunk and then of the
    second. Whatever number of batches is drawn (here [q] passes and [r]
    more batches), they are found, and they are these. The batches have 4,
    4, 2, 4, 4, 2 samples, and those of a chunk, put one after the other,
    are the chunk. *)
Theorem genFromDPs_two_chunks_of_ten `{Archive} :
  forall (d1 d2 : DataProcedure) (c1 c2 : list_or ndarray * list_or ndarray),
    getData d1 = Ok c1 -> getData d2 = Ok c2 ->
    holds_samples 10 c1 -> holds_samples 10 c2 ->
    (forall q r : nat, (r <= 6)%nat ->
       exists s,
         genFromDPs_take [Obj_DP d1; Obj_DP d2] 4 5 (6 * q + r) G_init
         = Some (Ok (concat (repeat (two_chunk_pass c1 c2) q)
                       ++ firstn r (two_chunk_pass c1 c2), s))) /\
    Forall2 (fun (b : batch) (n : Z) => Forall (has_samples n) (b.1 ++ b.2))
            (two_chunk_pass c1 c2) [4; 4; 2; 4; 4; 2] /\
    (forall x : ndarray,
       Py.len (data x) = 10 * Zprod (tail (shape x)) ->
       data (sample_range 0 4 x) ++ data (sample_range 4 8 x)
         ++ data (sample_range 8 10 x) = data x).
Proof.
  intros d1 d2 c1 c2 Hd1 Hd2 Hc1 Hc2. split_and!.
  - intros q r Hr.
    destruct (passes d1 d2 c1 c2 Hd1 Hd2 Hc1 Hc2 q) as [s Hq].
    destruct (passes d1 d2 c1 c2 Hd1 Hd2 Hc1 Hc2 (S q)) as [s' Hq'].
    replace (6 * S q)%nat with ((6 * q + r) + (6 - r))%nat in Hq' by lia.
    apply take_prefix in Hq' as [s'' Hq']. exists s''. rewrite Hq'. do 3 f_equal.
    simpl repeat. change (concat (?p :: ?l)) with (p ++ concat l).
    assert (Hlen : length (concat (repeat (two_chunk_pass c1 c2) q)) = (6 * q)%nat).
    { clear. induction q as [|q IH]; [done|]. simpl repeat.
      change (concat (?p :: ?l)) with (p ++ concat l). rewrite length_app, IH. simpl. lia. }
    clear -Hlen Hr. revert Hlen. generalize (two_chunk_pass c1 c2) as p. intros p.
    induction q as [|q IH]; intros Hlen.
    + simpl. by rewrite app_nil_r.
    + assert (Hcomm : forall k, concat (repeat p k) ++ p = p ++ concat (repeat p k)).
      { clear. induction k as [|k IHk]; simpl; [by rewrite app_nil_r|].
        by rewrite <- app_assoc, IHk. }
      rewrite <- Hcomm, firstn_app, Hlen.
      replace (6 * S q + r - 6 * S q)%nat with r by lia.
      rewrite firstn_all2 by lia. reflexivity.
  - unfold two_chunk_pass, batch_of. destruct Hc1 as (_ & _ & HX1 & HY1).
    destruct Hc2 as (_ & _ & HX2 & HY2).
    assert (Hn : forall n a b X, b - a = n ->
                 Forall (has_samples n) (map (sample_range a b) X)).
    { intros n a b X <-. apply Forall_forall. intros x Hx.
      apply list_elem_of_fmap in Hx as (y & -> & _). by eexists. }
    repeat constructor; simpl; apply Forall_app; split; by apply Hn.
  - apply sample_ranges_concat.
Qed.

(** Two tasks of the counting archive: the samples 0-9 and 10-19. The
    seventh batch is the first one again. *)
Lemma genFromDPs_two_chunks_of_ten_run :
  let d1 := DP_preprocess "archive" [] 0 10 [] [] in
  let d2 := DP_preprocess "archive" [] 10 10 [] [] in
  let c1 := counting_chunk 0 in
  let c2 := counting_chunk 10 in
  match @genFromDPs_take counting_archive [Obj_DP d1; Obj_DP d2] 4 5 7 G_init with
  | Some (Ok (bs, _)) => map (fun b : batch => (map shape b.1, map data b.1)) bs
  | _ => []
  end
  = [([[4; 1]], [[0; 1; 2; 3]%Q]); ([[4; 1]], [[4; 5; 6; 7]%Q]);
     ([[2; 1]], [[8; 9]%Q]);
     ([[4; 1]], [[10; 11; 12; 13]%Q]); ([[4; 1]], [[14; 15; 16; 17]%Q]);
     ([[2; 1]], [[18; 19]%Q]);
     ([[4; 1]], [[0; 1; 2; 3]%Q])] /\
  ((forall q r : nat, (r <= 6)%nat ->
      exists s,
        @genFromDPs_take counting_archive [Obj_DP d1; Obj_DP d2] 4 5 (6 * q + r) G_init
        = Some (Ok (concat (repeat (two_chunk_pass c1 c2) q)
                      ++ firstn r (two_chunk_pass c1 c2), s))) /\
   Forall2 (fun (b : batch) (n : Z) => Forall (has_samples n) (b.1 ++ b.2))
           (two_chunk_pass c1 c2) [4; 4; 2; 4; 4; 2] /\
   (forall x : ndarray,
      Py.len (data x) = 10 * Zprod (tail (shape x)) ->
      data (sample_range 0 4 x) ++ data (sample_range 4 8 x)
        ++ data (sample_range 8 10 x) = data x)).
Proof.
  intros d1 d2 c1 c2. split; [by vm_compute|].
  assert (Hten : forall start, holds_samples 10 (counting_chunk start)).
  { intros start. split_and!; [done | done | |];
      repeat constructor; by eexists. }
  exact (@genFromDPs_two_chunks_of_ten counting_archive d1 d2 c1 c2
           eq_refl eq_refl (Hten 0) (Hten 10)).
Defined.

(** ** The sort of the padded rows *)

(** C2 fails on the code when the flags are given per column: the test
    [sort_ascending == True] holds for the single value [True] only, so a
    list of flags, even [[True]], sorts every column in descending order.
    With the single flag [False] each pass is the reversed ascending
    order, which also reverses the rows that tie on the column: a second
    column then ends up ascending among the ties of the first. *)
Theorem sort_ascending_flag_per_column :
  let profile (cols : list string) (flag : asc_flag) :=
    mkObjectProfile "Photon" (Some 2) None (AscBool true) (Some cols) flag None false
                    PyNone PyNone "ObjectProfile" in
  @run reversing_random _
    (@preprocess_group reversing_random plain_pandas
       (profile ["PT"] (AscList [true])) 2 ["PT"] 1
       (mkFrame ["PT"] [mkRow 0 [1%Q]; mkRow 0 [2%Q]]))
    quiet_world
  = (Ok [[2%Q]; [1%Q]], quiet_world) /\
  @run reversing_random _
    (@preprocess_group reversing_random plain_pandas
       (profile ["E"; "PT"] (AscBool false)) 2 ["E"; "PT"] 2
       (mkFrame ["E"; "PT"] [mkRow 0 [1%Q; 1%Q]; mkRow 0 [1%Q; 2%Q]]))
    quiet_world
  = (Ok [[1%Q; 1%Q]; [1%Q; 2%Q]], quiet_world).
Proof. split; by vm_compute. Qed.

(** What the code does as C2 has it: with the single flag [True] the
    padded rows are sorted on the columns from the last declared to the
    first, which makes the first the primary key; the columns are found by
    their position in the observable vector, and the zero rows of the
    padding take part in the sort. *)
Example sort_ascending_single_flag :
  let profile :=
    mkObjectProfile "Photon" (Some 4) None (AscBool true) (Some ["E"; "PT"])
                    (AscBool true) None false PyNone (PyNum 9) "ObjectProfile" in
  @run reversing_random _
    (@preprocess_group reversing_random plain_pandas profile 4 ["PT"; "E"] 2
       (mkFrame ["E"; "PT"]
          [mkRow 0 [2%Q; 1%Q]; mkRow 0 [1%Q; 2%Q]; mkRow 0 [1%Q; 1%Q]]))
    quiet_world
  = (Ok [[0; 0]; [1; 1]; [2; 1]; [1; 2]; [9; 9]]%Q, quiet_world).
Proof. by vm_compute. Qed.

(** ** Runs in the world *)

Section Runs.
Context `{NumpyRandom}.

Lemma run_bind {A B} (m : M A) (k : A -> M B) (w : world) (b : B) (w' : world) :
  run (m ≫= k) w = (Ok b, w') ->
  exists a w1, run m w = (Ok a, w1) /\ run (k a) w1 = (Ok b, w').
Proof.
  unfold run, mbind, M_bind. destruct (m w) as [[a|e] w1]; [eauto | discriminate].
Qed.

Lemma run_bind_Ok {A B} (m : M A) (k : A -> M B) (w : world) (a : A) (w1 : world) :
  run m w = (Ok a, w1) -> run (m ≫= k) w = run (k a) w1.
Proof. unfold run, mbind, M_bind. by intros ->. Qed.

Lemma run_lift {A} (r : result A) (w : world) (a : A) (w' : world) :
  run (lift r) w = (Ok a, w') -> r = Ok a /\ w' = w.
Proof. unfold run, lift. by intros [= -> ->]. Qed.

Lemma run_ret {A} (x : A) (w : world) (a : A) (w' : world) :
  run (mret x) w = (Ok a, w') -> a = x /\ w' = w.
Proof. unfold run, mret, M_ret. by intros [= -> ->]. Qed.

Lemma run_raise {A} (e : exn) (w : world) (a : A) (w' : world) :
  run (raise e) w = (Ok a, w') -> False.
Proof. unfold run, raise, lift. discriminate. Qed.

Lemma foldM_invariant {A B} (f : B -> A -> M B) (P : list A -> B -> Prop) :
  (forall done a b w b' w',
     P done b -> run (f b a) w = (Ok b', w') -> P (done ++ [a]) b') ->
  forall l done b w r w',
    P done b -> run (foldM f l b) w = (Ok r, w') -> P (done ++ l) r.
Proof.
  intros Hstep. induction l as [|a l IH]; intros done b w r w' HP Hrun; simpl in Hrun.
  - apply run_ret in Hrun as [-> _]. by rewrite app_nil_r.
  - apply run_bind in Hrun as (b1 & w1 & Hf & Hrest).
    replace (done ++ a :: l) with ((done ++ [a]) ++ l) by (by rewrite <- app_assoc).
    eapply IH; [|exact Hrest]. eapply Hstep; eauto.
Qed.

End Runs.

Ltac run_inv H :=
  let a := fresh "a" in
  let w := fresh "w" in
  let E := fresh "E" in
  apply run_bind in H; destruct H as (a & w & E & H).

Lemma rfold_invariant {A B} (f : B -> A -> result B) (P : list A -> B -> Prop) :
  (forall done a b b', P done b -> f b a = Ok b' -> P (done ++ [a]) b') ->
  forall l done b r, P done b -> rfold f l b = Ok r -> P (done ++ l) r.
Proof.
  intros Hstep. induction l as [|a l IH]; intros done b r HP Hr; simpl in Hr.
  - injection Hr as <-. by rewrite app_nil_r.
  - bind_inv Hr.
    replace (done ++ a :: l) with ((done ++ [a]) ++ l) by (by rewrite <- app_assoc).
    eapply IH; [|exact Hr]. eapply Hstep; eauto.
Qed.

(** ** The size resolver *)

Lemma py_max_idem (a b : pynum) : py_max a (py_max a b) = py_max a b.
Proof.
  destruct a as [|x], b as [|y]; simpl; try done.
  - by rewrite Z.ltb_irrefl.
  - destruct (Z.ltb_spec x y) as [Hlt|Hge]; simpl.
    + by rewrite (proj2 (Z.ltb_lt x y) Hlt).
    + by rewrite Z.ltb_irrefl.
Qed.

Lemma fold_max_from (l : list Z) (a : Z) :
  fold_left Z.max l a = Z.max a (fold_left Z.max l a).
Proof.
  revert a. induction l as [|x l IH]; intros a; simpl; [lia|].
  rewrite IH. lia.
Qed.

Lemma fold_max_shift (l : list Z) (a b : Z) :
  fold_left Z.max l (Z.max a b) = Z.max a (fold_left Z.max l b).
Proof.
  revert b. induction l as [|x l IH]; intros b; simpl; [done|].
  rewrite <- Z.max_assoc. apply IH.
Qed.

(** The maximum of a column joins the running maximum. *)
Lemma py_max_column (col : list Z) (z : Z) :
  col <> [] ->
  py_max (series_max col) (Int z) = Int (fold_left Z.max col z).
Proof.
  destruct col as [|a col]; [done|]. intros _. simpl.
  rewrite fold_max_shift.
  destruct (Z.ltb_spec (fold_left Z.max col a) z); f_equal; lia.
Qed.

Lemma fold_max_nonneg (l : list Z) (a : Z) : 0 <= a -> 0 <= fold_left Z.max l a.
Proof. intros Ha. rewrite fold_max_from. lia. Qed.

Lemma update_maxes_lookup (unresolved : list ObjectProfile) (nv : NumValFrame) :
  forall (maxes r : gmap string pynum),
    update_maxes unresolved nv maxes = Ok r ->
    forall k,
      (k ∈ map name unresolved ->
       exists col cur, nv_columns nv !! k = Some col /\ maxes !! k = Some cur /\
                       r !! k = Some (py_max (series_max col) cur)) /\
      (k ∉ map name unresolved -> r !! k = maxes !! k).
Proof.
  unfold update_maxes.
  induction unresolved as [|p l IH]; intros maxes r Hr k; simpl in Hr.
  - injection Hr as <-. split; [|done]. simpl. by intros ?%elem_of_nil.
  - apply bind_Ok in Hr as (maxes1 & Hstep & Hr).
    apply bind_Ok in Hstep as (col0 & Hget & Hstep). unfold nv_getitem in Hget.
    destruct (nv_columns nv !! name p) as [col|] eqn:Hcol; [|discriminate].
    injection Hget as <-.
    destruct (maxes !! name p) as [cur|] eqn:Hcur; [|discriminate].
    injection Hstep as <-. specialize (IH _ _ Hr k) as [IHin IHout].
    destruct (decide (k = name p)) as [->|Hne].
    + split; [intros _ | intros Hnot; exfalso; apply Hnot; simpl; left].
      exists col, cur. split_and!; [done..|].
      destruct (decide (name p ∈ map name l)) as [Hin|Hnin].
      * destruct (IHin Hin) as (col' & cur' & Hcol' & Hcur' & ->).
        rewrite lookup_insert_eq in Hcur'. injection Hcur' as <-.
        rewrite Hcol in Hcol'. injection Hcol' as <-. by rewrite py_max_idem.
      * rewrite (IHout Hnin). by rewrite lookup_insert_eq.
    + rewrite lookup_insert_ne in IHin, IHout by done.
      split; [intros Hin | intros Hnin].
      * apply IHin. simpl in Hin. by apply elem_of_cons in Hin as [|].
      * apply IHout. intros Hin. apply Hnin. simpl. by right.
Qed.


Section ResolverProofs.
Context `{NumpyRandom}.
Variable fs : filesystem.

Lemma run_emit (e : io_event) (w : world) (u : unit) (w' : world) :
  run (emit e) w = (Ok u, w') ->
  w' = {| io_log := io_log w ++ [e]; rng_state := rng_state w |}.
Proof. unfold run, emit. by intros [= _ <-]. Qed.

Lemma getNumValFrame_reads f st w nv w' :
  run (getNumValFrame fs f st) w = (Ok nv, w') ->
  fs_files fs !! f ≫= NumValues = Some nv.
Proof.
  intros Hrun. destruct st; unfold getNumValFrame, msgpack_assertMeta in Hrun.
  - run_inv Hrun. run_inv Hrun.
    destruct (fs_files fs !! f) as [[[nv'|] tbl]|]; simpl;
      try (by apply run_raise in Hrun).
    run_inv Hrun. by apply run_ret in Hrun as [-> _].
  - run_inv Hrun. run_inv E.
    destruct (fs_files fs !! f) as [file|]; simpl; [|by apply run_raise in E].
    apply run_ret in E as [-> _].
    destruct (NumValues file) as [nv'|]; [|by apply run_raise in Hrun].
    by apply run_ret in Hrun as [-> _].
Qed.

Lemma getFiles_StoreType_files data_dir w fst w' :
  run (getFiles_StoreType fs data_dir) w = (Ok fst, w') ->
  Py.sort_strings fst.1 = dir_files fs data_dir.
Proof.
  intros Hrun. unfold getFiles_StoreType, glob in Hrun. run_inv Hrun.
  destruct (negb _); [by apply run_raise in Hrun|].
  run_inv Hrun. run_inv E0. apply run_ret in E0 as [-> _].
  run_inv Hrun. run_inv E0. apply run_ret in E0 as [-> _].
  run_inv Hrun. unfold dir_files.
  destruct (Py.len (List.filter (Py.ends_with ".msg") _) =? 0).
  - apply run_ret in E0 as [-> _].
    destruct (_ <? 1); [by apply run_raise in Hrun|]. by apply run_ret in Hrun as [-> _].
  - destruct (Py.len (List.filter (Py.ends_with ".h5") _) =? 0);
      [|by apply run_raise in E0].
    apply run_ret in E0 as [-> _].
    destruct (_ <? 1); [by apply run_raise in Hrun|]. by apply run_ret in Hrun as [-> _].
Qed.

Hypothesis fs_nonempty : nonempty_indexes fs.

Lemma update_maxes_tracks unresolved f nv maxes r seen :
  fs_files fs !! f ≫= NumValues = Some nv ->
  tracks (map name unresolved) maxes seen ->
  update_maxes unresolved nv maxes = Ok r ->
  tracks (map name unresolved) r (fun k => seen k ++ file_counts fs k f).
Proof.
  intros Hf Htr Hupd k Hk.
  destruct (update_maxes_lookup _ _ _ _ Hupd k) as [Hin _].
  destruct (Hin Hk) as (col & cur & Hcol & Hcur & ->).
  rewrite (Htr k Hk) in Hcur. injection Hcur as <-.
  unfold file_counts. rewrite Hf, Hcol. simpl.
  rewrite fold_left_app. f_equal. apply py_max_column.
  destruct (fs_files fs !! f) as [file|] eqn:Hfile; [|discriminate].
  simpl in Hf. eapply fs_nonempty; eauto.
Qed.

Lemma tracks_ext names maxes (seen seen' : string -> list Z) :
  (forall k, seen k = seen' k) -> tracks names maxes seen -> tracks names maxes seen'.
Proof. intros Heq Htr k Hk. rewrite <- Heq. by apply Htr. Qed.

Lemma all_counts_snoc (done : list (string * string)) (pair : string * string) k :
  all_counts fs (done ++ [pair]) k
  = all_counts fs done k ++ concat (map (file_counts fs k) (dir_files fs pair.2)).
Proof.
  unfold all_counts. rewrite map_app, concat_app. simpl. by rewrite app_nil_r.
Qed.

Lemma scan_sources_tracks unresolved label_dir_pairs maxes w r w' :
  tracks (map name unresolved) maxes (fun _ => []) ->
  run (scan_sources fs unresolved label_dir_pairs maxes) w = (Ok r, w') ->
  tracks (map name unresolved) r (all_counts fs label_dir_pairs).
Proof.
  intros Hinit Hrun. unfold scan_sources in Hrun.
  apply (foldM_invariant _ (fun done maxes =>
           tracks (map name unresolved) maxes (all_counts fs done)))
    with (done := []) in Hrun; [done | | done].
  clear Hinit. intros done pair maxes1 w1 r1 w1' Htr Hbody.
  run_inv Hbody. apply getFiles_StoreType_files in E as Hfiles.
  rewrite Hfiles in Hbody.
  apply (foldM_invariant _ (fun donef maxes =>
           tracks (map name unresolved) maxes
             (fun k => all_counts fs done k ++ concat (map (file_counts fs k) donef))))
    with (done := []) in Hbody.
  - eapply tracks_ext; [|exact Hbody]. intros k. by rewrite all_counts_snoc.
  - clear Htr E Hfiles. intros donef f maxes2 w2 r2 w2' Htr Hfile.
    run_inv Hfile. apply getNumValFrame_reads in E.
    apply run_lift in Hfile as [Hupd _].
    eapply tracks_ext; [|by eapply update_maxes_tracks].
    intros k. simpl. rewrite map_app, concat_app. simpl.
    by rewrite app_nil_r, app_assoc.
  - eapply tracks_ext; [|exact Htr]. intros k. simpl. by rewrite app_nil_r.
Qed.

Lemma initial_maxes_tracks (unresolved : list ObjectProfile) :
  tracks (map name unresolved)
    (fold_left (fun maxes profile => <[name profile := Int 0]> maxes) unresolved
               (∅ : gmap string pynum))
    (fun _ => []).
Proof.
  intros k Hk. simpl.
  assert (Hgen : forall (m : gmap string pynum),
            (k ∈ map name unresolved \/ m !! k = Some (Int 0)) ->
            fold_left (fun maxes profile => <[name profile := Int 0]> maxes) unresolved m
              !! k = Some (Int 0)).
  { clear Hk. induction unresolved as [|p l IH]; intros m [Hin|Hm]; simpl.
    - by apply elem_of_nil in Hin.
    - done.
    - apply IH. simpl in Hin. apply elem_of_cons in Hin as [->|Hin]; [right|by left].
      by rewrite lookup_insert_eq.
    - apply IH. right. destruct (decide (name p = k)) as [->|Hne].
      + by rewrite lookup_insert_eq.
      + by rewrite lookup_insert_ne. }
  apply Hgen. by left.
Qed.

End ResolverProofs.

Lemma filter_nil_Forall {A} (f : A -> bool) (l : list A) :
  List.filter f l = [] <-> Forall (fun a => f a = false) l.
Proof.
  induction l as [|a l IH]; simpl; [by split; [constructor|]|].
  destruct (f a) eqn:Hf.
  - split; [discriminate | intros Hall; apply Forall_cons in Hall as [? _]; congruence].
  - rewrite IH. split; [by constructor | by intros [_ ?]%Forall_cons].
Qed.

Lemma rmap_map {A B} (f : A -> result B) (g : A -> B) (l : list A) :
  Forall (fun a => f a = Ok (g a)) l -> rmap f l = Ok (map g l).
Proof.
  induction 1 as [|a l Ha _ IH]; simpl; [done|]. rewrite Ha. simpl. by rewrite IH.
Qed.

Lemma resolved_profile_id fs label_dir_pairs m (l : list ObjectProfile) :
  Forall (fun p => unresolved_max p = false) l ->
  map (resolved_profile fs label_dir_pairs m) l = l.
Proof.
  induction 1 as [|p l Hp _ IH]; simpl; [done|].
  unfold resolved_profile at 1. by rewrite Hp, IH.
Qed.




(** ** The preprocessing engine *)

Lemma insert_by_Permutation {A} (le : A -> A -> bool) (a : A) (l : list A) :
  Py.insert_by le a l ≡ₚ a :: l.
Proof.
  induction l as [|b l IH]; simpl; [done|].
  destruct (le b a); [|done]. rewrite IH. apply Permutation_swap.
Qed.

Lemma sort_by_Permutation {A} (le : A -> A -> bool) (l : list A) :
  Py.sort_by le l ≡ₚ l.
Proof.
  unfold Py.sort_by.
  assert (Hgen : forall acc, fold_left (fun acc a => Py.insert_by le a acc) l acc ≡ₚ l ++ acc).
  { induction l as [|a l IH]; intros acc; simpl; [done|].
    rewrite IH, insert_by_Permutation. by rewrite Permutation_middle. }
  rewrite Hgen. by rewrite app_nil_r.
Qed.

Lemma np_argsort_Permutation (v : list Q) : np_argsort v ≡ₚ seq 0 (length v).
Proof.
  unfold np_argsort. rewrite sort_by_Permutation.
  rewrite fst_zip; [done|]. by rewrite length_seq.
Qed.

Lemma np_take_seq {A} (d : A) (x : list A) : np_take d x (seq 0 (length x)) = x.
Proof.
  unfold np_take. induction x as [|a x IH]; simpl; [done|].
  f_equal. rewrite <- seq_shift, map_map. exact IH.
Qed.

Lemma np_take_Permutation {A} (d : A) (x : list A) (idx : list nat) :
  idx ≡ₚ seq 0 (length x) -> np_take d x idx ≡ₚ x.
Proof.
  intros Hidx. rewrite <- (np_take_seq d x) at 2. unfold np_take. by rewrite Hidx.
Qed.

Lemma sort_pass_Permutation (flag : asc_flag) (x : array2) (loc : nat) :
  sort_pass flag x loc ≡ₚ x.
Proof.
  unfold sort_pass.
  assert (Hidx : np_argsort (column_of x loc) ≡ₚ seq 0 (length x)).
  { rewrite np_argsort_Permutation. unfold column_of. by rewrite length_map. }
  destruct (eq_True flag); apply np_take_Permutation; [done|].
  by rewrite <- Permutation_rev.
Qed.

Lemma sort_passes_Permutation (flag : asc_flag) (locs : list nat) (x : array2) :
  fold_left (sort_pass flag) locs x ≡ₚ x.
Proof.
  revert x. induction locs as [|loc locs IH]; intros x; simpl; [done|].
  rewrite IH. apply sort_pass_Permutation.
Qed.

Lemma has_shape_Permutation (a b : array2) (n w : Z) :
  a ≡ₚ b -> has_shape a n w -> has_shape b n w.
Proof.
  intros Hab [Hlen Hw]. split.
  - unfold Py.len in *. by rewrite <- (Permutation_length Hab).
  - by rewrite <- Hab.
Qed.

Lemma replicate_len {A} (v : A) (n : Z) : 0 <= n -> Py.len (Py.replicate v n) = n.
Proof. intros Hn. unfold Py.len, Py.replicate. rewrite repeat_length. lia. Qed.

Lemma zeros_shape (n w : Z) : 0 <= n -> 0 <= w -> has_shape (zeros n w) n w.
Proof.
  intros Hn Hw. split; [by apply replicate_len|].
  unfold zeros, Py.replicate at 1. apply Forall_forall. intros r Hr.
  apply list_elem_of_In, repeat_spec in Hr as ->. by apply replicate_len.
Qed.

Lemma padded_shape (x : array2) (max_size vecsize : Z) :
  0 <= max_size -> 0 <= vecsize -> Forall (fun r => Py.len r = vecsize) x ->
  has_shape (padded x max_size vecsize) max_size vecsize.
Proof.
  intros Hm Hv Hx. unfold padded. destruct (Z.ltb_spec max_size (Py.len x)) as [Hlt|Hge].
  - split; [|by apply Forall_take].
    unfold Py.len in *. rewrite length_take. lia.
  - destruct (zeros_shape (max_size - Py.len x) vecsize) as [Hzl Hzw]; [lia | done |].
    split; [|by apply Forall_app].
    unfold Py.len in *. rewrite length_app. lia.
Qed.

Lemma select_columns_width (x : DataFrame) (observ_types : list string) (a : array2) :
  select_columns x observ_types = Ok a ->
  Forall (fun r => Py.len r = Py.len observ_types) a.
Proof.
  unfold select_columns. intros Hs. apply bind_Ok in Hs as (locs & Hlocs & Hs).
  injection Hs as <-. apply rmap_length in Hlocs.
  apply Forall_forall. intros r Hr. apply list_elem_of_fmap in Hr as (fr & -> & _).
  unfold Py.len. by rewrite length_map, Hlocs.
Qed.

Lemma widths_forallb (x : array2) (w : Z) :
  Forall (fun r => Py.len r = w) x -> forallb (fun r => Py.len r =? w) x = true.
Proof.
  intros Hx. apply forallb_forall. intros r Hr. apply Z.eqb_eq.
  rewrite Forall_forall in Hx. by apply Hx, list_elem_of_In.
Qed.

Section EngineProofs.
Context `{NumpyRandom} `{Pandas}.
Hypothesis shuffle_permutes :
  forall (A : Type) (l : list A) (g : rng), (np_random_shuffle A l g).1 ≡ₚ l.

Lemma run_shuffleM {A} (l : list A) (w : world) (out : list A) (w' : world) :
  run (shuffleM l) w = (Ok out, w') -> out ≡ₚ l.
Proof.
  unfold run, shuffleM. pose proof (shuffle_permutes A l (rng_state w)) as Hp.
  destruct (np_random_shuffle A l (rng_state w)) as [l' g]. by intros [= <- _].
Qed.

(** [padItem] keeps the first [max_size] rows or appends zero rows, and
    only then shuffles. *)
Lemma padItem_padded (x : array2) (max_size vecsize : Z) (sh : bool) (w : world) :
  0 <= max_size -> 0 <= vecsize -> Forall (fun r => Py.len r = vecsize) x ->
  exists out w',
    run (padItem x max_size vecsize sh) w = (Ok out, w') /\
    out ≡ₚ padded x max_size vecsize /\
    (sh = false -> out = padded x max_size vecsize /\ w' = w).
Proof.
  intros Hm Hv Hx.
  assert (Hpad : run (if max_size <? Py.len x then mret (Py.slice_to x max_size)
                      else lift (z ← np_zeros (max_size - Py.len x) vecsize;
                                 np_append0 x z vecsize)) w
                 = (Ok (padded x max_size vecsize), w)).
  { unfold padded. destruct (Z.ltb_spec max_size (Py.len x)) as [Hlt|Hge].
    - unfold Py.slice_to. by rewrite (proj2 (Z.leb_le 0 max_size) Hm).
    - unfold lift, np_zeros, np_append0.
      rewrite (proj2 (Z.ltb_ge (max_size - Py.len x) 0)) by lia.
      rewrite (proj2 (Z.ltb_ge vecsize 0)) by lia. simpl.
      by rewrite widths_forallb. }
  unfold padItem. rewrite (run_bind_Ok _ _ _ _ _ Hpad). destruct sh.
  - unfold run, shuffleM.
    pose proof (shuffle_permutes _ (padded x max_size vecsize) (rng_state w)) as Hp.
    destruct (np_random_shuffle _ (padded x max_size vecsize) (rng_state w)) as [l' g].
    eexists _, _. split; [reflexivity|]. split; [exact Hp | discriminate].
  - eexists _, _. split; [reflexivity|]. split; [done | by intros _].
Qed.

Lemma padItem_shape (x : array2) (max_size vecsize : Z) (sh : bool) w out w' :
  0 <= max_size -> 0 <= vecsize -> Forall (fun r => Py.len r = vecsize) x ->
  run (padItem x max_size vecsize sh) w = (Ok out, w') ->
  has_shape out max_size vecsize.
Proof.
  intros Hm Hv Hx Hrun.
  destruct (padItem_padded x max_size vecsize sh w Hm Hv Hx) as (out' & w1 & Hrun' & Hp & _).
  rewrite Hrun in Hrun'. injection Hrun' as <- <-.
  eapply has_shape_Permutation; [symmetry; exact Hp | by apply padded_shape].
Qed.

(** The tensor of an observed entry. *)
Lemma preprocess_group_shape profile max_size observ_types x w t w' :
  0 <= max_size ->
  run (preprocess_group profile max_size observ_types (Py.len observ_types) x) w
  = (Ok t, w') ->
  has_shape t (max_size + punctuation_rows profile) (Py.len observ_types).
Proof.
  intros Hm Hrun. unfold preprocess_group in Hrun.
  assert (Hv : 0 <= Py.len observ_types) by (unfold Py.len; lia).
  run_inv Hrun. run_inv Hrun. run_inv Hrun. run_inv Hrun. run_inv Hrun. run_inv Hrun.
  apply run_lift in E2 as [Hsel _]. apply select_columns_width in Hsel.
  apply padItem_shape in E4; [|done..].
  set (sorted := match a3 with
                 | Some locs => fold_left (sort_pass (sort_ascending profile)) (rev locs) a4
                 | None => a4
                 end) in *.
  assert (Hsorted : has_shape sorted max_size (Py.len observ_types)).
  { eapply has_shape_Permutation; [|exact E4]. subst sorted.
    destruct a3; [|done]. symmetry. apply sort_passes_Permutation. }
  apply run_lift in Hrun as [Hp _]. unfold punctuation_rows.
  destruct (punctuation profile) as [|c|d]; [| |discriminate].
  - injection Hp as <-. by rewrite Z.add_0_r.
  - unfold np_append0 in Hp. destruct (forallb _ sorted); [|discriminate].
    injection Hp as <-. destruct Hsorted as [Hl Hw]. split.
    + unfold Py.len in *. rewrite length_app. simpl. lia.
    + apply Forall_app. split; [done|]. constructor; [|done]. by apply replicate_len.
Qed.

End EngineProofs.

Lemma groupby_Entry_keys (frame : DataFrame) (k : Z) :
  k ∈ map fst (groupby_Entry frame) <-> observed frame k.
Proof.
  unfold groupby_Entry, observed. rewrite map_map. simpl. rewrite map_id.
  rewrite sort_by_Permutation. apply elem_of_remove_dups.
Qed.

Lemma setitem_in_range {A} (l : list A) (i : Z) (v : A) :
  0 <= i < Py.len l -> Py.setitem l i v = Ok (<[Z.to_nat i := v]> l).
Proof.
  intros Hi. unfold Py.setitem.
  rewrite (proj2 (Z.ltb_ge i 0)) by lia.
  rewrite (proj2 (Z.ltb_ge i 0)) by lia.
  by rewrite (proj2 (Z.leb_gt (Py.len l) i)) by lia.
Qed.

Lemma lookup_nth_error {A} (l : list A) (n : nat) : l !! n = nth_error l n.
Proof. revert n. induction l as [|a l IH]; intros [|n]; simpl; auto. Qed.

Lemma getitem_in_range {A} (l : list A) (i : Z) :
  0 <= i < Py.len l -> exists a, Py.getitem l i = Ok a /\ l !! Z.to_nat i = Some a.
Proof.
  intros Hi. unfold Py.getitem.
  rewrite (proj2 (Z.ltb_ge i 0)) by lia.
  rewrite (proj2 (Z.ltb_ge i 0)) by lia.
  rewrite (proj2 (Z.leb_gt (Py.len l) i)) by lia. simpl.
  destruct (nth_error l (Z.to_nat i)) as [a|] eqn:Hn.
  - exists a. split; [done|]. by rewrite lookup_nth_error.
  - apply nth_error_None in Hn. unfold Py.len in Hi. lia.
Qed.

Lemma range_up_elem (fuel : nat) (cur stop i : Z) :
  stop - cur <= Z.of_nat fuel ->
  i ∈ Py.range_up fuel cur stop 1 <-> cur <= i < stop.
Proof.
  revert cur. induction fuel as [|fuel IH]; intros cur Hfuel; simpl.
  - split; [by intros ?%elem_of_nil | lia].
  - destruct (Z.ltb_spec cur stop).
    + rewrite elem_of_cons, IH by lia. lia.
    + split; [by intros ?%elem_of_nil | lia].
Qed.

Section SlotProofs.
Context `{NumpyRandom} `{Pandas}.
Hypothesis shuffle_permutes :
  forall (A : Type) (l : list A) (g : rng), (np_random_shuffle A l g).1 ≡ₚ l.

Variable profile : ObjectProfile.
Variable max_size : Z.
Variable observ_types : list string.
Variables arr_start file_start_read samples_to_read : Z.
Hypothesis max_size_nonneg : 0 <= max_size.
Hypothesis arr_start_nonneg : 0 <= arr_start.

Local Abbreviation vecsize := (Py.len observ_types).
Local Abbreviation in_slice := (fun e : Z => file_start_read <= e < file_start_read + samples_to_read).
Local Abbreviation slot := (slot_of arr_start file_start_read).

Lemma preprocess_groups_slots (groups : list (Z * DataFrame)) :
  forall (a0 : list (option array2)) w a w',
    Forall (fun g : Z * DataFrame => in_slice g.1) groups ->
    arr_start + samples_to_read <= Py.len a0 ->
    run (preprocess_groups profile max_size observ_types vecsize arr_start
           file_start_read groups a0) w = (Ok a, w') ->
    length a = length a0 /\
    forall n : nat,
      (n ∈ map (fun g : Z * DataFrame => slot g.1) groups ->
       exists t, a !! n = Some (Some t) /\
                 has_shape t (max_size + punctuation_rows profile) vecsize) /\
      (n ∉ map (fun g : Z * DataFrame => slot g.1) groups -> a !! n = a0 !! n).
Proof.
  unfold preprocess_groups.
  induction groups as [|g gs IH]; intros a0 w a w' Hin Hlen Hrun; simpl in Hrun.
  - apply run_ret in Hrun as [-> _]. split; [done|]. intros n. split; [|done].
    by intros ?%elem_of_nil.
  - apply Forall_cons in Hin as [Hg Hgs].
    apply run_bind in Hrun as (a1 & w1 & Hstep & Hrun).
    apply run_bind in Hstep as (t & w2 & Hgroup & Hset).
    apply preprocess_group_shape in Hgroup; [|done..].
    apply run_lift in Hset as [Hset _].
    rewrite setitem_in_range in Hset by lia. injection Hset as <-.
    apply IH in Hrun as [Hl Hslots]; [|done|].
    2:{ unfold Py.len in *. rewrite length_insert. done. }
    rewrite length_insert in Hl. split; [done|]. intros n.
    destruct (Hslots n) as [Hn_in Hn_out]. simpl. split.
    + intros Hn. destruct (decide (n ∈ map (fun g0 : Z * DataFrame => slot g0.1) gs))
        as [Hgs_in|Hgs_out]; [by apply Hn_in|].
      apply elem_of_cons in Hn as [->|Hn]; [|done].
      rewrite (Hn_out Hgs_out). exists t. split; [|done].
      apply list_lookup_insert_eq. unfold slot_of, Py.len in *. lia.
    + intros Hn. apply not_elem_of_cons in Hn as [Hne Hn].
      rewrite (Hn_out Hn). by apply list_lookup_insert_ne.
Qed.

Lemma fill_slot_step (a0 : list (option array2)) (i : Z) :
  0 <= i < Py.len a0 ->
  fill_slot max_size vecsize a0 i
  = Ok (match a0 !! Z.to_nat i with
        | Some None => <[Z.to_nat i := Some (zeros max_size vecsize)]> a0
        | _ => a0
        end).
Proof.
  intros Hi. unfold fill_slot.
  destruct (getitem_in_range a0 i Hi) as (cur & -> & ->). simpl.
  destruct cur as [t|]; [done|]. unfold np_zeros.
  rewrite (proj2 (Z.ltb_ge max_size 0)) by lia.
  rewrite (proj2 (Z.ltb_ge vecsize 0)) by (unfold Py.len; lia). simpl.
  by apply setitem_in_range.
Qed.

Lemma fill_slots (idx : list Z) :
  forall a0 : list (option array2),
    Forall (fun i => 0 <= i < Py.len a0) idx ->
    exists a,
      rfold (fill_slot max_size vecsize) idx a0 = Ok a /\
      length a = length a0 /\
      forall n : nat,
        (Z.of_nat n ∈ idx -> a0 !! n = Some None ->
         a !! n = Some (Some (zeros max_size vecsize))) /\
        (Z.of_nat n ∉ idx \/ a0 !! n <> Some None -> a !! n = a0 !! n).
Proof.
  induction idx as [|i idx IH]; intros a0 Hidx.
  - exists a0. split_and!; [done..|]. intros n. split; [by intros ?%elem_of_nil | done].
  - apply Forall_cons in Hidx as [Hi Hidx].
    change (rfold (fill_slot max_size vecsize) (i :: idx) a0)
      with (fill_slot max_size vecsize a0 i ≫= rfold (fill_slot max_size vecsize) idx).
    rewrite (fill_slot_step a0 i Hi).
    change (Ok ?a1 ≫= rfold (fill_slot max_size vecsize) idx)
      with (rfold (fill_slot max_size vecsize) idx a1).
    destruct (a0 !! Z.to_nat i) as [[t|]|] eqn:Hcur.
    + destruct (IH a0 Hidx) as (a & -> & Hl & Hn). exists a. split_and!; [done..|].
      intros n. destruct (Hn n) as [Hn1 Hn2]. split.
      * intros Hin Hnone. apply elem_of_cons in Hin as [Heq|Hin]; [|by apply Hn1].
        replace (Z.to_nat i) with n in Hcur by lia. congruence.
      * intros [Hnin|Hne]; apply Hn2; [left|by right].
        by apply not_elem_of_cons in Hnin as [_ ?].
    + destruct (IH (<[Z.to_nat i := Some (zeros max_size vecsize)]> a0))
        as (a & -> & Hl & Hn).
      { unfold Py.len in *. by rewrite length_insert. }
      rewrite length_insert in Hl. exists a. split_and!; [done..|].
      intros n. destruct (Hn n) as [Hn1 Hn2].
      destruct (decide (n = Z.to_nat i)) as [->|Hne].
      * assert (Hset : <[Z.to_nat i := Some (zeros max_size vecsize)]> a0 !! Z.to_nat i
                       = Some (Some (zeros max_size vecsize))).
        { apply list_lookup_insert_eq. unfold Py.len in Hi. lia. }
        split.
        -- intros _ _. rewrite Hn2; [done|]. right. by rewrite Hset.
        -- intros [Hnin|Hnn]; [|congruence].
           exfalso. apply Hnin. rewrite Z2Nat.id by lia. left.
      * rewrite list_lookup_insert_ne in Hn1, Hn2 by done. split.
        -- intros Hin. apply Hn1. apply elem_of_cons in Hin as [Heq|Hin]; [lia|done].
        -- intros [Hnin|Hnn]; apply Hn2; [left|by right].
           by apply not_elem_of_cons in Hnin as [_ ?].
    + apply lookup_ge_None in Hcur. unfold Py.len in Hi. lia.
Qed.

Lemma fill_missing_slots (a0 : list (option array2)) :
  0 <= samples_to_read -> arr_start + samples_to_read <= Py.len a0 ->
  exists a,
    fill_missing max_size vecsize arr_start samples_to_read a0 = Ok a /\
    length a = length a0 /\
    forall n : nat,
      (arr_start <= Z.of_nat n < arr_start + samples_to_read -> a0 !! n = Some None ->
       a !! n = Some (Some (zeros max_size vecsize))) /\
      (~ (arr_start <= Z.of_nat n < arr_start + samples_to_read) \/ a0 !! n <> Some None ->
       a !! n = a0 !! n).
Proof.
  intros Hs Hlen. unfold fill_missing, Py.range. simpl.
  set (idx := Py.range_up _ _ _ _).
  assert (Hidx : forall i, i ∈ idx <-> arr_start <= i < arr_start + samples_to_read).
  { intros i. apply range_up_elem. lia. }
  destruct (fill_slots idx a0) as (a & Ha & Hl & Hn).
  { apply Forall_forall. intros i Hi. apply Hidx in Hi. lia. }
  exists a. split; [exact Ha|]. split; [done|]. intros n.
  destruct (Hn n) as [Hn1 Hn2]. split.
  - intros Hw. apply Hn1. by apply Hidx.
  - intros [Hw|Hne]; apply Hn2; [left|by right]. by rewrite Hidx.
Qed.

End SlotProofs.



(** The engine as a whole on the same source: the checks, the reads of
    the file, the tensors of the three entries and their labels, in the
    order that the final shuffle (the reversal) gives them. *)
Example preprocessFromPandas_photons :
  @run reversing_random _
    (@preprocessFromPandas_label_dir_pairs reversing_random plain_pandas photon_source
       [("qcd", "data/qcd/")] 0 3 [P_obj punctuated_photons] ["E"; "PT"])
    quiet_world
  = (Ok ([[Some [[0; 0]; [8; 4]; [9; 9]]%Q; Some [[0; 0]; [0; 0]]%Q;
           Some [[6; 2]; [5; 1]; [9; 9]]%Q]],
         [Some [1%Q]; Some [1%Q]; Some [1%Q]]),
     @mkWorld reversing_random
       [Ev_isdir "data/qcd/"; Ev_glob "data/qcd/*.msg"; Ev_glob "data/qcd/*.h5";
        Ev_store_open "data/qcd/a.h5"; Ev_store_get "data/qcd/a.h5" "NumValues";
        Ev_store_close "data/qcd/a.h5"; Ev_store_open "data/qcd/a.h5";
        Ev_store_get "data/qcd/a.h5" "Photon"; Ev_store_close "data/qcd/a.h5"] tt).
Proof. by vm_compute. Qed.

(** The same profile written as a dictionary does not get that far: its
    punctuation is handed to the constructor as [addColumns]. *)
Example preprocessFromPandas_dictionary_profile :
  let d := mkProfileDict (Some "ObjectProfile") (Some "Photon") (Some 2) None None None
             None None (Some true) (PyNum 9) PyNone in
  @run reversing_random _
    (@preprocessFromPandas_label_dir_pairs reversing_random plain_pandas photon_source
       [("qcd", "data/qcd/")] 0 3 [P_dict d] ["E"; "PT"])
    quiet_world
  = (Raise (ValueError "arguement addColumns must be a dictionary"), quiet_world).
Proof. by vm_compute. Qed.

(** ** The engine as a whole *)

Lemma setitem_insert {A} (l : list A) (i : Z) (v : A) (l' : list A) :
  Py.setitem l i v = Ok l' -> exists j : nat, (j < length l)%nat /\ l' = <[j := v]> l.
Proof.
  unfold Py.setitem, Py.len.
  destruct ((_ <? 0) || _) eqn:Hrange; [discriminate|].
  apply orb_false_iff in Hrange as [Hlo Hhi].
  apply Z.ltb_ge in Hlo. apply Z.leb_gt in Hhi.
  intros [= <-]. eexists. split; [|reflexivity]. lia.
Qed.

Lemma setitem_nat {A} (l : list A) (i : nat) (v : A) (l' : list A) :
  Py.setitem l (Z.of_nat i) v = Ok l' -> (i < length l)%nat /\ l' = <[i := v]> l.
Proof.
  unfold Py.setitem, Py.len.
  rewrite (proj2 (Z.ltb_ge (Z.of_nat i) 0)) by lia.
  rewrite (proj2 (Z.ltb_ge (Z.of_nat i) 0)) by lia. simpl.
  destruct (Z.leb_spec (Z.of_nat (length l)) (Z.of_nat i)); [discriminate|].
  intros [= <-]. rewrite Nat2Z.id. split; [lia|done].
Qed.

Lemma getitem_nat {A} (l : list A) (i : nat) (a : A) :
  Py.getitem l (Z.of_nat i) = Ok a -> l !! i = Some a.
Proof.
  unfold Py.getitem, Py.len.
  rewrite (proj2 (Z.ltb_ge (Z.of_nat i) 0)) by lia.
  rewrite (proj2 (Z.ltb_ge (Z.of_nat i) 0)) by lia. simpl.
  destruct (Z.leb_spec (Z.of_nat (length l)) (Z.of_nat i)); [discriminate|].
  rewrite Nat2Z.id, lookup_nth_error. by destruct (nth_error l i); intros [= <-].
Qed.

Lemma setitem_length {A} (l : list A) (i : Z) (v : A) (l' : list A) :
  Py.setitem l i v = Ok l' -> length l' = length l.
Proof. intros (j & _ & ->)%setitem_insert. apply length_insert. Qed.

Section EngineRun.
Context `{NumpyRandom} `{Pandas}.
Hypothesis shuffle_permutes :
  forall (A : Type) (l : list A) (g : rng), (np_random_shuffle A l g).1 ≡ₚ l.

Variable fs : filesystem.
Variable observ_types : list string.

Local Abbreviation vecsize := (Py.len observ_types).

Lemma preprocess_groups_ok (p : ObjectProfile) (m : Z) arr_start fsr
    (groups : list (Z * DataFrame)) :
  max_size p = Some m -> 0 <= m ->
  forall (a0 : list (option array2)) w a w' total filled,
    samples_ok p vecsize total filled a0 ->
    run (preprocess_groups p m observ_types vecsize arr_start fsr groups a0) w
    = (Ok a, w') ->
    samples_ok p vecsize total filled a.
Proof.
  intros Hp Hm. unfold preprocess_groups.
  induction groups as [|g gs IH]; intros a0 w a w' total filled Hok Hrun; simpl in Hrun.
  - by apply run_ret in Hrun as [-> _].
  - apply run_bind in Hrun as (a1 & w1 & Hstep & Hrun).
    apply run_bind in Hstep as (t & w2 & Hgroup & Hset).
    apply preprocess_group_shape in Hgroup; [|done..].
    apply run_lift in Hset as [Hset _].
    apply setitem_insert in Hset as (j & Hj & ->).
    eapply IH; [|exact Hrun]. destruct Hok as (Hl & Hslots & Hfilled).
    split_and!.
    + by rewrite length_insert.
    + intros n slot Hn. destruct (decide (n = j)) as [->|Hne].
      * rewrite list_lookup_insert_eq in Hn by done. injection Hn as <-.
        right. exists t. split; [done|]. exists m. split; [done|]. by left.
      * rewrite list_lookup_insert_ne in Hn by done. by eapply Hslots.
    + intros n Hn. destruct (decide (n = j)) as [->|Hne].
      * by rewrite list_lookup_insert_eq by done.
      * rewrite list_lookup_insert_ne by done. by apply Hfilled.
Qed.

Lemma preprocess_frame_ok (p : ObjectProfile) (m : Z) arr_start fsr s frame :
  max_size p = Some m -> 0 <= m -> 0 <= arr_start -> 0 <= s ->
  forall (a0 : list (option array2)) w a w' total,
    arr_start + s <= Z.of_nat total ->
    samples_ok p vecsize total arr_start a0 ->
    run (preprocess_frame p m observ_types vecsize arr_start fsr s frame a0) w
    = (Ok a, w') ->
    samples_ok p vecsize total (arr_start + s) a.
Proof.
  intros Hp Hm Hstart Hs a0 w a w' total Htotal Hok Hrun.
  unfold preprocess_frame in Hrun.
  apply run_bind in Hrun as (a1 & w1 & Hgroups & Hfill).
  apply run_lift in Hfill as [Hfill _].
  eapply preprocess_groups_ok in Hgroups; [|done..].
  destruct Hgroups as (Hl & Hslots & Hfilled).
  destruct (fill_missing_slots m observ_types arr_start s Hm Hstart a1)
    as (a2 & Hfill' & Hl2 & Hn); [done | unfold Py.len; lia |].
  rewrite Hfill in Hfill'. injection Hfill' as <-.
  split_and!.
  - congruence.
  - intros n slot Hslot. destruct (Hn n) as [Hzero Hkeep].
    destruct (a1 !! n) as [[t|]|] eqn:Ha1.
    + rewrite Hkeep in Hslot by (by right). injection Hslot as <-. by eapply Hslots.
    + destruct (decide (arr_start <= Z.of_nat n < arr_start + s)) as [Hw|Hw].
      * rewrite Hzero in Hslot by done. injection Hslot as <-.
        right. eexists. split; [done|]. exists m. split; [done|]. by right.
      * rewrite Hkeep in Hslot by (by left). injection Hslot as <-. by left.
    + rewrite Hkeep in Hslot by (by right). discriminate.
  - intros n Hlt. destruct (Hn n) as [Hzero Hkeep].
    destruct (a1 !! n) as [[t|]|] eqn:Ha1.
    + rewrite Hkeep by (by right). discriminate.
    + destruct (decide (arr_start <= Z.of_nat n < arr_start + s)) as [Hw|Hw].
      * rewrite Hzero by done. discriminate.
      * exfalso. eapply Hfilled; [|exact Ha1]. lia.
    + rewrite Hkeep by (by right). discriminate.
Qed.

End EngineRun.

Section FoldPrefix.
Context `{NumpyRandom}.

Lemma foldM_prefix {A B} (f : B -> A -> M B) (P : list A -> B -> Prop) (l0 : list A) :
  (forall done a rest b w b' w',
     l0 = done ++ a :: rest -> P done b -> run (f b a) w = (Ok b', w') ->
     P (done ++ [a]) b') ->
  forall b w r w', P [] b -> run (foldM f l0 b) w = (Ok r, w') -> P l0 r.
Proof.
  intros Hstep.
  assert (Hgen : forall l done b w r w',
            l0 = done ++ l -> P done b -> run (foldM f l b) w = (Ok r, w') -> P l0 r).
  { induction l as [|a l IH]; intros done b w r w' Heq HP Hrun; simpl in Hrun.
    - apply run_ret in Hrun as [-> _]. rewrite Heq. by rewrite app_nil_r.
    - apply run_bind in Hrun as (b1 & w1 & Hf & Hrest).
      eapply (IH (done ++ [a])); [by rewrite <- app_assoc | | exact Hrest].
      eapply Hstep; eauto. }
  intros b w r w'. by apply (Hgen l0 []).
Qed.

End FoldPrefix.

Lemma zip_seq_middle {A} (l : list A) (done rest : list (nat * A)) (j : nat) (a : A) :
  zip (seq 0 (length l)) l = done ++ (j, a) :: rest ->
  j = length done /\ l !! length done = Some a.
Proof.
  intros Heq.
  assert (Hl : zip (seq 0 (length l)) l !! length done = Some (j, a)).
  { rewrite Heq. by apply list_lookup_middle. }
  apply lookup_zip_Some in Hl as [Hj Ha]. apply lookup_seq in Hj as [-> _]. done.
Qed.

Section EngineLoops.
Context `{NumpyRandom} `{Pandas}.
Hypothesis shuffle_permutes :
  forall (A : Type) (l : list A) (g : rng), (np_random_shuffle A l g).1 ≡ₚ l.

Variable fs : filesystem.
Variables (start samples_per_label : Z).
Variable profiles : list ObjectProfile.
Variable observ_types : list string.
Variable total : nat.
Hypothesis profiles_resolved :
  Forall (fun p => exists m, max_size p = Some m /\ 0 <= m) profiles.

Local Abbreviation vecsize := (Py.len observ_types).

Lemma preprocess_profile_ok f st fte fsr s skip nv (j : nat) (p : ObjectProfile)
    (filled : Z) X w X' w' :
  profiles !! j = Some p -> 0 <= filled -> 0 <= s -> filled + s <= Z.of_nat total ->
  lists_ok profiles vecsize total j (filled + s) filled X ->
  run (preprocess_profile fs observ_types f st fte fsr s skip nv X (j, p)) w
  = (Ok X', w') ->
  lists_ok profiles vecsize total (S j) (filled + s) filled X'.
Proof.
  intros Hj Hfilled Hs Htotal (Hl1 & Hl2 & Hall) Hrun.
  unfold preprocess_profile in Hrun. simpl in Hrun.
  apply run_bind in Hrun as (m & w1 & Hm & Hrun). apply run_lift in Hm as [Hm _].
  destruct (max_size p) as [m'|] eqn:Hmax; [|discriminate]. injection Hm as ->.
  assert (Hm0 : 0 <= m).
  { rewrite Forall_forall in profiles_resolved.
    destruct (profiles_resolved p) as (m' & Hm' & ?); [by eapply list_elem_of_lookup_2|].
    congruence. }
  apply run_bind in Hrun as (skipc & w2 & _ & Hrun).
  apply run_bind in Hrun as (nums & w3 & _ & Hrun).
  apply run_bind in Hrun as (frame & w4 & _ & Hrun).
  apply run_bind in Hrun as (arr_start & w5 & Hstart & Hrun).
  apply run_lift in Hstart as [Hstart _]. apply getitem_nat in Hstart.
  apply run_bind in Hrun as (arr & w6 & Harr & Hrun).
  apply run_lift in Harr as [Harr _]. apply getitem_nat in Harr.
  apply run_bind in Hrun as (arr' & w7 & Hframe & Hrun).
  apply run_bind in Hrun as (X1 & w8 & HX1 & Hrun).
  apply run_lift in HX1 as [HX1 _]. apply setitem_nat in HX1 as [Hj1 ->].
  apply run_bind in Hrun as (X2 & w9 & HX2 & Hrun).
  apply run_lift in HX2 as [HX2 _]. apply setitem_nat in HX2 as [Hj2 ->].
  apply run_ret in Hrun as [-> _].
  destruct (Hall j p Hj) as (arr0 & Harr0 & Hstart0 & Hok0).
  rewrite Nat.ltb_irrefl in Hstart0, Hok0.
  rewrite Harr in Harr0. injection Harr0 as <-.
  rewrite Hstart in Hstart0. injection Hstart0 as ->.
  eapply preprocess_frame_ok in Hframe; [|done..].
  split_and!; simpl.
  - by rewrite length_insert.
  - by rewrite length_insert.
  - intros i q Hi. destruct (decide (i = j)) as [->|Hne].
    + rewrite Hj in Hi. injection Hi as <-.
      rewrite (proj2 (Nat.ltb_lt j (S j))) by lia.
      exists arr'. by rewrite !list_lookup_insert_eq by done.
    + destruct (Hall i q Hi) as (arr1 & Harr1 & Hstart1 & Hok1).
      exists arr1. rewrite !list_lookup_insert_ne by done.
      replace (i <? S j)%nat with (i <? j)%nat; [done|].
      destruct (Nat.ltb_spec i j), (Nat.ltb_spec i (S j)); (done || lia).
Qed.

Lemma preprocess_profiles_ok f st fte fsr s skip nv (filled : Z) X w X' w' :
  0 <= filled -> 0 <= s -> filled + s <= Z.of_nat total ->
  lists_ok profiles vecsize total 0 filled filled X ->
  run (foldM (preprocess_profile fs observ_types f st fte fsr s skip nv)
             (zip (seq 0 (length profiles)) profiles) X) w = (Ok X', w') ->
  lists_ok profiles vecsize total 0 (filled + s) (filled + s) X'.
Proof.
  intros Hfilled Hs Htotal Hok Hrun.
  apply (foldM_prefix _ (fun done X =>
           lists_ok profiles vecsize total (length done) (filled + s) filled X))
    in Hrun.
  - destruct Hrun as (Hl1 & Hl2 & Hall). split_and!; [done..|].
    intros i p Hi. destruct (Hall i p Hi) as (arr & Harr & Hstart & Harr_ok).
    exists arr. simpl.
    assert (Hlt : (i <? length (zip (seq 0 (length profiles)) profiles))%nat = true).
    { apply Nat.ltb_lt. rewrite length_zip, length_seq.
      apply lookup_lt_Some in Hi. lia. }
    by rewrite Hlt in Hstart, Harr_ok.
  - intros done [j p] rest X0 w0 X1 w1 Heq HP Hstep.
    apply zip_seq_middle in Heq as [-> Hp].
    rewrite length_app. simpl. rewrite Nat.add_1_r.
    eapply preprocess_profile_ok; eauto.
  - destruct Hok as (Hl1 & Hl2 & Hall). split_and!; [done..|].
    intros i p Hi. destruct (Hall i p Hi) as (arr & Harr & Hstart & Harr_ok).
    exists arr. by simpl in *.
Qed.

End EngineLoops.

Section EngineFiles.
Context `{NumpyRandom} `{Pandas}.
Hypothesis shuffle_permutes :
  forall (A : Type) (l : list A) (g : rng), (np_random_shuffle A l g).1 ≡ₚ l.

Variable fs : filesystem.
Variables (start samples_per_label : Z).
Variable profiles : list ObjectProfile.
Variable observ_types : list string.
Variable total : nat.
Hypothesis profiles_resolved :
  Forall (fun p => exists m, max_size p = Some m /\ 0 <= m) profiles.

Local Abbreviation vecsize := (Py.len observ_types).

(** The state of the loop over the files of the label whose samples
    begin at [base]. *)
Local Abbreviation loop_ok := (fun (base : Z) (ls : loop_state) =>
  0 <= samples_read ls <= samples_per_label /\
  lists_ok profiles vecsize total 0 (base + samples_read ls) (base + samples_read ls)
           (X_train ls, X_train_indices ls)).

Lemma read_file_ok (base : Z) st ls f w ls' brk w' :
  0 <= base -> base + samples_per_label <= Z.of_nat total ->
  loop_ok base ls ->
  run (read_file fs start samples_per_label profiles observ_types st ls f) w
  = (Ok (ls', brk), w') ->
  loop_ok base ls'.
Proof.
  intros Hbase Htotal [Hread Hok] Hrun. unfold read_file in Hrun.
  apply run_bind in Hrun as (nv & w1 & _ & Hrun).
  destruct (negb (0 <? nv_entries nv)); [by apply run_raise in Hrun|].
  destruct (location ls + nv_entries nv <=? start).
  { apply run_ret in Hrun as [[= -> ->] _]. by split. }
  apply run_bind in Hrun as (u & w2 & _ & Hrun).
  set (fsr := if start - location ls <? 0 then 0 else start - location ls) in *.
  set (s := Z.min (samples_per_label - samples_read ls) (nv_entries nv - fsr)) in *.
  destruct (Z.leb_spec 0 s) as [Hs|]; simpl in Hrun; [|by apply run_raise in Hrun].
  apply run_bind in Hrun as (X & w3 & Hprofiles & Hrun).
  apply preprocess_profiles_ok with (total := total) (filled := base + samples_read ls)
    in Hprofiles; [|done|done|lia|lia|lia|done].
  apply run_bind in Hrun as (u' & w4 & _ & Hrun).
  assert (Hls : loop_ok base
            {| samples_read := samples_read ls + s;
               location := location ls + nv_entries nv;
               X_train := X.1; X_train_indices := X.2 |}).
  { simpl. split; [lia|]. rewrite Z.add_assoc. by destruct X. }
  simpl in Hrun.
  destruct (samples_per_label <=? samples_read ls + s).
  - destruct (samples_read ls + s =? samples_per_label); [|by apply run_raise in Hrun].
    by apply run_ret in Hrun as [[= -> ->] _].
  - by apply run_ret in Hrun as [[= -> ->] _].
Qed.

Lemma read_files_ok (base : Z) st files :
  0 <= base -> base + samples_per_label <= Z.of_nat total ->
  forall ls w ls' w',
    loop_ok base ls ->
    run (read_files fs start samples_per_label profiles observ_types st files ls) w
    = (Ok ls', w') ->
    loop_ok base ls'.
Proof.
  intros Hbase Htotal. induction files as [|f files IH]; intros ls w ls' w' Hok Hrun;
    simpl in Hrun.
  - by apply run_ret in Hrun as [-> _].
  - apply run_bind in Hrun as ([ls1 brk] & w1 & Hfile & Hrun).
    apply read_file_ok with (base := base) in Hfile; [|done..].
    destruct brk; [by apply run_ret in Hrun as [-> _] | by eapply IH].
Qed.

Lemma rfold_setitem_length {A} (v : A) (offset : Z) (idx : list Z) :
  forall (y y' : list A),
    rfold (fun y i => Py.setitem y (offset + i) v) idx y = Ok y' ->
    length y' = length y.
Proof.
  induction idx as [|i idx IH]; intros y y' Hr; simpl in Hr.
  - by injection Hr as <-.
  - apply bind_Ok in Hr as (y1 & Hset & Hr). apply setitem_length in Hset.
    apply IH in Hr. congruence.
Qed.

Lemma read_label_ok (k : Z) label_vecs acc pair w acc' w' :
  0 <= k -> 0 <= samples_per_label ->
  (k + 1) * samples_per_label <= Z.of_nat total ->
  lists_ok profiles vecsize total 0 (k * samples_per_label) (k * samples_per_label)
           (acc.1.1.1, acc.1.1.2) ->
  run (read_label fs start samples_per_label profiles observ_types label_vecs acc pair) w
  = (Ok acc', w') ->
  lists_ok profiles vecsize total 0 ((k + 1) * samples_per_label)
           ((k + 1) * samples_per_label) (acc'.1.1.1, acc'.1.1.2) /\
  length acc'.1.2 = length acc.1.2.
Proof.
  intros Hk Hspl Htotal Hok Hrun. destruct acc as [[[X Xi] y] y_start].
  unfold read_label in Hrun.
  apply run_bind in Hrun as (fst & w1 & _ & Hrun).
  apply run_bind in Hrun as (ls & w2 & Hfiles & Hrun).
  apply read_files_ok with (base := k * samples_per_label) in Hfiles; [|nia|nia|].
  2:{ simpl. split; [lia|]. by rewrite Z.add_0_r. }
  destruct Hfiles as [Hread Hlists].
  destruct (Z.eqb_spec (samples_read ls) samples_per_label) as [Heq|];
    simpl in Hrun; [|by apply run_raise in Hrun].
  apply run_bind in Hrun as (vec & w3 & _ & Hrun).
  apply run_bind in Hrun as (idx & w4 & _ & Hrun).
  apply run_bind in Hrun as (y' & w5 & Hy & Hrun).
  apply run_lift in Hy as [Hy _]. apply rfold_setitem_length in Hy.
  apply run_ret in Hrun as [-> _]. simpl. split; [|done].
  rewrite Heq in Hlists.
  replace ((k + 1) * samples_per_label) with (k * samples_per_label + samples_per_label)
    by lia. exact Hlists.
Qed.

End EngineFiles.

Lemma check_profile_resolved (observ_types : list string) (pa : profile_arg)
    (p : ObjectProfile) :
  constructed pa -> check_profile observ_types pa = Ok p ->
  exists m, max_size p = Some m /\ 0 <= m.
Proof.
  intros Hc Hcheck. unfold check_profile in Hcheck.
  apply bind_Ok in Hcheck as (q & Hq & Hcheck).
  assert (Hlow : forall m, max_size q = Some m -> -1 <= m).
  { destruct pa as [o|d]; simpl in Hc.
    - by injection Hq as <-.
    - destruct (bool_decide _); [|discriminate].
      destruct (d_name d) as [n|]; [|discriminate].
      unfold ObjectProfile_init in Hq.
      destruct (Z.ltb_spec (default 100 (d_max_size d)) (-1)); [discriminate|].
      destruct (d_punctuation d); try discriminate; injection Hq as <-; simpl;
        intros m [= <-]; lia. }
  destruct (unresolved_max q) eqn:Hun; [discriminate|].
  assert (p = q) as ->.
  { destruct (addColumns q); [congruence | discriminate |].
    destruct (forallb _ _); [congruence | discriminate]. }
  unfold unresolved_max in Hun. destruct (max_size q) as [m|]; [|discriminate].
  exists m. split; [done|]. apply Z.eqb_neq in Hun. specialize (Hlow m eq_refl). lia.
Qed.

(** The engine as a whole: when it returns, the list it returns for a
    profile has one tensor for each of the [samples_per_label] entries of
    each label, and each of them is a tensor that C1 describes. *)
Theorem preprocessFromPandas_tensors `{NumpyRandom} `{Pandas} :
  forall (fs : filesystem) (label_dir_pairs : list (string * string))
         (start samples_per_label : Z) (object_profiles : list profile_arg)
         (observ_types : list string) X Y (w w' : world),
    (forall (A : Type) (l : list A) (g : rng), (np_random_shuffle A l g).1 ≡ₚ l) ->
    0 <= samples_per_label ->
    Forall constructed object_profiles ->
    run (preprocessFromPandas_label_dir_pairs fs label_dir_pairs start
           samples_per_label object_profiles observ_types) w = (Ok (X, Y), w') ->
    exists profiles,
      rmap (check_profile observ_types) object_profiles = Ok profiles /\
      Forall2 (fun p (samples : list (option array2)) =>
                 Py.len samples = samples_per_label * Py.len label_dir_pairs /\
                 Forall (fun slot => exists t, slot = Some t /\
                                     good_tensor p (Py.len observ_types) t) samples)
              profiles X.
Proof.
  intros fs pairs start spl args obs X Y w w' Hshuffle Hspl Hargs Hrun.
  unfold preprocessFromPandas_label_dir_pairs in Hrun.
  destruct (negb _); [by apply run_raise in Hrun|].
  destruct (Py.contains "Entry" obs); [by apply run_raise in Hrun|].
  apply run_bind in Hrun as (profiles & w1 & Hcheck & Hrun).
  apply run_lift in Hcheck as [Hcheck _]. exists profiles. split; [done|].
  assert (Hres : Forall (fun p => exists m, max_size p = Some m /\ 0 <= m) profiles).
  { apply rmap_Forall2 in Hcheck. clear Hrun.
    induction Hcheck as [|pa p args' profiles' Hp _ IH]; [constructor|].
    apply Forall_cons in Hargs as [Hpa Hargs].
    constructor; [by eapply check_profile_resolved | by apply IH]. }
  set (total := Z.to_nat (spl * Py.len pairs)).
  assert (Htotal : Z.of_nat total = spl * Py.len pairs) by (unfold total, Py.len; nia).
  apply run_bind in Hrun as (acc & w2 & Hfold & Hrun).
  apply (foldM_prefix _ (fun done acc =>
           lists_ok profiles (Py.len obs) total 0
             (Py.len done * spl) (Py.len done * spl) (acc.1.1.1, acc.1.1.2) /\
           length acc.1.2 = total)) in Hfold.
  - destruct Hfold as [(Hl1 & Hl2 & Hall) Hy].
    apply run_bind in Hrun as (indices & w3 & Hidx & Hrun).
    apply run_shuffleM in Hidx; [|done]. rewrite Hy in Hidx.
    apply run_ret in Hrun as [[= -> _] _].
    apply Forall2_same_length_lookup. split; [by rewrite length_map|].
    intros i p samples Hp Hsamples.
    destruct (Hall i p Hp) as (arr & Harr & _ & (Hlen & Hslots & Hfilled)).
    simpl in Harr. rewrite list_lookup_fmap, Harr in Hsamples. injection Hsamples as <-.
    split.
    + unfold Py.len, np_take. rewrite length_map, (Permutation_length Hidx), length_seq.
      exact Htotal.
    + apply Forall_forall. intros slot Hslot. unfold np_take in Hslot.
      apply list_elem_of_fmap in Hslot as (j & -> & Hj).
      rewrite Hidx in Hj. apply elem_of_seq in Hj as [_ Hj]. simpl in Hj.
      destruct (arr !! j) as [slot|] eqn:Hlook.
      2:{ apply lookup_ge_None in Hlook. lia. }
      rewrite (nth_lookup_Some _ _ _ _ Hlook).
      destruct (Hslots j slot Hlook) as [->|Hgood]; [|done].
      exfalso. eapply Hfilled; [|exact Hlook].
      destruct (i <? 0)%nat; unfold Py.len in *; lia.
  - intros done pair rest acc0 w0 acc1 w1' Heq [Hok Hy] Hstep.
    assert (Hk : Py.len done + 1 <= Py.len pairs).
    { rewrite Heq. unfold Py.len. rewrite length_app. simpl. lia. }
    eapply (read_label_ok Hshuffle) with (k := Py.len done) (total := total) in Hstep;
      [|done|unfold Py.len; lia|done|nia|done].
    destruct Hstep as [Hok' Hy']. split; [|congruence].
    replace (Py.len (done ++ [pair])) with (Py.len done + 1); [done|].
    unfold Py.len. rewrite length_app. simpl. lia.
  - simpl. split.
    + split_and!; simpl; [by rewrite length_map..|].
      intros i p Hp. exists (Py.replicate None (spl * Py.len pairs)).
      rewrite !list_lookup_fmap, Hp. simpl. split_and!; [done..|].
      split_and!.
      * unfold Py.replicate. by rewrite repeat_length.
      * intros n slot Hn. left. unfold Py.replicate in Hn.
        apply list_elem_of_lookup_2, list_elem_of_In, repeat_spec in Hn. done.
      * intros n Hn. unfold Py.len in Hn. simpl in Hn. lia.
    + unfold Py.replicate. by rewrite repeat_length.
Qed.

(** On the source of the photons: three tensors, each of them good. *)
Example preprocessFromPandas_tensors_photons :
  exists X Y w',
    @run reversing_random _
      (@preprocessFromPandas_label_dir_pairs reversing_random plain_pandas photon_source
         [("qcd", "data/qcd/")] 0 3 [P_obj punctuated_photons] ["E"; "PT"])
      quiet_world = (Ok (X, Y), w') /\
    Forall2 (fun p (samples : list (option array2)) =>
               Py.len samples = 3 * Py.len [("qcd", "data/qcd/")] /\
               Forall (fun slot => exists t, slot = Some t /\
                                   good_tensor p (Py.len ["E"; "PT"]) t) samples)
            [punctuated_photons] X.
Proof.
  eexists _, _, _. split; [by vm_compute|].
  destruct (@preprocessFromPandas_tensors reversing_random plain_pandas photon_source
              [("qcd", "data/qcd/")] 0 3 [P_obj punctuated_photons] ["E"; "PT"]
              _ _ quiet_world _
              ltac:(intros A l g; simpl; symmetry; apply Permutation_rev)
              ltac:(lia)
              ltac:(repeat constructor; simpl; intros m [= <-]; lia)
              preprocessFromPandas_photons)
    as (profiles & Hprofiles & Hgood).
  vm_compute in Hprofiles. injection Hprofiles as <-. exact Hgood.
Qed.

(** * Further properties of the code *)

(** ** The budget splitter: every return, and the lists of counts *)

Lemma Qlt_bool_false (x y : Q) : Py.Qlt_bool x y = false -> (y <= x)%Q.
Proof. unfold Py.Qlt_bool. intros Hx. by apply negb_false_iff, Qle_bool_iff in Hx. Qed.

Lemma existsb_false_Forall {A} (f : A -> bool) (l : list A) :
  existsb f l = false -> Forall (fun a => f a = false) l.
Proof.
  induction l as [|a l IH]; simpl; [constructor|].
  intros [Ha Hl]%orb_false_iff. constructor; [done | by apply IH].
Qed.

Lemma splits_nonneg (splits : list Q) :
  existsb (fun x => Py.Qlt_bool x 0) splits = false -> Forall (fun x => (0 <= x)%Q) splits.
Proof.
  intros Hneg. apply existsb_false_Forall in Hneg.
  eapply Forall_impl; [exact Hneg|]. intros x Hx. by apply Qlt_bool_false.
Qed.

Lemma code_nums_nonneg (L : Q) (l : list Q) :
  (0 <= L)%Q -> Forall (fun x => (0 <= x)%Q) l ->
  Forall (fun n => 0 <= n)
    (map (fun sa : Q * bool => if sa.2 then Py.int sa.1 else Py.int (sa.1 * L)%Q)
         (zip l (map (fun x => 0 <? Py.int x) l))).
Proof.
  intros HL Hl. rewrite zip_map_snd. apply Forall_map.
  eapply Forall_impl; [exact Hl|]. intros x Hx. simpl.
  destruct (Z.ltb_spec 0 (Py.int x)); [lia|].
  apply int_nonneg. by apply Qmult_le_0_compat.
Qed.

Lemma starts_of_length (nums : list Z) (start : Z) :
  length (starts_of start nums) = length nums.
Proof. revert start. induction nums as [|n nums IH]; intros start; simpl; [done | by rewrite IH]. Qed.

(** What the splitter returns whenever it returns: the running starts of
    counts that are not negative, one for each split. *)
Lemma start_num_fromSplits_nums (splits : list Q) (length : Z) (out : list (Z * Z)) :
  0 <= length ->
  start_num_fromSplits splits length = Ok out ->
  exists nums, out = starts_of 0 nums /\ Forall (fun n => 0 <= n) nums /\
               List.length nums = List.length splits /\
               Forall (fun x => (0 <= x)%Q) splits.
Proof.
  intros Hlen Hrun. unfold start_num_fromSplits in Hrun.
  destruct (existsb _ splits) eqn:Hneg; [discriminate|].
  apply splits_nonneg in Hneg.
  apply bind_Ok in Hrun as ([ratios L] & Hrl & Hrun). simpl in Hrun.
  destruct (_ && _); [discriminate|]. injection Hrun as <-.
  assert (HL : (0 <= L)%Q).
  { destruct (existsb id _).
    - destruct (Py.Qlt_bool _ _) eqn:Hfit; [discriminate|].
      injection Hrl as _ <-. apply Qlt_bool_false in Hfit.
      by apply -> Qle_minus_iff in Hfit.
    - injection Hrl as _ <-. unfold Qle. simpl. lia. }
  eexists. split_and!; [reflexivity| |  |done].
  - by apply code_nums_nonneg.
  - by rewrite length_map, length_zip, length_map, Nat.min_id.
Qed.

(** X11: whenever [start_num_fromSplits] returns for a budget that is not
    negative, whatever the splits are, no split is negative, there is one
    window per split, no count is negative, and the windows follow one
    another from 0 without gap or overlap, so that every position below
    the total lies in exactly one of them. *)
Theorem start_num_fromSplits_windows :
  forall (splits : list Q) (length : Z) (out : list (Z * Z)),
    0 <= length ->
    start_num_fromSplits splits length = Ok out ->
    Forall (fun x => (0 <= x)%Q) splits /\
    List.length out = List.length splits /\
    Forall (fun w : Z * Z => 0 <= w.2) out /\
    tiles 0 (Py.Zsum (map snd out)) out /\
    (forall x, 0 <= x < Py.Zsum (map snd out) ->
       exists i w, out !! i = Some w /\ in_window x w /\
                   forall j v, out !! j = Some v -> in_window x v -> j = i).
Proof.
  intros splits length out Hlen Hrun.
  destruct (start_num_fromSplits_nums splits length out Hlen Hrun)
    as (nums & -> & Hnums & Hcount & Hsplits).
  rewrite starts_of_counts.
  assert (Htiles : tiles 0 (Py.Zsum nums) (starts_of 0 nums)).
  { by apply (starts_of_tiles _ 0). }
  split_and!; [done| | |done|].
  - by rewrite starts_of_length.
  - apply Forall_map. by rewrite starts_of_counts.
  - by apply tiles_covers_once.
Qed.

Lemma start_num_fromSplits_windows_thirds :
  0 <= 10 /\
  start_num_fromSplits [1 # 3; 1 # 3; 1 # 3]%Q 10 = Ok [(0, 3); (3, 3); (6, 3)] /\
  Forall (fun w : Z * Z => 0 <= w.2) [(0, 3); (3, 3); (6, 3)] /\
  tiles 0 (Py.Zsum (map snd [(0, 3); (3, 3); (6, 3)])) [(0, 3); (3, 3); (6, 3)].
Proof.
  assert (Hlen : 0 <= 10) by lia.
  assert (Hrun : start_num_fromSplits [1 # 3; 1 # 3; 1 # 3]%Q 10
                 = Ok [(0, 3); (3, 3); (6, 3)]) by reflexivity.
  destruct (start_num_fromSplits_windows _ _ _ Hlen Hrun) as (_ & _ & Hcounts & Htiles & _).
  done.
Defined.

(** ** The stride and the planner at their bounds *)

Lemma stride_sizes (object_profiles : list ObjectProfile) (sizes : list Z) :
  Forall2 (fun o m => max_size o = Some m) object_profiles sizes ->
  rmap (fun o => match max_size o with
                 | Some m => Ok m
                 | None => Raise (TypeError "unsupported operand type(s) for +")
                 end) object_profiles = Ok sizes.
Proof. induction 1 as [|o m os ms Hm _ IH]; simpl; [done|]. by rewrite Hm, IH. Qed.



Lemma range_up_length (step stop : Z) (fuel : nat) (cur : Z) :
  0 < step -> stop - cur <= Z.of_nat fuel ->
  Py.len (Py.range_up fuel cur stop step) = Z.max 0 ((stop - cur + step - 1) / step).
Proof.
  intros Hstep. revert cur. induction fuel as [|fuel IH]; intros cur Hfuel; simpl.
  - unfold Py.len. simpl.
    assert ((stop - cur + step - 1) / step <= 0); [|lia].
    apply Z.lt_succ_r, Z.div_lt_upper_bound; lia.
  - destruct (Z.ltb_spec cur stop).
    + unfold Py.len in *. simpl length. rewrite Nat2Z.inj_succ, IH by lia.
      replace (stop - cur + step - 1) with (stop - (cur + step) + step - 1 + 1 * step) by lia.
      rewrite Z.div_add by lia.
      assert (0 <= (stop - (cur + step) + step - 1) / step); [|lia].
      apply Z.div_pos; lia.
    + unfold Py.len. simpl.
      assert ((stop - cur + step - 1) / step <= 0); [|lia].
      apply Z.lt_succ_r, Z.div_lt_upper_bound; lia.
Qed.

Lemma range_up_from (step stop : Z) (fuel : nat) (cur : Z) :
  0 < step -> Forall (fun s => cur <= s < stop) (Py.range_up fuel cur stop step).
Proof.
  intros Hstep. revert cur. induction fuel as [|fuel IH]; intros cur; simpl; [constructor|].
  destruct (Z.ltb_spec cur stop); [|constructor].
  constructor; [lia|]. eapply Forall_impl; [apply IH|]. intros s Hs. simpl in Hs. lia.
Qed.

(** X13: for a positive stride the planner returns as many tasks as the
    stride goes into the samples, rounded up (none when there is no
    sample); each of them is a call of the engine on the sources, the
    profiles and the columns of the plan, for a window that starts within
    the range. *)
Theorem procsFrom_label_dir_pairs_count :
  forall start samples_per_label stride archive_dir label_dir_pairs
         object_profiles observ_types,
    0 < stride ->
    exists dps,
      procsFrom_label_dir_pairs start samples_per_label stride archive_dir
        label_dir_pairs object_profiles observ_types = Ok dps /\
      Py.len dps = Z.max 0 ((samples_per_label + stride - 1) / stride) /\
      Forall (fun dp => exists proc_start proc_num,
                dp = DP_preprocess archive_dir label_dir_pairs proc_start proc_num
                                   object_profiles observ_types /\
                start <= proc_start < start + samples_per_label /\
                proc_num = Z.min stride (start + samples_per_label - proc_start))
             dps.
Proof.
  intros start spl stride archive pairs profiles obs Hstride.
  unfold procsFrom_label_dir_pairs, Py.range.
  destruct (Z.eqb_spec stride 0); [lia|].
  destruct (Z.ltb_spec 0 stride); [|lia].
  eexists. split; [reflexivity|]. split.
  - unfold Py.len. rewrite length_map. fold (Py.len (Py.range_up
      (Z.to_nat (start + spl - start)) start (start + spl) stride)).
    rewrite range_up_length by lia. do 2 f_equal. lia.
  - apply Forall_map. eapply Forall_impl; [by apply range_up_from|].
    intros s Hs. by exists s, (Z.min stride (start + spl - s)).
Qed.

Lemma procsFrom_label_dir_pairs_count_230_100 :
  0 < 100 /\
  exists dps,
    procsFrom_label_dir_pairs 0 230 100 "archive" [] [] [] = Ok dps /\
    Py.len dps = Z.max 0 ((230 + 100 - 1) / 100) /\
    Forall (fun dp => exists proc_start proc_num,
              dp = DP_preprocess "archive" [] proc_start proc_num [] [] /\
              0 <= proc_start < 0 + 230 /\
              proc_num = Z.min 100 (0 + 230 - proc_start))
           dps.
Proof.
  split; [lia|].
  apply (procsFrom_label_dir_pairs_count 0 230 100 "archive" [] [] []). lia.
Defined.

Lemma range_down_empty (fuel : nat) (cur stop step : Z) :
  cur <= stop -> Py.range_down fuel cur stop step = [].
Proof. intros Hle. destruct fuel; simpl; [done|]. by destruct (Z.ltb_spec stop cur); [lia|]. Qed.

(** X14: a stride that is not positive yields no plan: a stride of zero
    makes [range] raise, and a negative stride gives an empty list of
    tasks for any number of samples that is not negative. *)
Theorem procsFrom_label_dir_pairs_bad_stride :
  forall start samples_per_label stride archive_dir label_dir_pairs
         object_profiles observ_types,
    stride <= 0 -> 0 <= samples_per_label ->
    procsFrom_label_dir_pairs start samples_per_label stride archive_dir
      label_dir_pairs object_profiles observ_types
    = if stride =? 0 then Raise (ValueError "range() arg 3 must not be zero") else Ok [].
Proof.
  intros start spl stride archive pairs profiles obs Hstride Hspl.
  unfold procsFrom_label_dir_pairs, Py.range.
  destruct (Z.eqb_spec stride 0); [done|].
  destruct (Z.ltb_spec 0 stride); [lia|].
  simpl. rewrite range_down_empty by lia. done.
Qed.

Lemma procsFrom_label_dir_pairs_bad_stride_run :
  -5 <= 0 /\ 0 <= 230 /\
  procsFrom_label_dir_pairs 0 230 (-5) "archive" [] [] [] = Ok [] /\
  procsFrom_label_dir_pairs 0 230 0 "archive" [] [] []
  = Raise (ValueError "range() arg 3 must not be zero").
Proof.
  split_and!; [lia | lia | |].
  - apply (procsFrom_label_dir_pairs_bad_stride 0 230 (-5) "archive" [] [] []); lia.
  - apply (procsFrom_label_dir_pairs_bad_stride 0 230 0 "archive" [] [] []); lia.
Defined.

(** The windows of the tasks that the planner makes for a positive
    stride. *)
Lemma procsFrom_label_dir_pairs_windows start spl stride archive_dir label_dir_pairs
    object_profiles observ_types dps :
  0 < stride -> 0 <= spl ->
  procsFrom_label_dir_pairs start spl stride archive_dir label_dir_pairs
    object_profiles observ_types = Ok dps ->
  exists ws, map dp_window dps = map Some ws /\ tiles start (start + spl) ws.
Proof.
  intros Hstride Hspl Hrun. unfold procsFrom_label_dir_pairs, Py.range in Hrun.
  destruct (Z.eqb_spec stride 0); [lia|].
  destruct (Z.ltb_spec 0 stride); [|lia]. simpl in Hrun. injection Hrun as <-.
  exists (map (chunk_of (start + spl) stride)
              (Py.range_up (Z.to_nat (start + spl - start)) start (start + spl) stride)).
  split.
  - rewrite !map_map. reflexivity.
  - apply range_up_tiles; lia.
Qed.

Lemma starts_of_counts_nonneg (nums : list Z) (start : Z) :
  Forall (fun n => 0 <= n) nums -> Forall (fun s : Z * Z => 0 <= s.2) (starts_of start nums).
Proof.
  intros Hnums. revert start. induction Hnums as [|n nums Hn _ IH]; intros start; simpl;
    constructor; [done | apply IH].
Qed.

(** X15: what [getGensDefaultFormat] returns has one generator task per
    split, in the order of the splits: it wraps the tasks that the planner
    makes for the window of the split with the stride for 500 megabytes,
    its number of samples is the count of the split times the number of
    labels, and for a positive stride its tasks tile the window of the
    split. The size of the queue is at least one. *)
Theorem getGensDefaultFormat_datasets :
  forall archive_dir splits length object_profiles label_dir_pairs observ_types
         batch_size megabytes all_dps all_datasets max_q_size,
    0 <= length ->
    getGensDefaultFormat archive_dir splits length object_profiles label_dir_pairs
      observ_types batch_size megabytes = Ok (all_dps, all_datasets, max_q_size) ->
    exists stride SNs,
      strideFromTargetSize object_profiles label_dir_pairs observ_types 500 = Ok stride /\
      start_num_fromSplits splits length = Ok SNs /\
      1 <= max_q_size /\
      Forall2 (fun (s : Z * Z) (ds : DataProcedure * Z) =>
                 ds.2 = Py.len label_dir_pairs * s.2 /\
                 exists dps,
                   procsFrom_label_dir_pairs s.1 s.2 stride archive_dir label_dir_pairs
                     object_profiles observ_types = Ok dps /\
                   ds.1 = DP_genFromDPs archive_dir dps batch_size /\
                   (0 < stride ->
                    exists ws, map dp_window dps = map Some ws /\
                               tiles s.1 (s.1 + s.2) ws))
              SNs all_datasets.
Proof.
  intros archive splits length profiles pairs obs batch mb all_dps datasets q Hlen Hg.
  unfold getGensDefaultFormat in Hg.
  apply bind_Ok in Hg as (stride & Hstride & Hg).
  apply bind_Ok in Hg as (SNs & HSNs & Hg).
  apply bind_Ok in Hg as (all & Hall & Hg).
  destruct (batch =? 0); [discriminate|]. injection Hg as <- <- <-.
  exists stride, SNs. split_and!; [done | done | lia |].
  destruct (start_num_fromSplits_nums _ _ _ Hlen HSNs) as (nums & HSN & Hnums & _ & _).
  assert (Hcounts : Forall (fun s : Z * Z => 0 <= s.2) SNs).
  { rewrite HSN. by apply starts_of_counts_nonneg. }
  clear HSNs HSN.
  set (P := fun (done : list (Z * Z)) (acc : list DataProcedure * list (DataProcedure * Z)) =>
           Forall (fun s : Z * Z => 0 <= s.2) done ->
           Forall2 (fun (s : Z * Z) (ds : DataProcedure * Z) =>
                      ds.2 = Py.len pairs * s.2 /\
                      exists dps,
                        procsFrom_label_dir_pairs s.1 s.2 stride archive pairs profiles obs
                        = Ok dps /\
                        ds.1 = DP_genFromDPs archive dps batch /\
                        (0 < stride ->
                         exists ws, map dp_window dps = map Some ws /\
                                    tiles s.1 (s.1 + s.2) ws))
                   done acc.2).
  assert (Hstep : forall done s acc acc',
            P done acc ->
            (dps ← procsFrom_label_dir_pairs s.1 s.2 stride archive pairs profiles obs;
             Ok (acc.1 ++ dps,
                 acc.2 ++ [(DP_genFromDPs archive dps batch, Py.len pairs * s.2)]))
            = Ok acc' ->
            P (done ++ [s]) acc').
  { intros done s acc acc' IH Hs Hdone.
    apply bind_Ok in Hs as (dps & Hdps & Hs). injection Hs as <-. simpl.
    apply Forall_app in Hdone as [Hdone Hs]. apply Forall_inv in Hs.
    apply Forall2_app; [by apply IH|]. constructor; [|constructor].
    split; [done|]. exists dps. split_and!; [done..|].
    intros Hpos.
    exact (procsFrom_label_dir_pairs_windows s.1 s.2 stride archive pairs profiles obs dps
             Hpos Hs Hdps). }
  assert (Hinit : P [] ([], [])) by (intros _; constructor).
  exact (rfold_invariant _ P Hstep SNs [] ([], []) all Hinit Hall Hcounts).
Qed.

Lemma getGensDefaultFormat_datasets_two_splits :
  let profile := mkObjectProfile "Electron" (Some 100000) None (AscBool true) None
                   (AscBool true) None false PyNone PyNone "ObjectProfile" in
  let pairs := [("qcd", "data/qcd/"); ("ttbar", "data/ttbar/")] in
  0 <= 300 /\
  exists all_dps all_datasets max_q_size,
    getGensDefaultFormat "archive" [3 # 4; 1 # 4]%Q 300 [profile] pairs
      ["E"; "Px"] 100 500 = Ok (all_dps, all_datasets, max_q_size) /\
    map dp_window all_dps
    = [Some (0, 104); Some (104, 104); Some (208, 17); Some (225, 75)] /\
    map snd all_datasets = [450; 150] /\ max_q_size = 2 /\
    exists stride SNs,
      strideFromTargetSize [profile] pairs ["E"; "Px"] 500 = Ok stride /\
      start_num_fromSplits [3 # 4; 1 # 4]%Q 300 = Ok SNs /\
      1 <= max_q_size /\
      Forall2 (fun (s : Z * Z) (ds : DataProcedure * Z) =>
                 ds.2 = Py.len pairs * s.2 /\
                 exists dps,
                   procsFrom_label_dir_pairs s.1 s.2 stride "archive" pairs
                     [profile] ["E"; "Px"] = Ok dps /\
                   ds.1 = DP_genFromDPs "archive" dps 100 /\
                   (0 < stride ->
                    exists ws, map dp_window dps = map Some ws /\
                               tiles s.1 (s.1 + s.2) ws))
              SNs all_datasets.
Proof.
  intros profile pairs. split; [lia|].
  eexists _, _, _. split; [reflexivity|]. split_and!; [reflexivity..|].
  eapply (getGensDefaultFormat_datasets "archive" [3 # 4; 1 # 4]%Q 300 [profile] pairs
            ["E"; "Px"] 100 500); [lia | reflexivity].
Defined.

(** ** The size resolver: what the resolved sizes are worth *)

Lemma resolveProfileMaxes_run `{NumpyRandom} (fs : filesystem)
    (object_profiles : list ObjectProfile) (label_dir_pairs : list (string * string))
    (padding_multiplier : Q) (w : world) (resolved : list ObjectProfile) (w' : world) :
  nonempty_indexes fs ->
  run (resolveProfileMaxes fs object_profiles label_dir_pairs padding_multiplier) w
  = (Ok resolved, w') ->
  resolved = map (resolved_profile fs label_dir_pairs padding_multiplier) object_profiles.
Proof.
  intros Hfs Hrun. unfold resolveProfileMaxes in Hrun.
  destruct (Py.len (List.filter unresolved_max object_profiles) =? 0) eqn:Hlen.
  - apply run_ret in Hrun as [-> _]. symmetry. apply resolved_profile_id.
    apply filter_nil_Forall. apply Z.eqb_eq in Hlen. unfold Py.len in Hlen.
    destruct (List.filter unresolved_max object_profiles); [done | simpl in Hlen; lia].
  - apply run_bind in Hrun as (maxes & w1 & Hscan & Hrun).
    apply scan_sources_tracks in Hscan; [|done|apply initial_maxes_tracks].
    apply run_lift in Hrun as [Hmap _].
    rewrite (rmap_map _ (resolved_profile fs label_dir_pairs padding_multiplier)) in Hmap;
      [congruence|].
    apply Forall_forall. intros p Hp. unfold resolved_profile.
    destruct (unresolved_max p) eqn:Hun; [|done].
    rewrite (Hscan (name p)); [done|].
    apply list_elem_of_fmap. exists p. split; [done|].
    apply list_elem_of_In, filter_In. split; [by apply list_elem_of_In | done].
Qed.

Lemma fold_max_ge (l : list Z) (a c : Z) : c ∈ l -> c <= fold_left Z.max l a.
Proof.
  revert a. induction l as [|x l IH]; intros a Hc; [by apply elem_of_nil in Hc|].
  simpl. apply elem_of_cons in Hc as [->|Hc]; [|by apply IH].
  rewrite fold_max_from. lia.
Qed.

Lemma ceil_scaled_ge (z : Z) (m : Q) :
  0 <= z -> (1 <= m)%Q -> z <= Qceiling (inject_Z z * m).
Proof.
  intros Hz Hm. rewrite <- (Qceiling_Z z) at 1. apply Qceiling_resp_le.
  rewrite <- (Qmult_1_r (inject_Z z)) at 1.
  rewrite !(Qmult_comm (inject_Z z)). apply Qmult_le_compat_r; [done|].
  change 0%Q with (inject_Z 0). by rewrite <- Zle_Qle.
Qed.

Lemma two_file_source_nonempty : nonempty_indexes two_file_source.
Proof.
  intros f file nv key col Hf Hnv Hcol. unfold two_file_source in Hf. simpl in Hf.
  apply lookup_insert_Some in Hf as [[_ <-]|[_ Hf]].
  - injection Hnv as <-. simpl in Hcol.
    apply lookup_singleton_Some in Hcol as [_ <-]. discriminate.
  - apply lookup_singleton_Some in Hf as [_ <-]. injection Hnv as <-. simpl in Hcol.
    apply lookup_singleton_Some in Hcol as [_ <-]. discriminate.
Defined.

(** X2: with a multiplier of at least one the resolver truncates nothing.
    When it returns, on sources without an empty row-count index, the size
    that an unresolved profile has received is at least the row count of
    its object type in every entry of every file of every directory; a
    resolved profile is left as it was, and no name changes. *)
Theorem resolveProfileMaxes_no_truncation `{NumpyRandom} :
  forall (fs : filesystem) (object_profiles : list ObjectProfile)
         (label_dir_pairs : list (string * string)) (padding_multiplier : Q)
         (w : world) (resolved : list ObjectProfile) (w' : world),
    nonempty_indexes fs -> (1 <= padding_multiplier)%Q ->
    run (resolveProfileMaxes fs object_profiles label_dir_pairs padding_multiplier) w
    = (Ok resolved, w') ->
    Forall2 (fun p r =>
               name r = name p /\
               (unresolved_max p = false -> r = p) /\
               (unresolved_max p = true ->
                exists size, max_size r = Some size /\
                  Forall (fun count => count <= size)
                         (all_counts fs label_dir_pairs (name p))))
            object_profiles resolved.
Proof.
  intros fs profiles pairs m w resolved w' Hfs Hm Hrun.
  apply resolveProfileMaxes_run in Hrun as ->; [|done].
  apply Forall2_fmap_r, Forall_Forall2_diag, Forall_forall. intros p _.
  unfold compose, resolved_profile. cbv beta. destruct (unresolved_max p) eqn:Hun.
  - split_and!; [done..|]. intros _. eexists. split; [reflexivity|].
    apply Forall_forall. intros c Hc.
    etrans; [|apply ceil_scaled_ge; [by apply fold_max_nonneg | done]].
    by apply fold_max_ge.
  - by split_and!.
Qed.

Lemma resolveProfileMaxes_no_truncation_two_files :
  nonempty_indexes two_file_source /\ (1 <= 3 # 2)%Q /\
  all_counts two_file_source [("qcd", "data/qcd/")] "Photon" = [2; 5; 1; 3; 7] /\
  Forall2 (fun p r =>
             name r = name p /\
             (unresolved_max p = false -> r = p) /\
             (unresolved_max p = true ->
              exists size, max_size r = Some size /\
                Forall (fun count => count <= size)
                       (all_counts two_file_source [("qcd", "data/qcd/")] (name p))))
          [photon_profile None; photon_profile (Some 4)]
          [photon_profile (Some 11); photon_profile (Some 4)].
Proof.
  assert (Hm : (1 <= 3 # 2)%Q) by (unfold Qle; simpl; lia).
  split_and!; [exact two_file_source_nonempty | exact Hm | by vm_compute |].
  eapply (@resolveProfileMaxes_no_truncation reversing_random two_file_source
            [photon_profile None; photon_profile (Some 4)] [("qcd", "data/qcd/")]
            (3 # 2)%Q quiet_world); [exact two_file_source_nonempty | exact Hm |].
  vm_compute. reflexivity.
Defined.

Lemma Qceiling_zero_scaled (m : Q) : Qceiling (inject_Z 0 * m) = 0.
Proof.
  assert (Hz : (inject_Z 0 * m == 0)%Q) by ring.
  rewrite (Qceiling_comp _ _ Hz). reflexivity.
Qed.

(** X3: without any source directory the resolver reads nothing and sets
    the size of every unresolved profile to 0, whatever the multiplier. *)
Theorem resolveProfileMaxes_no_sources `{NumpyRandom} :
  forall (fs : filesystem) (object_profiles : list ObjectProfile)
         (padding_multiplier : Q) (w : world),
    run (resolveProfileMaxes fs object_profiles [] padding_multiplier) w
    = (Ok (map (fun p => if unresolved_max p then set_max_size p 0 else p)
               object_profiles), w).
Proof.
  intros fs profiles m w. unfold resolveProfileMaxes.
  destruct (Py.len (List.filter unresolved_max profiles) =? 0) eqn:Hlen.
  - apply Z.eqb_eq in Hlen. unfold Py.len in Hlen.
    assert (Hall : Forall (fun p => unresolved_max p = false) profiles).
    { apply filter_nil_Forall.
      destruct (List.filter unresolved_max profiles); [done | simpl in Hlen; lia]. }
    assert (Hid : map (fun p => if unresolved_max p then set_max_size p 0 else p) profiles
                  = profiles).
    { clear Hlen. induction Hall as [|p l Hp _ IH]; simpl; [done|]. by rewrite Hp, IH. }
    by rewrite Hid.
  - unfold scan_sources. simpl foldM.
    erewrite run_bind_Ok by reflexivity.
    unfold run, lift. f_equal.
    apply rmap_map, Forall_forall. intros p Hp.
    destruct (unresolved_max p) eqn:Hun; [|done].
    rewrite (initial_maxes_tracks (List.filter unresolved_max profiles) (name p)).
    + simpl. by rewrite Qceiling_zero_scaled.
    + apply list_elem_of_fmap. exists p. split; [done|].
      apply list_elem_of_In, filter_In. split; [by apply list_elem_of_In | done].
Qed.

(** X4: an empty row-count index makes the resolver forget. After a
    file whose index has no entry the running maximum of a profile is
    [nan], and the next file with entries replaces it by its own maximum,
    whatever was seen before. *)
Theorem update_maxes_forgets :
  forall (unresolved : list ObjectProfile) (nv1 nv2 : NumValFrame)
         (maxes m1 m2 : gmap string pynum) (k : string) (col : list Z),
    update_maxes unresolved nv1 maxes = Ok m1 ->
    update_maxes unresolved nv2 m1 = Ok m2 ->
    k ∈ map name unresolved ->
    nv_columns nv1 !! k = Some [] -> nv_columns nv2 !! k = Some col -> col <> [] ->
    m1 !! k = Some Nan /\ m2 !! k = Some (series_max col).
Proof.
  intros unresolved nv1 nv2 maxes m1 m2 k col H1 H2 Hk Hempty Hcol Hne.
  destruct (proj1 (update_maxes_lookup _ _ _ _ H1 k) Hk) as (c1 & cur1 & Hc1 & _ & Hm1).
  destruct (proj1 (update_maxes_lookup _ _ _ _ H2 k) Hk) as (c2 & cur2 & Hc2 & Hcur2 & Hm2).
  rewrite Hempty in Hc1. injection Hc1 as <-. simpl in Hm1.
  rewrite Hcol in Hc2. injection Hc2 as <-.
  rewrite Hm1 in Hcur2. injection Hcur2 as <-.
  split; [done|]. rewrite Hm2. destruct col; done.
Qed.

Lemma update_maxes_forgets_nine :
  let unresolved := [photon_profile None] in
  let nv1 := mkNumVal 0 {[ "Photon" := [] ]} in
  let nv2 := mkNumVal 2 {[ "Photon" := [3; 1] ]} in
  let maxes : gmap string pynum := {[ "Photon" := Int 9 ]} in
  exists m1 m2,
    update_maxes unresolved nv1 maxes = Ok m1 /\
    update_maxes unresolved nv2 m1 = Ok m2 /\
    "Photon" ∈ map name unresolved /\
    m1 !! "Photon" = Some Nan /\ m2 !! "Photon" = Some (Int 3).
Proof.
  intros unresolved nv1 nv2 maxes.
  eexists _, _.
  assert (H1 : update_maxes unresolved nv1 maxes = Ok (<["Photon" := Nan]> maxes))
    by reflexivity.
  assert (H2 : update_maxes unresolved nv2 (<["Photon" := Nan]> maxes)
               = Ok (<["Photon" := Int 3]> (<["Photon" := Nan]> maxes)))
    by reflexivity.
  assert (Hk : "Photon" ∈ map name unresolved) by (simpl; left).
  split_and!; [exact H1 | exact H2 | exact Hk | |].
  - exact (proj1 (update_maxes_forgets unresolved nv1 nv2 maxes _ _ "Photon" [3; 1]
                    H1 H2 Hk eq_refl eq_refl ltac:(discriminate))).
  - exact (proj2 (update_maxes_forgets unresolved nv1 nv2 maxes _ _ "Photon" [3; 1]
                    H1 H2 Hk eq_refl eq_refl ltac:(discriminate))).
Defined.

(** ** The checks of the engine *)

Lemma count_NoDup (x : string) (l : list string) : NoDup l -> Py.count x l <= 1.
Proof.
  induction 1 as [|y l Hy _ IH]; [done|]. rewrite count_cons.
  destruct (decide (y = x)) as [->|]; [|lia].
  assert (Py.count x l <= 0); [|lia].
  destruct (Z_le_gt_dec (Py.count x l) 0) as [|Hpos]; [done|]. exfalso. apply Hy.
  unfold Py.count, Py.len in Hpos.
  destruct (filter (fun y => y = x) l) as [|z l'] eqn:Hf; [simpl in Hpos; lia|].
  assert (Hz : z ∈ filter (fun y => y = x) l) by (rewrite Hf; left).
  by apply list_elem_of_filter in Hz as [-> Hz].
Qed.

Lemma duplicate_labels_none (label_dir_pairs : list (string * string)) :
  NoDup (map fst label_dir_pairs) -> duplicate_labels label_dir_pairs = [].
Proof.
  intros Hnd. unfold duplicate_labels.
  rewrite (proj2 (filter_nil_Forall _ _)); [done|].
  apply Forall_forall. intros x _. apply Z.ltb_ge. by apply count_NoDup.
Qed.

(** X5: a profile that is given as a dictionary is rebuilt with its two
    last attributes exchanged. When the check accepts it, the profile it
    goes on with has the [punctuation] of the dictionary for [addColumns]
    and its [addColumns] for [punctuation]; so a dictionary with a number
    for [punctuation] is always refused with a [ValueError]. *)
Theorem check_profile_dictionary :
  forall (observ_types : list string) (d : profile_dict),
    (forall p, check_profile observ_types (P_dict d) = Ok p ->
       d_class_name d = Some "ObjectProfile" /\ d_name d = Some (name p) /\
       max_size p = Some (default 100 (d_max_size d)) /\
       addColumns p = d_punctuation d /\ punctuation p = d_addColumns d /\
       forall c, d_punctuation d <> PyNum c) /\
    (forall c n, d_class_name d = Some "ObjectProfile" -> d_name d = Some n ->
       d_punctuation d = PyNum c ->
       exists msg, check_profile observ_types (P_dict d) = Raise (ValueError msg)).
Proof.
  intros obs d. split.
  - intros p Hcheck. unfold check_profile in Hcheck.
    apply bind_Ok in Hcheck as (q & Hq & Hcheck).
    destruct (bool_decide_reflect (d_class_name d = Some "ObjectProfile")) as [Hc|];
      [|discriminate].
    destruct (d_name d) as [n|]; [|discriminate].
    unfold ObjectProfile_init in Hq.
    destruct (default 100 (d_max_size d) <? -1); [discriminate|].
    assert (Hpq : p = q).
    { destruct (unresolved_max q); [discriminate|].
      destruct (addColumns q); [congruence | discriminate |].
      destruct (forallb _ _); [congruence | discriminate]. }
    subst q.
    destruct (d_punctuation d) eqn:Hpu; try discriminate; injection Hq as <-; by simpl.
  - intros c n Hc Hn Hpu. unfold check_profile. rewrite bool_decide_eq_true_2 by done.
    rewrite Hn. unfold ObjectProfile_init. rewrite Hpu.
    destruct (default 100 (d_max_size d) <? -1); by eexists.
Qed.

Lemma check_profile_dictionary_photons :
  let d := mkProfileDict (Some "ObjectProfile") (Some "Photon") (Some 2) None None None
             None None None PyNone (PyDict [("E", 1%Q)]) in
  let d' := mkProfileDict (Some "ObjectProfile") (Some "Photon") (Some 2) None None None
              None None None (PyNum 9) PyNone in
  exists p, check_profile ["E"] (P_dict d) = Ok p /\
            addColumns p = PyNone /\ punctuation p = PyDict [("E", 1%Q)] /\
            exists msg, check_profile ["E"] (P_dict d') = Raise (ValueError msg).
Proof.
  intros d d'. eexists.
  assert (Hcheck : check_profile ["E"] (P_dict d)
                   = Ok (mkObjectProfile "Photon" (Some 2) None (AscBool true) None
                           (AscBool true) None false PyNone (PyDict [("E", 1%Q)])
                           "ObjectProfile")) by reflexivity.
  split; [exact Hcheck|].
  destruct (proj1 (check_profile_dictionary ["E"] d) _ Hcheck)
    as (_ & _ & _ & Hadd & Hpu & _).
  split_and!; [exact Hadd | exact Hpu |].
  exact (proj2 (check_profile_dictionary ["E"] d') 9%Q "Photon" eq_refl eq_refl eq_refl).
Defined.

(** X6: the checks of the engine come before any access to the sources.
    With distinct labels, a column list that holds "Entry" and a profile
    that fails its check both end the call with the world as it was: no
    directory was listed, no file opened, and the random state is
    untouched. *)
Theorem preprocessFromPandas_checks_first `{NumpyRandom} `{Pandas} :
  forall (fs : filesystem) (label_dir_pairs : list (string * string))
         (start samples_per_label : Z) (object_profiles : list profile_arg)
         (observ_types : list string) (w : world),
    NoDup (map fst label_dir_pairs) ->
    (Py.contains "Entry" observ_types = true ->
     run (preprocessFromPandas_label_dir_pairs fs label_dir_pairs start
            samples_per_label object_profiles observ_types) w
     = (Raise (ValueError "Using Entry in observ_types can result in skewed training results. Just don't."), w)) /\
    (Py.contains "Entry" observ_types = false ->
     forall e, rmap (check_profile observ_types) object_profiles = Raise e ->
       run (preprocessFromPandas_label_dir_pairs fs label_dir_pairs start
              samples_per_label object_profiles observ_types) w
       = (Raise e, w)).
Proof.
  intros fs pairs start spl args obs w Hnd.
  unfold preprocessFromPandas_label_dir_pairs.
  rewrite (duplicate_labels_none _ Hnd). simpl negb. cbv iota. split.
  - by intros ->.
  - intros -> e He. unfold run, mbind, M_bind, lift. by rewrite He.
Qed.

Lemma preprocessFromPandas_checks_first_run :
  NoDup (map fst [("qcd", "data/qcd/")]) /\
  @run reversing_random _
    (@preprocessFromPandas_label_dir_pairs reversing_random plain_pandas photon_source
       [("qcd", "data/qcd/")] 0 3 [P_obj punctuated_photons] ["E"; "Entry"])
    quiet_world
  = (Raise (ValueError "Using Entry in observ_types can result in skewed training results. Just don't."),
     quiet_world) /\
  @run reversing_random _
    (@preprocessFromPandas_label_dir_pairs reversing_random plain_pandas photon_source
       [("qcd", "data/qcd/")] 0 3 [P_obj (photon_profile None)] ["E"; "PT"])
    quiet_world
  = (Raise (ValueError "ObjectProfile max_sizes must be resolved before preprocessing."),
     quiet_world).
Proof.
  assert (Hnd : NoDup (map fst [("qcd", "data/qcd/")])).
  { simpl. apply NoDup_singleton. }
  split_and!; [exact Hnd | |].
  - apply (proj1 (@preprocessFromPandas_checks_first reversing_random plain_pandas
                    photon_source [("qcd", "data/qcd/")] 0 3 [P_obj punctuated_photons]
                    ["E"; "Entry"] quiet_world Hnd)).
    reflexivity.
  - apply (proj2 (@preprocessFromPandas_checks_first reversing_random plain_pandas
                    photon_source [("qcd", "data/qcd/")] 0 3 [P_obj (photon_profile None)]
                    ["E"; "PT"] quiet_world Hnd)); reflexivity.
Defined.

(** ** The label vectors *)

Lemma label_vecs_fold (n : Z) (rest : list (string * string)) :
  forall (k : nat) (m : gmap string (list Q)),
    NoDup (map fst rest) ->
    let r := fold_left (fun label_vecs (il : nat * (string * string)) =>
                          <[il.2.1 := <[il.1 := 1%Q]> (Py.replicate 0%Q n)]> label_vecs)
                       (zip (seq k (length rest)) rest) m in
    (forall (i : nat) label dir, rest !! i = Some (label, dir) ->
                                 r !! label = Some (one_hot n (k + i))) /\
    (forall label, label ∉ map fst rest -> r !! label = m !! label).
Proof.
  induction rest as [|[l0 d0] rest IH]; intros k m Hnd; simpl.
  - split; [intros i label dir Hi; by rewrite lookup_nil in Hi | done].
  - simpl in Hnd. apply NoDup_cons in Hnd as [Hl0 Hnd].
    destruct (IH (S k) (<[l0 := <[k := 1%Q]> (Py.replicate 0%Q n)]> m) Hnd) as [IHin IHout].
    split.
    + intros [|i] label dir Hi; simpl in Hi.
      * injection Hi as <- <-. rewrite (IHout _ Hl0), lookup_insert_eq.
        by rewrite Nat.add_0_r.
      * rewrite (IHin i label dir Hi). f_equal. f_equal. lia.
    + intros label Hnotin. rewrite IHout.
      * rewrite lookup_insert_ne; [done|]. intros ->. apply Hnotin. left.
      * intros Hin. apply Hnotin. by right.
Qed.

Lemma build_label_vecs_lookup (label_dir_pairs : list (string * string)) (i : nat)
    (label dir : string) :
  NoDup (map fst label_dir_pairs) -> label_dir_pairs !! i = Some (label, dir) ->
  build_label_vecs label_dir_pairs !! label = Some (one_hot (Py.len label_dir_pairs) i).
Proof.
  intros Hnd Hi. unfold build_label_vecs.
  exact (proj1 (label_vecs_fold (Py.len label_dir_pairs) label_dir_pairs 0 ∅ Hnd)
               i label dir Hi).
Qed.

Lemma one_hot_lookup (n : Z) (i j : nat) :
  (j < Z.to_nat n)%nat ->
  one_hot n i !! j = Some (if decide (j = i) then 1%Q else 0%Q).
Proof.
  intros Hj. unfold one_hot, Py.replicate.
  assert (Hz : repeat 0%Q (Z.to_nat n) !! j = Some 0%Q).
  { rewrite lookup_nth_error. rewrite (nth_error_nth' _ 0%Q) by (by rewrite repeat_length).
    by rewrite nth_repeat. }
  destruct (decide (j = i)) as [->|Hne].
  - apply list_lookup_insert_eq. by rewrite repeat_length.
  - by rewrite list_lookup_insert_ne.
Qed.

(** X7: for distinct labels the engine gives the label at position [i]
    of the sources a vector with one cell per label, a one in cell [i] and
    zeros in the other cells; two positions never share a vector. *)
Theorem build_label_vecs_one_hot :
  forall (label_dir_pairs : list (string * string)) (i : nat) (label dir : string),
    NoDup (map fst label_dir_pairs) -> label_dir_pairs !! i = Some (label, dir) ->
    exists vec,
      build_label_vecs label_dir_pairs !! label = Some vec /\
      Py.len vec = Py.len label_dir_pairs /\
      (forall j : nat, (j < length label_dir_pairs)%nat ->
         vec !! j = Some (if decide (j = i) then 1%Q else 0%Q)) /\
      (forall (i' : nat) label' dir' vec',
         label_dir_pairs !! i' = Some (label', dir') ->
         build_label_vecs label_dir_pairs !! label' = Some vec' ->
         vec' = vec -> i' = i).
Proof.
  intros pairs i label dir Hnd Hi. exists (one_hot (Py.len pairs) i).
  assert (Hlen : Z.to_nat (Py.len pairs) = length pairs) by (unfold Py.len; lia).
  assert (Hi_lt : (i < length pairs)%nat) by (by apply lookup_lt_Some in Hi).
  split_and!.
  - by apply (build_label_vecs_lookup pairs i label dir).
  - unfold one_hot, Py.replicate, Py.len.
    rewrite length_insert, repeat_length. lia.
  - intros j Hj. apply one_hot_lookup. lia.
  - intros i' label' dir' vec' Hi' Hvec' Heq.
    rewrite (build_label_vecs_lookup pairs i' label' dir' Hnd Hi') in Hvec'.
    injection Hvec' as <-.
    assert (Hi'_lt : (i' < length pairs)%nat) by (by apply lookup_lt_Some in Hi').
    pose proof (one_hot_lookup (Py.len pairs) i' i' ltac:(lia)) as H1.
    pose proof (one_hot_lookup (Py.len pairs) i i' ltac:(lia)) as H2.
    rewrite Heq in H1. rewrite H1 in H2.
    destruct (decide (i' = i')); [|done]. by destruct (decide (i' = i)).
Qed.

Lemma build_label_vecs_one_hot_two_labels :
  let pairs := [("qcd", "data/qcd/"); ("ttbar", "data/ttbar/")] in
  NoDup (map fst pairs) /\ pairs !! 1%nat = Some ("ttbar", "data/ttbar/") /\
  build_label_vecs pairs !! "ttbar" = Some [0; 1]%Q /\
  exists vec,
    build_label_vecs pairs !! "ttbar" = Some vec /\
    Py.len vec = Py.len pairs /\
    (forall j : nat, (j < length pairs)%nat ->
       vec !! j = Some (if decide (j = 1%nat) then 1%Q else 0%Q)) /\
    (forall (i' : nat) label' dir' vec',
       pairs !! i' = Some (label', dir') ->
       build_label_vecs pairs !! label' = Some vec' ->
       vec' = vec -> i' = 1%nat).
Proof.
  intros pairs.
  assert (Hnd : NoDup (map fst pairs)).
  { simpl. apply NoDup_cons. split; [|apply NoDup_singleton].
    intros Hin. apply list_elem_of_singleton in Hin. discriminate. }
  split_and!; [exact Hnd | reflexivity | reflexivity |].
  exact (build_label_vecs_one_hot pairs 1 "ttbar" "data/ttbar/" Hnd eq_refl).
Defined.

(** ** The labels that the engine returns *)

Lemma duplicate_labels_NoDup (label_dir_pairs : list (string * string)) :
  duplicate_labels label_dir_pairs = [] -> NoDup (map fst label_dir_pairs).
Proof.
  intros Hdup. destruct (decide (NoDup (map fst label_dir_pairs))) as [|Hnot]; [done|].
  by apply duplicate_labels_found in Hnot.
Qed.

Lemma rfold_setitem_lookup {A} (v : A) (offset : Z) (idx : list Z) :
  0 <= offset -> Forall (fun i => 0 <= i) idx ->
  forall (y y' : list A),
    rfold (fun y i => Py.setitem y (offset + i) v) idx y = Ok y' ->
    (forall n : nat, Z.of_nat n - offset ∈ idx -> y' !! n = Some v) /\
    (forall n : nat, Z.of_nat n - offset ∉ idx -> y' !! n = y !! n).
Proof.
  intros Hoff. induction 1 as [|i idx Hi _ IH]; intros y y' Hr; simpl in Hr.
  - injection Hr as <-. split; [intros n Hn; by apply elem_of_nil in Hn | done].
  - apply bind_Ok in Hr as (y1 & Hset & Hr).
    replace (offset + i) with (Z.of_nat (Z.to_nat (offset + i))) in Hset by lia.
    apply setitem_nat in Hset as [Hlt ->].
    destruct (IH _ _ Hr) as [IHin IHout]. split.
    + intros n Hn. destruct (decide (Z.of_nat n - offset ∈ idx)) as [Hin|Hnotin].
      * by apply IHin.
      * apply elem_of_cons in Hn as [Hn|Hn]; [|done].
        rewrite (IHout n Hnotin).
        replace (Z.to_nat (offset + i)) with n by lia.
        apply list_lookup_insert_eq. lia.
    + intros n Hn. rewrite IHout.
      * apply list_lookup_insert_ne. intros <-. apply Hn.
        replace (Z.of_nat (Z.to_nat (offset + i)) - offset) with i by lia. left.
      * intros Hin. apply Hn. by right.
Qed.

Section Labels.
Context `{NumpyRandom} `{Pandas}.
Variable fs : filesystem.
Variables (start samples_per_label : Z).
Variable profiles : list ObjectProfile.
Variable observ_types : list string.

Lemma read_label_labels label_vecs acc pair w acc' w' :
  run (read_label fs start samples_per_label profiles observ_types label_vecs acc pair) w
  = (Ok acc', w') ->
  exists vec,
    label_vecs !! pair.1 = Some vec /\
    acc'.2 = acc.2 + samples_per_label /\
    rfold (fun y i => Py.setitem y (acc.2 + i) (Some vec))
          (Py.range_up (Z.to_nat (samples_per_label - 0)) 0 samples_per_label 1) acc.1.2
    = Ok acc'.1.2.
Proof.
  intros Hrun. destruct acc as [[[X Xi] y] y_start]. unfold read_label in Hrun.
  apply run_bind in Hrun as (fst & w1 & _ & Hrun).
  apply run_bind in Hrun as (ls & w2 & _ & Hrun).
  destruct (negb _); [by apply run_raise in Hrun|].
  apply run_bind in Hrun as (vec & w3 & Hvec & Hrun).
  apply run_lift in Hvec as [Hvec _].
  destruct (label_vecs !! pair.1) as [v|] eqn:Hlook; [|discriminate].
  injection Hvec as ->.
  apply run_bind in Hrun as (idx & w4 & Hidx & Hrun).
  apply run_lift in Hidx as [Hidx _]. unfold Py.range in Hidx. simpl in Hidx.
  injection Hidx as <-.
  apply run_bind in Hrun as (y' & w5 & Hy & Hrun).
  apply run_lift in Hy as [Hy _].
  apply run_ret in Hrun as [-> _]. simpl. by exists vec.
Qed.

End Labels.

Lemma slot_label (k n : nat) (s : Z) :
  0 <= s -> Z.of_nat k * s <= Z.of_nat n < (Z.of_nat k + 1) * s ->
  (n / Z.to_nat s)%nat = k.
Proof.
  intros Hs Hn. symmetry. apply (Nat.div_unique n (Z.to_nat s) k (n - k * Z.to_nat s)); nia.
Qed.

Lemma label_column_lookup (num_labels : nat) (samples_per_label : Z) (n : nat) :
  (n < num_labels * Z.to_nat samples_per_label)%nat ->
  label_column num_labels samples_per_label !! n
  = Some (Some (one_hot (Z.of_nat num_labels) (n / Z.to_nat samples_per_label))).
Proof.
  intros Hn. unfold label_column. rewrite list_lookup_fmap, lookup_seq_lt by done. done.
Qed.

Lemma label_column_length (num_labels : nat) (samples_per_label : Z) :
  length (label_column num_labels samples_per_label)
  = (num_labels * Z.to_nat samples_per_label)%nat.
Proof. unfold label_column. by rewrite length_map, length_seq. Qed.



(** ** How far the sources reach *)

Lemma file_entries_nonneg (fs : filesystem) (f : string) :
  counted_indexes fs -> 0 <= file_entries fs f.
Proof.
  intros Hfs. unfold file_entries.
  destruct (fs_files fs !! f) as [file|] eqn:Hf; simpl; [|done].
  destruct (NumValues file) as [nv|] eqn:Hnv; [|done]. by eapply Hfs.
Qed.

Lemma entries_sum_nonneg (fs : filesystem) (files : list string) :
  counted_indexes fs -> 0 <= Py.Zsum (map (file_entries fs) files).
Proof.
  intros Hfs. induction files as [|f files IH]; [done|]. simpl map.
  rewrite Zsum_cons. pose proof (file_entries_nonneg fs f Hfs). lia.
Qed.

Section Reach.
Context `{NumpyRandom} `{Pandas}.
Variable fs : filesystem.
Variables (start samples_per_label : Z).
Variable profiles : list ObjectProfile.
Variable observ_types : list string.
Hypothesis fs_counted : counted_indexes fs.

Local Abbreviation within := (fun ls : loop_state =>
  samples_read ls <= Z.max 0 (location ls - start)).

Lemma read_file_reach st ls f w ls' brk w' :
  within ls ->
  run (read_file fs start samples_per_label profiles observ_types st ls f) w
  = (Ok (ls', brk), w') ->
  within ls' /\ location ls' = location ls + file_entries fs f /\ 0 < file_entries fs f.
Proof.
  intros Hin Hrun. cbv beta in Hin. unfold read_file in Hrun.
  apply run_bind in Hrun as (nv & w1 & Hnv & Hrun).
  apply getNumValFrame_reads in Hnv.
  assert (Hentries : file_entries fs f = nv_entries nv).
  { unfold file_entries. by rewrite Hnv. }
  rewrite Hentries.
  destruct (Z.ltb_spec 0 (nv_entries nv)) as [Hpos|]; simpl in Hrun;
    [|by apply run_raise in Hrun].
  destruct (Z.leb_spec (location ls + nv_entries nv) start).
  { apply run_ret in Hrun as [[= -> ->] _]. simpl. split_and!; [lia | done | done]. }
  apply run_bind in Hrun as (u & w2 & _ & Hrun).
  set (fsr := if start - location ls <? 0 then 0 else start - location ls) in *.
  set (s := Z.min (samples_per_label - samples_read ls) (nv_entries nv - fsr)) in *.
  assert (Hs : samples_read ls + s <= Z.max 0 (location ls + nv_entries nv - start)).
  { unfold s, fsr. destruct (Z.ltb_spec (start - location ls) 0); lia. }
  destruct (Z.leb_spec 0 s); simpl in Hrun; [|by apply run_raise in Hrun].
  apply run_bind in Hrun as (X & w3 & _ & Hrun).
  apply run_bind in Hrun as (u' & w4 & _ & Hrun). simpl in Hrun.
  destruct (samples_per_label <=? samples_read ls + s).
  - destruct (samples_read ls + s =? samples_per_label); [|by apply run_raise in Hrun].
    by apply run_ret in Hrun as [[= -> _] _].
  - by apply run_ret in Hrun as [[= -> _] _].
Qed.

Lemma read_files_reach st files :
  forall ls w ls' w',
    within ls ->
    run (read_files fs start samples_per_label profiles observ_types st files ls) w
    = (Ok ls', w') ->
    within ls' /\
    location ls' <= location ls + Py.Zsum (map (file_entries fs) files).
Proof.
  induction files as [|f files IH]; intros ls w ls' w' Hin Hrun; simpl in Hrun.
  - apply run_ret in Hrun as [-> _]. split; [done|]. unfold Py.Zsum. simpl. lia.
  - apply run_bind in Hrun as ([ls1 brk] & w1 & Hfile & Hrun).
    apply read_file_reach in Hfile as (Hin1 & Hloc & Hpos); [|done].
    simpl map. rewrite Zsum_cons.
    destruct brk.
    + apply run_ret in Hrun as [-> _]. split; [done|].
      pose proof (entries_sum_nonneg fs files fs_counted). lia.
    + apply IH in Hrun as [Hin' Hloc']; [|done]. split; [done | lia].
Qed.

Lemma read_label_reach label_vecs acc pair w acc' w' :
  0 < samples_per_label ->
  run (read_label fs start samples_per_label profiles observ_types label_vecs acc pair) w
  = (Ok acc', w') ->
  start + samples_per_label <= dir_entries fs pair.2.
Proof.
  intros Hspl Hrun. destruct acc as [[[X Xi] y] y_start]. unfold read_label in Hrun.
  apply run_bind in Hrun as (fst & w1 & Hfiles & Hrun).
  apply getFiles_StoreType_files in Hfiles.
  apply run_bind in Hrun as (ls & w2 & Hread & Hrun).
  apply read_files_reach in Hread as [Hin Hloc]; [|simpl; lia].
  destruct (Z.eqb_spec (samples_read ls) samples_per_label) as [Heq|];
    simpl in Hrun; [|by apply run_raise in Hrun].
  simpl in Hloc. rewrite Hfiles in Hloc. fold (dir_entries fs pair.2) in Hloc. lia.
Qed.

End Reach.

Lemma Zsum_snoc (l : list Z) (x : Z) : Py.Zsum (l ++ [x]) = Py.Zsum l + x.
Proof. unfold Py.Zsum. by rewrite fold_left_app. Qed.

Lemma py_min_least (l : list Z) (m : Z) :
  py_min l = Ok m -> m ∈ l /\ forall x, x ∈ l -> m <= x.
Proof.
  destruct l as [|a l]; [discriminate|]. simpl. intros [= <-].
  revert a. induction l as [|b l IH]; intros a; simpl.
  - split; [left|]. intros x Hx%list_elem_of_singleton. lia.
  - destruct (IH (Z.min a b)) as [Hin Hle]. split.
    + apply elem_of_cons in Hin as [Heq|Hin]; [|by right; right].
      rewrite Heq. destruct (Z.min_spec a b) as [[_ ->]|[_ ->]]; [left | right; left].
    + intros x Hx. apply elem_of_cons in Hx as [->|Hx].
      * specialize (Hle (Z.min a b) ltac:(left)). lia.
      * apply elem_of_cons in Hx as [->|Hx].
        -- specialize (Hle (Z.min a b) ltac:(left)). lia.
        -- apply Hle. by right.
Qed.

Section MutualLengthProofs.
Context `{NumpyRandom}.
Variable fs : filesystem.

Lemma count_entries_value st keys f w n w' :
  run (count_entries fs st keys f) w = (Ok n, w') -> n = file_entries fs f.
Proof.
  intros Hrun. unfold count_entries in Hrun.
  apply run_bind in Hrun as (nv & w1 & Hnv & Hrun).
  apply run_ret in Hrun as [-> _].
  assert (Hlook : fs_files fs !! f ≫= NumValues = Some nv).
  { destruct st.
    - apply run_bind in Hnv as (u & w2 & _ & Hnv).
      destruct (match keys with Some _ => _ | None => _ end);
        [by apply run_raise in Hnv|].
      apply run_bind in Hnv as (u' & w3 & _ & Hnv).
      destruct (fs_files fs !! f ≫= NumValues); [|by apply run_raise in Hnv].
      by apply run_ret in Hnv as [-> _].
    - apply run_bind in Hnv as (u & w2 & _ & Hnv).
      destruct (fs_files fs !! f) as [file|]; [|by apply run_raise in Hnv]. simpl.
      destruct (NumValues file); [|by apply run_raise in Hnv].
      by apply run_ret in Hnv as [-> _]. }
  unfold file_entries. by rewrite Hlook.
Qed.

Lemma maxMutualLength_totals (label_dir_pairs : list (string * string)) keys
    (w : world) (label_totals : gmap string Z) (w' : world) :
  NoDup (map fst label_dir_pairs) ->
  run (foldM (fun (label_totals : gmap string Z) (pair : string * string) =>
                fst ← getFiles_StoreType fs pair.2;
                foldM (fun (label_totals : gmap string Z) f =>
                         file_total_entries ← count_entries fs fst.2 keys f;
                         match label_totals !! pair.1 with
                         | Some t => mret (<[pair.1 := t + file_total_entries]> label_totals)
                         | None => raise (KeyError pair.1)
                         end)
                      (Py.sort_strings fst.1) (<[pair.1 := 0]> label_totals))
             label_dir_pairs ∅) w = (Ok label_totals, w') ->
  forall label total,
    label_totals !! label = Some total <->
    exists dir, (label, dir) ∈ label_dir_pairs /\ total = dir_entries fs dir.
Proof.
  intros Hnd Hrun.
  refine (foldM_prefix _ (fun done (lt : gmap string Z) =>
            forall label total,
              lt !! label = Some total <->
              exists dir, (label, dir) ∈ done /\ total = dir_entries fs dir)
            label_dir_pairs _ ∅ w label_totals w' _ Hrun).
  - intros done [l d] rest lt w0 lt' w0' Heq IH Hstep. simpl in Hstep.
    apply run_bind in Hstep as (fst & w1 & Hfiles & Hstep).
    apply getFiles_StoreType_files in Hfiles. simpl in Hfiles.
    apply (foldM_invariant _ (fun fdone (m : gmap string Z) =>
             m = <[l := Py.Zsum (map (file_entries fs) fdone)]> lt)) with (done := [])
      in Hstep.
    + simpl in Hstep. rewrite Hfiles in Hstep. fold (dir_entries fs d) in Hstep.
      subst lt'. intros label total.
      assert (Hfresh : forall dir, (l, dir) ∉ done).
      { intros dir Hin. rewrite Heq, map_app in Hnd. simpl in Hnd.
        apply NoDup_app in Hnd as (_ & Hdis & _).
        apply (Hdis l); [|left]. apply list_elem_of_fmap. by exists (l, dir). }
      destruct (decide (label = l)) as [->|Hne].
      * rewrite lookup_insert_eq. split.
        -- intros [= <-]. exists d. split; [|done]. apply elem_of_app. right. left.
        -- intros (dir & Hin & ->). apply elem_of_app in Hin as [Hin|Hin].
           ++ by apply Hfresh in Hin.
           ++ apply list_elem_of_singleton in Hin. by injection Hin as <-.
      * rewrite lookup_insert_ne by done. rewrite IH. split.
        -- intros (dir & Hin & ->). exists dir. split; [|done]. apply elem_of_app. by left.
        -- intros (dir & Hin & ->). exists dir. split; [|done].
           apply elem_of_app in Hin as [Hin|Hin]; [done|].
           apply list_elem_of_singleton in Hin. congruence.
    + intros fdone f m w2 m' w2' -> Hfile.
      apply run_bind in Hfile as (n & w3 & Hn & Hfile).
      apply count_entries_value in Hn as ->. rewrite lookup_insert_eq in Hfile.
      apply run_ret in Hfile as [-> _].
      rewrite insert_insert_eq, List.map_app. simpl map. by rewrite Zsum_snoc.
    + done.
  - intros label total. rewrite lookup_empty. split; [done|].
    intros (dir & Hin & _). by apply elem_of_nil in Hin.
Qed.

Lemma maxMutualLength_value (label_dir_pairs : list (string * string)) object_profiles
    (w : world) (L : Z) (w' : world) :
  NoDup (map fst label_dir_pairs) ->
  run (maxMutualLength fs label_dir_pairs object_profiles) w = (Ok L, w') ->
  (exists pair, pair ∈ label_dir_pairs /\ L = dir_entries fs pair.2) /\
  (forall pair, pair ∈ label_dir_pairs -> L <= dir_entries fs pair.2).
Proof.
  intros Hnd Hrun. unfold maxMutualLength in Hrun.
  apply run_bind in Hrun as (lt & w1 & Hfold & Hrun).
  apply run_lift in Hrun as [Hmin _].
  pose proof (maxMutualLength_totals _ _ _ _ _ Hnd Hfold) as Htotals.
  apply py_min_least in Hmin as [Hin Hleast]. split.
  - apply list_elem_of_fmap in Hin as ([label total] & -> & Hin).
    apply elem_of_map_to_list in Hin. apply Htotals in Hin as (dir & Hin & ->).
    by exists (label, dir).
  - intros [label dir] Hpair. apply Hleast.
    apply list_elem_of_fmap. exists (label, dir_entries fs dir). split; [done|].
    apply elem_of_map_to_list, Htotals. by exists dir.
Qed.

End MutualLengthProofs.

Lemma photon_source_counted : counted_indexes photon_source.
Proof.
  intros f file nv Hf Hnv. unfold photon_source in Hf. simpl in Hf.
  apply lookup_singleton_Some in Hf as [_ <-]. injection Hnv as <-. simpl. lia.
Defined.

(** X9: the engine reads within the mutual length of the sources. When
    it returns for a positive number of samples per label, every source
    directory holds at least [start + samples_per_label] entries, and so
    does the least of them: whatever [maxMutualLength] returns for the
    same sources is at least [start + samples_per_label]. *)
Theorem preprocessFromPandas_within_mutual_length `{NumpyRandom} `{Pandas} :
  forall (fs : filesystem) (label_dir_pairs : list (string * string))
         (start samples_per_label : Z) (object_profiles : list profile_arg)
         (observ_types : list string) X Y (w w' : world),
    counted_indexes fs -> 0 < samples_per_label ->
    run (preprocessFromPandas_label_dir_pairs fs label_dir_pairs start
           samples_per_label object_profiles observ_types) w = (Ok (X, Y), w') ->
    (forall pair, pair ∈ label_dir_pairs ->
       start + samples_per_label <= dir_entries fs pair.2) /\
    (forall profiles (w1 : world) L w1',
       run (maxMutualLength fs label_dir_pairs profiles) w1 = (Ok L, w1') ->
       start + samples_per_label <= L).
Proof.
  intros fs pairs start spl args obs X Y w w' Hfs Hspl Hrun.
  unfold preprocessFromPandas_label_dir_pairs in Hrun.
  destruct (Z.eqb_spec (Py.len (duplicate_labels pairs)) 0) as [Hdup|];
    simpl in Hrun; [|by apply run_raise in Hrun].
  assert (Hnd : NoDup (map fst pairs)).
  { apply duplicate_labels_NoDup. unfold Py.len in Hdup.
    destruct (duplicate_labels pairs); [done | simpl in Hdup; lia]. }
  destruct (Py.contains "Entry" obs); [by apply run_raise in Hrun|].
  apply run_bind in Hrun as (profiles & w1 & _ & Hrun).
  apply run_bind in Hrun as (acc & w2 & Hfold & _).
  assert (Hall : forall pair, pair ∈ pairs -> start + spl <= dir_entries fs pair.2).
  { refine (foldM_invariant _ (fun done _ =>
              forall pair, pair ∈ done -> start + spl <= dir_entries fs pair.2)
              _ pairs [] _ w1 acc w2 _ Hfold).
    - intros done pair acc0 w0 acc1 w0' IH Hstep pair' Hin.
      apply elem_of_app in Hin as [Hin|Hin]; [by apply IH|].
      apply list_elem_of_singleton in Hin as ->. by eapply read_label_reach.
    - intros pair Hin. by apply elem_of_nil in Hin. }
  split; [exact Hall|].
  intros profiles' w3 L w3' Hlen.
  apply maxMutualLength_value in Hlen as [(pair & Hin & ->) _]; [|done].
  by apply Hall.
Qed.

Lemma preprocessFromPandas_within_mutual_length_photons :
  counted_indexes photon_source /\ 0 < 3 /\
  @run reversing_random _
    (@maxMutualLength reversing_random photon_source [("qcd", "data/qcd/")]
       (Some [punctuated_photons])) quiet_world
  = (Ok 3, @mkWorld reversing_random
             [Ev_isdir "data/qcd/"; Ev_glob "data/qcd/*.msg"; Ev_glob "data/qcd/*.h5";
              Ev_store_open "data/qcd/a.h5"; Ev_store_get "data/qcd/a.h5" "/NumValues"] tt) /\
  (forall pair, pair ∈ [("qcd", "data/qcd/")] -> 0 + 3 <= dir_entries photon_source pair.2) /\
  (forall profiles (w1 : @world reversing_random) L w1',
     @run reversing_random _
       (@maxMutualLength reversing_random photon_source [("qcd", "data/qcd/")] profiles) w1
     = (Ok L, w1') ->
     0 + 3 <= L).
Proof.
  split_and!; [exact photon_source_counted | lia | by vm_compute | |].
  - exact (proj1 (@preprocessFromPandas_within_mutual_length reversing_random plain_pandas
                    photon_source [("qcd", "data/qcd/")] 0 3 [P_obj punctuated_photons]
                    ["E"; "PT"] _ _ quiet_world _ photon_source_counted ltac:(lia)
                    preprocessFromPandas_photons)).
  - exact (proj2 (@preprocessFromPandas_within_mutual_length reversing_random plain_pandas
                    photon_source [("qcd", "data/qcd/")] 0 3 [P_obj punctuated_photons]
                    ["E"; "PT"] _ _ quiet_world _ photon_source_counted ltac:(lia)
                    preprocessFromPandas_photons)).
Defined.

(** X10: [maxMutualLength] returns the least number of entries that a
    source directory holds: for distinct labels what it returns is the
    number of entries of one of the directories and is at most that of
    every one of them. Without any source it raises [ValueError] and reads
    nothing. *)
Theorem maxMutualLength_least `{NumpyRandom} :
  forall (fs : filesystem) (label_dir_pairs : list (string * string))
         (object_profiles : option (list ObjectProfile)) (w : world),
    run (maxMutualLength fs [] object_profiles) w
    = (Raise (ValueError "min() arg is an empty sequence"), w) /\
    (NoDup (map fst label_dir_pairs) ->
     forall L w',
       run (maxMutualLength fs label_dir_pairs object_profiles) w = (Ok L, w') ->
       (exists pair, pair ∈ label_dir_pairs /\ L = dir_entries fs pair.2) /\
       (forall pair, pair ∈ label_dir_pairs -> L <= dir_entries fs pair.2)).
Proof.
  intros fs pairs profiles w. split.
  - unfold maxMutualLength. simpl foldM. erewrite run_bind_Ok by reflexivity.
    by rewrite map_to_list_empty.
  - intros Hnd L w' Hrun. by eapply maxMutualLength_value.
Qed.

Lemma maxMutualLength_least_two_files :
  NoDup (map fst [("qcd", "data/qcd/")]) /\
  @run reversing_random _
    (@maxMutualLength reversing_random two_file_source [("qcd", "data/qcd/")] None)
    quiet_world
  = (Ok 5, @mkWorld reversing_random
             [Ev_isdir "data/qcd/"; Ev_glob "data/qcd/*.msg"; Ev_glob "data/qcd/*.h5";
              Ev_store_open "data/qcd/a.h5"; Ev_store_get "data/qcd/a.h5" "/NumValues";
              Ev_store_open "data/qcd/b.h5"; Ev_store_get "data/qcd/b.h5" "/NumValues"]
             tt) /\
  (exists pair, pair ∈ [("qcd", "data/qcd/")] /\ 5 = dir_entries two_file_source pair.2) /\
  (forall pair, pair ∈ [("qcd", "data/qcd/")] -> 5 <= dir_entries two_file_source pair.2).
Proof.
  assert (Hnd : NoDup (map fst [("qcd", "data/qcd/")])) by (simpl; apply NoDup_singleton).
  assert (Hrun :
    @run reversing_random _
      (@maxMutualLength reversing_random two_file_source [("qcd", "data/qcd/")] None)
      quiet_world
    = (Ok 5, @mkWorld reversing_random
               [Ev_isdir "data/qcd/"; Ev_glob "data/qcd/*.msg"; Ev_glob "data/qcd/*.h5";
                Ev_store_open "data/qcd/a.h5"; Ev_store_get "data/qcd/a.h5" "/NumValues";
                Ev_store_open "data/qcd/b.h5"; Ev_store_get "data/qcd/b.h5" "/NumValues"]
               tt)) by (by vm_compute).
  split_and!; [exact Hnd | exact Hrun | |].
  - exact (proj1 (proj2 (@maxMutualLength_least reversing_random two_file_source
                           [("qcd", "data/qcd/")] None quiet_world) Hnd _ _ Hrun)).
  - exact (proj2 (proj2 (@maxMutualLength_least reversing_random two_file_source
                           [("qcd", "data/qcd/")] None quiet_world) Hnd _ _ Hrun)).
Defined.

(** ** The batch generator beyond two chunks *)

Section GeneratorRuns.
Context `{Archive}.
Variable dps : list pyobj.
Variable batch_size : Z.

Lemma take_step fuel n s :
  genFromDPs_take dps batch_size fuel (S n) s =
  match genFromDPs_next dps batch_size fuel s with
  | None => None
  | Some (Raise e) => Some (Raise e)
  | Some (Ok (b, s')) =>
      match genFromDPs_take dps batch_size fuel n s' with
      | None => None
      | Some (Raise e) => Some (Raise e)
      | Some (Ok (bs, s'')) => Some (Ok (b :: bs, s''))
      end
  end.
Proof. reflexivity. Qed.

(** The batches of one chunk, from the loop over its starts. *)
Lemma take_batches (n : Z) todo XY fuel (starts : list Z) :
  holds_samples n XY -> 0 <= batch_size ->
  Forall (fun s => 0 <= s <= n) starts ->
  genFromDPs_take dps batch_size (S fuel) (length starts)
    (G_batch todo (as_list XY.1) (as_list XY.2) n starts)
  = Some (Ok (map (fun s => batch_of s (s + Z.min batch_size (n - s)) XY) starts,
              G_batch todo (as_list XY.1) (as_list XY.2) n [])).
Proof.
  intros HXY Hb Hstarts. induction Hstarts as [|s starts Hs _ IH]; [reflexivity|].
  cbn [length]. rewrite take_step.
  pose proof (step_batch dps batch_size n todo XY s (s + Z.min batch_size (n - s)) starts
                HXY ltac:(lia) Hb ltac:(lia) eq_refl) as Hstep.
  rewrite (next_yield dps batch_size fuel _ _ _ Hstep).
  rewrite IH. reflexivity.
Qed.

End GeneratorRuns.

(** X16: the batches of a chunk. For a positive batch size, a task that
    resolves to a chunk of [n > 0] samples is given out in windows that
    follow one another from 0 to [n] without gap or overlap, each of at
    most [batch_size] samples: the generator yields, in this order, the
    samples of each window from every array of the chunk, and then moves
    on to the next task. *)
Theorem genFromDPs_chunk_batches `{Archive} :
  forall (dps : list pyobj) (batch_size : Z) (i : Z) (todo : list Z)
         (d : DataProcedure) (XY : list_or ndarray * list_or ndarray) (n : Z),
    Py.getitem dps i = Ok (Obj_DP d) -> getData d = Ok XY -> holds_samples n XY ->
    0 < batch_size -> 0 < n ->
    exists ws,
      tiles 0 n ws /\
      Forall (fun w : Z * Z => 0 < w.2 <= batch_size) ws /\
      genFromDPs_take dps batch_size 2 (length ws) (G_chunk (i :: todo))
      = Some (Ok (map (fun w : Z * Z => batch_of w.1 (w.1 + w.2) XY) ws,
                  G_batch todo (as_list XY.1) (as_list XY.2) n [])) /\
      genFromDPs_step dps batch_size (G_batch todo (as_list XY.1) (as_list XY.2) n [])
      = Ok (None, G_chunk todo).
Proof.
  intros dps bs i todo d XY n Hi Hd HXY Hbs Hn.
  set (starts := Py.range_up (Z.to_nat (n - 0)) 0 n bs).
  exists (map (chunk_of n bs) starts). split_and!.
  - apply range_up_tiles; lia.
  - by apply range_up_sizes.
  - assert (Hload : genFromDPs_step dps bs (G_chunk (i :: todo))
                    = Ok (None, G_batch todo (as_list XY.1) (as_list XY.2) n starts)).
    { rewrite (step_chunk dps bs n i todo d XY Hi Hd HXY). unfold Py.range.
      destruct (Z.eqb_spec bs 0); [lia|]. by destruct (Z.ltb_spec 0 bs); [|lia]. }
    assert (Hstarts : Forall (fun s => 0 <= s <= n) starts).
    { eapply Forall_impl; [apply (range_up_from bs n _ 0 Hbs)|]. intros s Hs. simpl in Hs. lia. }
    rewrite length_map, map_map.
    destruct starts as [|s starts'] eqn:Hs.
    { exfalso. unfold starts in Hs. destruct (Z.to_nat (n - 0)) eqn:Hfuel; [lia|].
      simpl in Hs. by destruct (Z.ltb_spec 0 n); [|lia]. }
    cbn [length]. rewrite take_step, (next_silent _ _ _ _ _ Hload).
    apply Forall_cons in Hstarts as [Hs0 Hstarts].
    rewrite (next_yield _ _ _ _ _ _ (step_batch dps bs n todo XY s _ starts' HXY
               ltac:(lia) ltac:(lia) ltac:(lia) eq_refl)).
    rewrite (take_batches dps bs n todo XY 1 starts' HXY ltac:(lia) Hstarts).
    reflexivity.
  - reflexivity.
Qed.

Lemma genFromDPs_chunk_batches_counting :
  let d := DP_preprocess "archive" [] 20 10 [] [] in
  @Py.getitem pyobj [Obj_DP d] 0 = Ok (Obj_DP d) /\
  @getData counting_archive d = Ok (counting_chunk 20) /\
  holds_samples 10 (counting_chunk 20) /\ 0 < 3 /\ 0 < 10 /\
  exists ws,
    tiles 0 10 ws /\
    Forall (fun w : Z * Z => 0 < w.2 <= 3) ws /\
    @genFromDPs_take counting_archive [Obj_DP d] 3 2 (length ws) (G_chunk [0])
    = Some (Ok (map (fun w : Z * Z => batch_of w.1 (w.1 + w.2) (counting_chunk 20)) ws,
                G_batch [] (as_list (counting_chunk 20).1) (as_list (counting_chunk 20).2)
                        10 [])) /\
    @genFromDPs_step counting_archive [Obj_DP d] 3
      (G_batch [] (as_list (counting_chunk 20).1) (as_list (counting_chunk 20).2) 10 [])
    = Ok (None, G_chunk []).
Proof.
  intros d.
  assert (Hholds : holds_samples 10 (counting_chunk 20)).
  { unfold holds_samples, counting_chunk. simpl.
    split_and!; [done | done | |]; repeat constructor; by eexists. }
  split_and!; [reflexivity | reflexivity | exact Hholds | lia | lia |].
  apply (@genFromDPs_chunk_batches counting_archive [Obj_DP d] 3 0 [] d
           (counting_chunk 20) 10); [reflexivity | reflexivity | exact Hholds | lia | lia].
Defined.

Lemma next_raise `{Archive} (dps : list pyobj) (batch_size : Z) fuel s e :
  genFromDPs_step dps batch_size s = Raise e ->
  genFromDPs_next dps batch_size (S fuel) s = Some (Raise e).
Proof. intros Hs. simpl. by rewrite Hs. Qed.

Lemma all_tasks_forallb (dps : list pyobj) :
  Forall (fun o => exists d, o = Obj_DP d) dps ->
  forallb (fun dp => match dp with Obj_DP _ => true | Obj_other _ => false end) dps = true.
Proof. induction 1 as [|o dps [d ->] _ IH]; simpl; [done | exact IH]. Qed.

Lemma range_empty (step : Z) : step <> 0 -> Py.range 0 0 step = Ok [].
Proof.
  intros Hstep. unfold Py.range.
  destruct (Z.eqb_spec step 0); [done|]. by destruct (0 <? step).
Qed.

Section GeneratorIdle.
Context `{Archive}.
Variable dps : list pyobj.
Variable batch_size : Z.
Hypothesis batch_size_set : batch_size <> 0.
Hypothesis no_samples :
  Forall (fun o => exists d XY, o = Obj_DP d /\ getData d = Ok XY /\ holds_samples 0 XY) dps.

(** The states of a generator that has nothing to give out. *)
Local Abbreviation waiting := (fun s : gen_state =>
  match s with
  | G_init | G_epoch => True
  | G_chunk todo => Forall (fun i => 0 <= i < Py.len dps) todo
  | G_batch todo _ _ tot starts =>
      Forall (fun i => 0 <= i < Py.len dps) todo /\ tot = 0 /\ starts = []
  end).

Lemma waiting_step (s : gen_state) :
  waiting s -> exists s', genFromDPs_step dps batch_size s = Ok (None, s') /\ waiting s'.
Proof.
  destruct s as [| |[|i todo]|todo X Y tot starts]; intros Hs.
  - exists G_epoch. split; [|done]. simpl. rewrite all_tasks_forallb; [done|].
    eapply Forall_impl; [exact no_samples|]. intros o (d & XY & -> & _). by exists d.
  - eexists. split; [reflexivity|]. simpl.
    apply Forall_forall. intros i Hi%range_up_elem; lia.
  - by exists G_epoch.
  - apply Forall_cons in Hs as [Hi Htodo].
    destruct (getitem_in_range dps i Hi) as (o & Hget & Hlook).
    rewrite Forall_forall in no_samples.
    destruct (no_samples o (list_elem_of_lookup_2 _ _ _ Hlook)) as (d & XY & -> & Hd & HXY).
    exists (G_batch todo (as_list XY.1) (as_list XY.2) 0 []). split; [|done].
    rewrite (step_chunk dps batch_size 0 i todo d XY Hget Hd HXY).
    by rewrite range_empty.
  - destruct Hs as (Htodo & -> & ->). by exists (G_chunk todo).
Qed.

Lemma waiting_next (fuel : nat) :
  forall s, waiting s -> genFromDPs_next dps batch_size fuel s = None.
Proof.
  induction fuel as [|fuel IH]; intros s Hs; [done|].
  destruct (waiting_step s Hs) as (s' & Hstep & Hs').
  rewrite (next_silent _ _ _ _ _ Hstep). by apply IH.
Qed.

End GeneratorIdle.

(** X17: a generator without samples never yields and never ends. When
    the list of tasks is empty, or every task resolves to a chunk of zero
    samples, no number of steps of [genFromDPs] reaches a [yield]: the
    generator goes round its tasks for ever. *)
Theorem genFromDPs_no_samples `{Archive} :
  forall (dps : list pyobj) (batch_size : Z),
    batch_size <> 0 ->
    Forall (fun o => exists d XY, o = Obj_DP d /\ getData d = Ok XY /\ holds_samples 0 XY)
           dps ->
    forall fuel : nat, genFromDPs_next dps batch_size fuel G_init = None.
Proof.
  intros dps bs Hbs Hdps fuel. by apply waiting_next.
Qed.

Lemma genFromDPs_no_samples_empty_list :
  4 <> 0 /\
  forall fuel : nat, @genFromDPs_next counting_archive [] 4 fuel G_init = None.
Proof.
  split; [lia|].
  apply (@genFromDPs_no_samples counting_archive [] 4); [lia | constructor].
Defined.

(** X18: the errors of the first [next]. A list that holds anything but
    tasks raises [TypeError] at the first step, before any task is
    resolved; a batch size of zero raises [ValueError] as soon as the first
    chunk is there. *)
Theorem genFromDPs_first_next_raises `{Archive} :
  forall (dps : list pyobj) (batch_size : Z),
    (forall type_name, Obj_other type_name ∈ dps ->
     forall fuel : nat,
       genFromDPs_next dps batch_size (S fuel) G_init
       = Some (Raise (TypeError "Only takes DataProcedure"))) /\
    (forall d rest XY n,
       dps = Obj_DP d :: rest -> Forall (fun o => exists d', o = Obj_DP d') rest ->
       getData d = Ok XY -> holds_samples n XY -> batch_size = 0 ->
       forall fuel : nat,
         genFromDPs_next dps batch_size (S (S (S fuel))) G_init
         = Some (Raise (ValueError "range() arg 3 must not be zero"))).
Proof.
  intros dps bs. split.
  - intros t Hin fuel. simpl.
    assert (Hcheck : forallb (fun dp => match dp with Obj_DP _ => true
                                                 | Obj_other _ => false end) dps = false).
    { apply not_true_is_false. intros Hall. rewrite forallb_forall in Hall.
      by specialize (Hall _ (proj1 (list_elem_of_In _ _) Hin)). }
    by rewrite Hcheck.
  - intros d rest XY n -> Hrest Hd HXY -> fuel.
    assert (Hinit : genFromDPs_step (Obj_DP d :: rest) 0 G_init = Ok (None, G_epoch)).
    { simpl. by rewrite (all_tasks_forallb rest Hrest). }
    rewrite (next_silent _ _ _ _ _ Hinit).
    assert (Hepoch : exists todo, genFromDPs_step (Obj_DP d :: rest) 0 G_epoch
                                  = Ok (None, G_chunk (0 :: todo))).
    { unfold genFromDPs_step, Py.range. simpl.
      replace (Z.to_nat (Py.len (Obj_DP d :: rest) - 0)) with (S (length rest))
        by (unfold Py.len; simpl; lia).
      simpl. destruct (Z.ltb_spec 0 (Py.len (Obj_DP d :: rest))) as [|Hlen];
        [by eexists|]. unfold Py.len in Hlen. simpl in Hlen. lia. }
    destruct Hepoch as [todo Hepoch]. rewrite (next_silent _ _ _ _ _ Hepoch).
    apply next_raise.
    by rewrite (step_chunk (Obj_DP d :: rest) 0 n 0 todo d XY eq_refl Hd HXY).
Qed.

Lemma genFromDPs_first_next_raises_run :
  let d := DP_preprocess "archive" [] 0 10 [] [] in
  @genFromDPs_next counting_archive [Obj_DP d; Obj_other "str"] 4 1 G_init
  = Some (Raise (TypeError "Only takes DataProcedure")) /\
  @genFromDPs_next counting_archive [Obj_DP d] 0 3 G_init
  = Some (Raise (ValueError "range() arg 3 must not be zero")).
Proof.
  intros d. split.
  - apply (proj1 (@genFromDPs_first_next_raises counting_archive
                    [Obj_DP d; Obj_other "str"] 4) "str").
    right. left.
  - apply (proj2 (@genFromDPs_first_next_raises counting_archive [Obj_DP d] 0)
                 d [] (counting_chunk 0) 10); [reflexivity | constructor | reflexivity | | reflexivity].
    unfold holds_samples, counting_chunk. simpl.
    split_and!; [done | done | |]; repeat constructor; by eexists.
Defined.

(** X19: the generator that [genFrom_label_dir_pairs] makes. For a positive
    stride it runs over the tasks of the planner and passes the type check
    of [genFromDPs]; without samples to read it never yields; and with
    samples, when the first task resolves to a chunk of [n > 0] samples,
    its first batch is the first [min(batch_size, n)] samples of the window
    that starts at [start] and has [min(stride, samples_per_label)]
    samples per label. *)
Theorem genFrom_label_dir_pairs_generator `{Archive} :
  forall (start samples_per_label stride batch_size : Z) (archive_dir : string)
         (label_dir_pairs : list (string * string))
         (object_profiles : list ObjectProfile) (observ_types : list string),
    0 < stride -> 0 < batch_size ->
    exists dps,
      procsFrom_label_dir_pairs start samples_per_label stride archive_dir
        label_dir_pairs object_profiles observ_types = Ok dps /\
      genFrom_label_dir_pairs start samples_per_label stride batch_size archive_dir
        label_dir_pairs object_profiles observ_types = Ok (map Obj_DP dps, batch_size) /\
      genFromDPs_step (map Obj_DP dps) batch_size G_init = Ok (None, G_epoch) /\
      (samples_per_label <= 0 ->
       forall fuel : nat, genFromDPs_next (map Obj_DP dps) batch_size fuel G_init = None) /\
      (0 < samples_per_label ->
       forall XY n,
         getData (DP_preprocess archive_dir label_dir_pairs start
                    (Z.min stride samples_per_label) object_profiles observ_types) = Ok XY ->
         holds_samples n XY -> 0 < n ->
         exists s,
           genFromDPs_next (map Obj_DP dps) batch_size 4 G_init
           = Some (Ok (batch_of 0 (Z.min batch_size n) XY, s))).
Proof.
  intros start spl stride bs archive pairs profiles obs Hstride Hbs.
  set (starts := Py.range_up (Z.to_nat (start + spl - start)) start (start + spl) stride).
  set (task := fun proc_start =>
                 DP_preprocess archive pairs proc_start
                   (Z.min stride (start + spl - proc_start)) profiles obs).
  assert (Hprocs : procsFrom_label_dir_pairs start spl stride archive pairs profiles obs
                   = Ok (map task starts)).
  { unfold procsFrom_label_dir_pairs, Py.range.
    destruct (Z.eqb_spec stride 0) as [|Hnz]; [lia|].
    by destruct (Z.ltb_spec 0 stride) as [_|]; [|lia]. }
  exists (map task starts).
  assert (Hall : Forall (fun o => exists d, o = Obj_DP d) (map Obj_DP (map task starts))).
  { apply Forall_map. apply Forall_forall. intros dp _. by exists dp. }
  assert (Hinit : genFromDPs_step (map Obj_DP (map task starts)) bs G_init
                  = Ok (None, G_epoch)).
  { unfold genFromDPs_step. by rewrite (all_tasks_forallb _ Hall). }
  split_and!; [done | by unfold genFrom_label_dir_pairs; rewrite Hprocs | exact Hinit | |].
  - intros Hspl fuel.
    assert (Hnone : starts = []).
    { unfold starts. destruct (Z.to_nat (start + spl - start)) as [|fuel'] eqn:Hfuel;
        [done | lia]. }
    rewrite Hnone. apply waiting_next; [lia | constructor | done].
  - intros Hspl XY n Hd HXY Hn.
    assert (Hfirst : exists rest, starts = start :: rest).
    { unfold starts. destruct (Z.to_nat (start + spl - start)) as [|fuel'] eqn:Hfuel; [lia|].
      cbn [Py.range_up]. destruct (Z.ltb_spec start (start + spl)); [by eexists | lia]. }
    destruct Hfirst as [rest Hfirst].
    assert (Htask : task start = DP_preprocess archive pairs start (Z.min stride spl)
                                   profiles obs).
    { unfold task. do 2 f_equal. lia. }
    set (d := DP_preprocess archive pairs start (Z.min stride spl) profiles obs) in *.
    assert (Hdps : map Obj_DP (map task starts) = Obj_DP d :: map Obj_DP (map task rest)).
    { rewrite Hfirst. cbn [map]. by rewrite Htask. }
    rewrite Hdps in *.
    set (dps := Obj_DP d :: map Obj_DP (map task rest)) in *.
    assert (Hepoch : exists todo, genFromDPs_step dps bs G_epoch
                                  = Ok (None, G_chunk (0 :: todo))).
    { unfold genFromDPs_step, Py.range. cbn [Z.eqb Z.ltb Z.compare].
      replace (Z.to_nat (Py.len dps - 0)) with (S (length (map Obj_DP (map task rest))))
        by (unfold dps, Py.len; cbn [length]; lia).
      cbn [Py.range_up]. destruct (Z.ltb_spec 0 (Py.len dps)) as [|Hlen]; [by eexists|].
      unfold dps, Py.len in Hlen. cbn [length] in Hlen. lia. }
    destruct Hepoch as [todo Hepoch].
    assert (Hload : exists more,
               genFromDPs_step dps bs (G_chunk (0 :: todo))
               = Ok (None, G_batch todo (as_list XY.1) (as_list XY.2) n (0 :: more))).
    { rewrite (step_chunk dps bs n 0 todo d XY eq_refl Hd HXY). unfold Py.range.
      destruct (Z.eqb_spec bs 0) as [|Hbnz]; [lia|].
      destruct (Z.ltb_spec 0 bs) as [_|]; [|lia].
      destruct (Z.to_nat (n - 0)) as [|fuel] eqn:Hfuel; [lia|]. cbn [Py.range_up].
      destruct (Z.ltb_spec 0 n); [by eexists | lia]. }
    destruct Hload as [more Hload].
    exists (G_batch todo (as_list XY.1) (as_list XY.2) n more).
    rewrite (next_silent _ _ _ _ _ Hinit).
    rewrite (next_silent _ _ _ _ _ Hepoch), (next_silent _ _ _ _ _ Hload).
    rewrite (next_yield _ _ _ _ _ _ (step_batch dps bs n todo XY 0 _ more HXY
               ltac:(lia) ltac:(lia) ltac:(lia) eq_refl)).
    replace (0 + Z.min bs (n - 0)) with (Z.min bs n) by lia. reflexivity.
Qed.

Lemma genFrom_label_dir_pairs_generator_counting :
  0 < 10 /\ 0 < 4 /\
  genFrom_label_dir_pairs 20 25 10 4 "archive" [] [] []
  = Ok ([Obj_DP (DP_preprocess "archive" [] 20 10 [] []);
         Obj_DP (DP_preprocess "archive" [] 30 10 [] []);
         Obj_DP (DP_preprocess "archive" [] 40 5 [] [])], 4) /\
  exists dps,
    procsFrom_label_dir_pairs 20 25 10 "archive" [] [] [] = Ok dps /\
    genFrom_label_dir_pairs 20 25 10 4 "archive" [] [] [] = Ok (map Obj_DP dps, 4) /\
    @genFromDPs_step counting_archive (map Obj_DP dps) 4 G_init = Ok (None, G_epoch) /\
    (25 <= 0 ->
     forall fuel : nat,
       @genFromDPs_next counting_archive (map Obj_DP dps) 4 fuel G_init = None) /\
    (0 < 25 ->
     forall XY n,
       @getData counting_archive
         (DP_preprocess "archive" [] 20 (Z.min 10 25) [] []) = Ok XY ->
       holds_samples n XY -> 0 < n ->
       exists s,
         @genFromDPs_next counting_archive (map Obj_DP dps) 4 4 G_init
         = Some (Ok (batch_of 0 (Z.min 4 n) XY, s))).
Proof.
  split_and!; [lia | lia | reflexivity |].
  apply (@genFrom_label_dir_pairs_generator counting_archive 20 25 10 4 "archive" [] [] []);
    lia.
Defined.

(** ** The order that the sort passes leave *)

Section InsertionSort.
Context {A : Type}.
Variable le : A -> A -> bool.
Hypothesis le_total : forall a b, le a b = false -> le b a = true.

Local Abbreviation leP := (fun a b : A => le a b = true).

Lemma insert_by_Sorted (a : A) (l : list A) :
  Sorted leP l -> Sorted leP (Py.insert_by le a l).
Proof.
  induction l as [|b l IH]; intros Hl; simpl.
  - by repeat constructor.
  - apply Sorted_inv in Hl as [Hl Hb].
    destruct (le b a) eqn:Hba.
    + constructor; [by apply IH|].
      destruct l as [|c l]; simpl; [by constructor|].
      apply HdRel_inv in Hb. destruct (le c a); by constructor.
    + constructor; [by constructor|]. constructor. by apply le_total.
Qed.

Lemma sort_by_Sorted (l : list A) : Sorted leP (Py.sort_by le l).
Proof.
  unfold Py.sort_by.
  assert (Hgen : forall acc, Sorted leP acc ->
                   Sorted leP (fold_left (fun acc a => Py.insert_by le a acc) l acc)).
  { induction l as [|a l IH]; intros acc Hacc; simpl; [done|].
    apply IH. by apply insert_by_Sorted. }
  apply Hgen. constructor.
Qed.

End InsertionSort.

Lemma Sorted_map_within {A B} (R : A -> A -> Prop) (S : B -> B -> Prop) (f : A -> B)
    (l : list A) :
  (forall a b, a ∈ l -> b ∈ l -> R a b -> S (f a) (f b)) ->
  Sorted R l -> Sorted S (map f l).
Proof.
  intros Hf Hl. induction Hl as [|a l Hl IH Ha]; simpl; [constructor|].
  constructor.
  - apply IH. intros x y Hx Hy. apply Hf; by right.
  - destruct Ha as [|b l Hab]; simpl; constructor.
    apply Hf; [left | right; left | done].
Qed.

Lemma Qle_bool_total (a b : Q) : Qle_bool a b = false -> Qle_bool b a = true.
Proof.
  intros Hab. apply Qle_bool_iff. destruct (Qlt_le_dec b a) as [Hlt|Hle].
  - by apply Qlt_le_weak.
  - apply Qle_bool_iff in Hle. congruence.
Qed.

(** The rows taken in the order of [argsort] ascend in the column. *)
Lemma argsort_ascending (x : array2) (loc : nat) :
  ascending_on loc (np_take [] x (np_argsort (column_of x loc))).
Proof.
  unfold ascending_on, np_take, np_argsort. rewrite map_map.
  set (v := column_of x loc).
  set (leb := fun a b : nat * Q => Qle_bool a.2 b.2).
  assert (Hpairs : forall p, p ∈ Py.sort_by leb (zip (seq 0 (length v)) v) ->
                             nth loc (nth p.1 x []) 0%Q = p.2).
  { intros [i q] Hp. rewrite sort_by_Permutation in Hp.
    apply list_elem_of_lookup in Hp as (k & Hk).
    apply lookup_zip_Some in Hk as [Hi Hq].
    apply lookup_seq in Hi as [-> _]. simpl.
    unfold v, column_of in Hq. rewrite list_lookup_fmap in Hq.
    apply fmap_Some in Hq as (r & Hr & ->).
    by rewrite (nth_lookup_Some _ _ _ _ Hr). }
  eapply (Sorted_map_within (fun a b => leb a b = true)); [|apply sort_by_Sorted].
  - intros a b Ha Hb Hab. rewrite (Hpairs a Ha), (Hpairs b Hb).
    by apply Qle_bool_iff.
  - intros a b. apply Qle_bool_total.
Qed.

Lemma sort_pass_sorted (flag : asc_flag) (x : array2) (loc : nat) :
  if eq_True flag then ascending_on loc (sort_pass flag x loc)
  else descending_on loc (sort_pass flag x loc).
Proof.
  unfold sort_pass. destruct (eq_True flag); [apply argsort_ascending|].
  unfold descending_on, np_take. rewrite map_rev, rev_alt.
  apply (Sorted_reverse (fun r1 r2 : list Q => (nth loc r1 0 <= nth loc r2 0)%Q)).
  apply argsort_ascending.
Qed.

(** X20: the order that the sort of a profile leaves. When the transform
    of the rows of an entry returns for a profile with sort columns, its
    result is the sorted rows followed by the punctuation row, if there is
    one; the sorted rows, the padding rows among them, never step down in
    the first sort column from one row to the next when [sort_ascending]
    is [True], and never step up in it otherwise. *)
Theorem preprocess_group_sorted `{NumpyRandom} `{Pandas} :
  forall (profile : ObjectProfile) (max_size : Z) (observ_types : list string)
         (x : DataFrame) (w : world) (t : array2) (w' : world)
         (first : string) (others : list string),
    sort_columns profile = Some (first :: others) ->
    run (preprocess_group profile max_size observ_types (Py.len observ_types) x) w
    = (Ok t, w') ->
    exists (loc : nat) (body : array2),
      get_loc observ_types first = Ok loc /\
      t = body ++ match punctuation profile with
                  | PyNum c => [Py.replicate c (Py.len observ_types)]
                  | _ => []
                  end /\
      (if eq_True (sort_ascending profile) then ascending_on loc body
       else descending_on loc body).
Proof.
  intros profile m obs x w t w' c cols Hcols Hrun. unfold preprocess_group in Hrun.
  rewrite Hcols in Hrun.
  run_inv Hrun. run_inv Hrun. run_inv Hrun. run_inv Hrun. run_inv Hrun. run_inv Hrun.
  apply run_lift in E3 as [Hlocs _].
  apply fmap_Ok in Hlocs as (locs & Hlocs & ->). simpl in Hlocs.
  apply bind_Ok in Hlocs as (loc & Hloc & Hlocs).
  apply bind_Ok in Hlocs as (locs' & _ & [= <-]).
  apply run_lift in Hrun as [Hp _].
  simpl rev in Hp. rewrite fold_left_app in Hp. simpl fold_left in Hp.
  set (before := fold_left (sort_pass (sort_ascending profile)) (rev locs') a4) in *.
  exists loc, (sort_pass (sort_ascending profile) before loc).
  split_and!; [done | | apply sort_pass_sorted].
  destruct (punctuation profile) as [|p|d]; [| |discriminate].
  - injection Hp as <-. by rewrite app_nil_r.
  - unfold np_append0 in Hp. destruct (forallb _ _); [|discriminate]. by injection Hp as <-.
Qed.

Lemma preprocess_group_sorted_photons :
  let profile (flag : bool) :=
    mkObjectProfile "Photon" (Some 4) None (AscBool true) (Some ["PT"; "E"])
                    (AscBool flag) None false PyNone (PyNum 9) "ObjectProfile" in
  let frame := mkFrame ["E"; "PT"] [mkRow 0 [5; 3]%Q; mkRow 0 [6; 1]%Q; mkRow 0 [7; 2]%Q] in
  @run reversing_random _
    (@preprocess_group reversing_random plain_pandas (profile true) 4 ["E"; "PT"] 2 frame)
    quiet_world
  = (Ok [[0; 0]; [6; 1]; [7; 2]; [5; 3]; [9; 9]]%Q, quiet_world) /\
  (exists (loc : nat) (body : array2),
     get_loc ["E"; "PT"] "PT" = Ok loc /\
     [[0; 0]; [6; 1]; [7; 2]; [5; 3]; [9; 9]]%Q
     = body ++ [Py.replicate 9%Q (Py.len ["E"; "PT"])] /\
     ascending_on loc body) /\
  @run reversing_random _
    (@preprocess_group reversing_random plain_pandas (profile false) 4 ["E"; "PT"] 2 frame)
    quiet_world
  = (Ok [[5; 3]; [7; 2]; [6; 1]; [0; 0]; [9; 9]]%Q, quiet_world) /\
  (exists (loc : nat) (body : array2),
     get_loc ["E"; "PT"] "PT" = Ok loc /\
     [[5; 3]; [7; 2]; [6; 1]; [0; 0]; [9; 9]]%Q
     = body ++ [Py.replicate 9%Q (Py.len ["E"; "PT"])] /\
     descending_on loc body).
Proof.
  intros profile frame.
  assert (Hup : @run reversing_random _
                  (@preprocess_group reversing_random plain_pandas (profile true) 4
                     ["E"; "PT"] (Py.len ["E"; "PT"]) frame) quiet_world
                = (Ok [[0; 0]; [6; 1]; [7; 2]; [5; 3]; [9; 9]]%Q, quiet_world))
    by (by vm_compute).
  assert (Hdown : @run reversing_random _
                    (@preprocess_group reversing_random plain_pandas (profile false) 4
                       ["E"; "PT"] (Py.len ["E"; "PT"]) frame) quiet_world
                  = (Ok [[5; 3]; [7; 2]; [6; 1]; [0; 0]; [9; 9]]%Q, quiet_world))
    by (by vm_compute).
  split_and!.
  - exact Hup.
  - exact (@preprocess_group_sorted reversing_random plain_pandas (profile true) 4
             ["E"; "PT"] frame quiet_world _ _ "PT" ["E"] eq_refl Hup).
  - exact Hdown.
  - exact (@preprocess_group_sorted reversing_random plain_pandas (profile false) 4
             ["E"; "PT"] frame quiet_world _ _ "PT" ["E"] eq_refl Hdown).
Defined.

(** ** The table source adapter *)

Lemma len_zero_nil {A} (l : list A) : (Py.len l =? 0) = true -> l = [].
Proof. unfold Py.len. destruct l; [done | simpl; discriminate]. Qed.

(** X21: what [getFiles_StoreType] hands back is never empty and never
    mixed: it is all the files of one kind under the directory, there is
    at least one, and there is none of the other kind; in every other
    case (no such directory, both kinds, neither kind) the call raises
    [IOError]. *)
Theorem getFiles_StoreType_one_kind `{NumpyRandom} :
  forall (fs : filesystem) (data_dir : string) (w : world),
    match (run (getFiles_StoreType fs data_dir) w).1 with
    | Ok (files, st) =>
        is_Some (fs_dirs fs !! data_dir) /\
        files = listed fs data_dir st /\ files <> [] /\
        listed fs data_dir (other_store st) = []
    | Raise e => exists msg, e = IOError msg
    end.
Proof.
  intros fs data_dir w.
  unfold getFiles_StoreType, glob, run, emit, raise, lift, mbind, M_bind, mret, M_ret.
  cbn [fst snd].
  destruct (bool_decide (is_Some (fs_dirs fs !! data_dir))) eqn:Hdir; cbn [negb fst snd];
    [apply bool_decide_eq_true in Hdir | by eexists].
  fold (listed fs data_dir msgpack). fold (listed fs data_dir hdf5).
  change (List.filter (Py.ends_with ".msg") (default [] (fs_dirs fs !! data_dir)))
    with (listed fs data_dir msgpack).
  change (List.filter (Py.ends_with ".h5") (default [] (fs_dirs fs !! data_dir)))
    with (listed fs data_dir hdf5).
  destruct (Py.len (listed fs data_dir msgpack) =? 0) eqn:Hmsg; cbn [fst snd].
  - destruct (Py.len (listed fs data_dir hdf5) <? 1) eqn:Hh5; cbn [fst snd]; [by eexists|].
    split_and!; [done | done | | by apply len_zero_nil].
    intros Hnil. rewrite Hnil in Hh5. discriminate.
  - destruct (Py.len (listed fs data_dir hdf5) =? 0) eqn:Hh5; cbn [fst snd]; [|by eexists].
    destruct (Py.len (listed fs data_dir msgpack) <? 1) eqn:Hlt; cbn [fst snd]; [by eexists|].
    split_and!; [done | done | | by apply len_zero_nil].
    intros Hnil. rewrite Hnil in Hmsg. discriminate.
Qed.

(** X22: [getNumValFrame] returns the row-count index of the file when
    the file has one, and raises when it has none. On an HDF5 file the
    store is opened and asked for [NumValues]; it is closed when the
    index is returned, and is left open when the call raises [IOError]. *)
Theorem getNumValFrame_outcome `{NumpyRandom} :
  forall (fs : filesystem) (filename : string) (st : storeType) (w : world),
    let out := run (getNumValFrame fs filename st) w in
    match fs_files fs !! filename ≫= NumValues with
    | Some nv =>
        out.1 = Ok nv /\
        (st = hdf5 ->
         io_log out.2 = io_log w ++ [Ev_store_open filename;
                                     Ev_store_get filename "NumValues";
                                     Ev_store_close filename])
    | None =>
        (exists e, out.1 = Raise e) /\
        (st = hdf5 ->
         (exists msg, out.1 = Raise (IOError msg)) /\
         io_log out.2 = io_log w ++ [Ev_store_open filename;
                                     Ev_store_get filename "NumValues"])
    end.
Proof.
  intros fs filename st w.
  unfold getNumValFrame, msgpack_assertMeta, run, emit, raise, lift, mbind, M_bind, mret, M_ret.
  destruct st; cbn [fst snd io_log rng_state].
  - destruct (fs_files fs !! filename) as [[[nv|] tb]|]; cbn [fst snd io_log rng_state option_bind mbind NumValues].
    + split; [done|]. intros _. by rewrite <- !app_assoc.
    + split; [by eexists|]. intros _. split; [by eexists|]. by rewrite <- !app_assoc.
    + split; [by eexists|]. intros _. split; [by eexists|]. by rewrite <- !app_assoc.
  - destruct (fs_files fs !! filename) as [[[nv|] tb]|]; cbn [fst snd io_log rng_state option_bind mbind NumValues].
    + split; [done | discriminate].
    + split; [by eexists | discriminate].
    + split; [by eexists | discriminate].
Qed.

(** ** Export and import *)

Lemma append_cons (c : ascii) (a b : string) : String c a +:+ b = String c (a +:+ b).
Proof. reflexivity. Qed.

Lemma append_assoc (a b c : string) : (a +:+ b) +:+ c = a +:+ (b +:+ c).
Proof. induction a as [|x a IH]; [done|]. rewrite !append_cons. by rewrite IH. Qed.

Lemma length_append (a b : string) :
  String.length (a +:+ b) = (String.length a + String.length b)%nat.
Proof. induction a as [|x a IH]; [done|]. rewrite append_cons. simpl. by rewrite IH. Qed.

Lemma prefix_append (a b c : string) :
  String.prefix (a +:+ b) (a +:+ c) = String.prefix b c.
Proof.
  induction a as [|x a IH]; [done|]. rewrite !append_cons. simpl.
  by destruct (ascii_dec x x).
Qed.

Lemma prefix_self (a b : string) : String.prefix a (a +:+ b) = true.
Proof.
  induction a as [|x a IH]; [by destruct b|]. rewrite append_cons. simpl.
  by destruct (ascii_dec x x).
Qed.

Lemma substring_all (b : string) : String.substring 0 (String.length b) b = b.
Proof. induction b as [|x b IH]; [done|]. simpl. by rewrite IH. Qed.

Lemma substring_append (a b : string) :
  String.substring (String.length a) (String.length (a +:+ b) - String.length a) (a +:+ b) = b.
Proof.
  rewrite length_append. replace (_ + _ - _)%nat with (String.length b) by lia.
  induction a as [|x a IH]; [apply substring_all|]. by rewrite append_cons.
Qed.

Lemma ascii_compare_refl (x : ascii) : Ascii.compare x x = Eq.
Proof. unfold Ascii.compare. apply N.compare_refl. Qed.

Lemma leb_append (a b c : string) : String.leb (a +:+ b) (a +:+ c) = String.leb b c.
Proof.
  unfold String.leb. induction a as [|x a IH]; [done|]. rewrite !append_cons. simpl.
  by rewrite ascii_compare_refl.
Qed.

Lemma list_ascii_append (a b : string) :
  list_ascii_of_string (a +:+ b) = list_ascii_of_string a ++ list_ascii_of_string b.
Proof. induction a as [|x a IH]; [done|]. rewrite append_cons. simpl. by rewrite IH. Qed.

Lemma append_inj_r (a b c : string) : a +:+ c = b +:+ c -> a = b.
Proof.
  intros Heq. apply (f_equal list_ascii_of_string) in Heq.
  rewrite !list_ascii_append in Heq. apply app_inv_tail in Heq.
  rewrite <- (string_of_list_ascii_of_string a), <- (string_of_list_ascii_of_string b).
  by rewrite Heq.
Qed.

(** The text of a number. *)
Lemma string_of_uint_digits (u : Decimal.uint) : all_digits (NilEmpty.string_of_uint u).
Proof. unfold all_digits. induction u; simpl; by constructor. Qed.

Lemma str_nat_digits (n : nat) : all_digits (Py.str_nat n).
Proof.
  unfold Py.str_nat, NilZero.string_of_uint.
  destruct (Nat.to_uint n) eqn:Hu; try (rewrite <- Hu; apply string_of_uint_digits).
  unfold all_digits. by repeat constructor.
Qed.

Lemma str_nat_inj (i j : nat) : Py.str_nat i = Py.str_nat j -> i = j.
Proof.
  assert (Hback : forall n, exists v, NilZero.uint_of_string (Py.str_nat n) = Some v /\
                                      Nat.of_uint v = n).
  { intros n. unfold Py.str_nat. destruct (Nat.to_uint n) eqn:Hu;
      try (rewrite <- Hu; exists (Nat.to_uint n); split;
           [apply NilZero.usu; by rewrite Hu | apply DecimalNat.Unsigned.of_to]).
    exists (Decimal.D0 Decimal.Nil). split; [apply NilZero.usu_nil|].
    rewrite <- (DecimalNat.Unsigned.of_to n), Hu. reflexivity. }
  intros Heq. destruct (Hback i) as (vi & Hi & <-), (Hback j) as (vj & Hj & <-).
  rewrite Heq in Hi. congruence.
Qed.

Lemma all_digits_no (c : ascii) (s : string) :
  is_digit c = false -> all_digits s ->
  existsb (Ascii.eqb c) (list_ascii_of_string s) = false.
Proof.
  intros Hc Hs. unfold all_digits in Hs. induction Hs as [|x l Hx _ IH]; [done|].
  simpl. rewrite IH, orb_false_r. destruct (Ascii.eqb c x) eqn:Hcx; [|done].
  apply Ascii.eqb_eq in Hcx as ->. congruence.
Qed.

(** *** The files that an export writes *)

Section Written.
Variable name : nat -> string.
Hypothesis name_inj : forall i j, name i = name j -> i = j.
Variable content : ndarray -> file_content.

Lemma write_all_cons (a : nat) (x : ndarray) (l : list ndarray) (dk : disk) :
  write_all name content a (x :: l) dk
  = write_all name content (S a) l (write_file (name a) (content x) dk).
Proof. reflexivity. Qed.

Lemma write_all_dirs (a : nat) (l : list ndarray) (dk : disk) :
  dirs (write_all name content a l dk) = dirs dk.
Proof.
  revert a dk. induction l as [|x l IH]; intros a dk; [done|].
  by rewrite write_all_cons, IH.
Qed.

Lemma write_all_other (a : nat) (l : list ndarray) (dk : disk) (k : string) :
  (forall i, (i < length l)%nat -> k <> name (a + i)%nat) ->
  files (write_all name content a l dk) !! k = files dk !! k.
Proof.
  revert a dk. induction l as [|x l IH]; intros a dk Hk; [done|].
  rewrite write_all_cons, IH.
  - simpl. apply lookup_insert_ne. intros Heq.
    apply (Hk 0%nat); [simpl; lia|]. by rewrite Nat.add_0_r.
  - intros i Hi. replace (S a + i)%nat with (a + S i)%nat by lia.
    apply Hk. simpl. lia.
Qed.

Lemma write_all_written (a : nat) (l : list ndarray) (dk : disk) (i : nat) (x : ndarray) :
  l !! i = Some x ->
  files (write_all name content a l dk) !! name (a + i)%nat = Some (content x).
Proof.
  revert a dk i. induction l as [|y l IH]; intros a dk i Hi; [done|].
  rewrite write_all_cons. destruct i as [|i]; simpl in Hi.
  - injection Hi as ->. rewrite write_all_other.
    + rewrite Nat.add_0_r. simpl. apply lookup_insert_eq.
    + intros j _ Heq. apply name_inj in Heq. lia.
  - replace (a + S i)%nat with (S a + i)%nat by lia. by apply IH.
Qed.

Lemma write_all_is_Some (a : nat) (l : list ndarray) (dk : disk) (k : string) :
  is_Some (files (write_all name content a l dk) !! k) ->
  k ∈ map name (seq a (length l)) \/ is_Some (files dk !! k).
Proof.
  intros Hk. destruct (decide (k ∈ map name (seq a (length l)))) as [Hin|Hout]; [by left|].
  right. rewrite write_all_other in Hk; [done|].
  intros i Hi ->. apply Hout. apply list_elem_of_fmap. exists (a + i)%nat.
  split; [done|]. apply elem_of_seq. lia.
Qed.

End Written.

(** *** The names of the exported files *)

Lemma export_name_inj (path s ext : string) (i j : nat) :
  export_name path s ext i = export_name path s ext j -> i = j.
Proof.
  unfold export_name. intros Heq.
  apply String.app_inj in Heq. apply String.app_inj in Heq.
  apply append_inj_r in Heq. by apply str_nat_inj.
Qed.

Lemma export_name_leb (path s ext : string) (i j : nat) :
  String.leb (export_name path s ext i) (export_name path s ext j)
  = String.leb (Py.str_nat i +:+ ext) (Py.str_nat j +:+ ext).
Proof. unfold export_name. by rewrite !leb_append. Qed.

(** Up to ten names are in the order of their indices. *)
Lemma export_names_sorted (path s ext : string) (n : nat) :
  (n <= 10)%nat ->
  Sorted (fun a b => String.leb a b = true) (map (export_name path s ext) (seq 0 n)).
Proof.
  intros Hn.
  do 11 (destruct n as [|n];
         [simpl;
          repeat first [apply Sorted_nil | apply Sorted_cons | apply HdRel_nil | apply HdRel_cons];
          rewrite export_name_leb; reflexivity|]).
  lia.
Qed.

Lemma export_name_under (path s ext : string) (i : nat) :
  existsb (Ascii.eqb "/") (list_ascii_of_string s) = false ->
  existsb (Ascii.eqb "/") (list_ascii_of_string ext) = false ->
  let p := export_name path s ext i in
  String.prefix path p = true /\
  existsb (Ascii.eqb "/")
    (list_ascii_of_string
       (String.substring (String.length path) (String.length p - String.length path) p))
  = false.
Proof.
  intros Hs Hext p. unfold p, export_name. split; [apply prefix_self|].
  rewrite substring_append, !list_ascii_append, !existsb_app, Hs, Hext.
  by rewrite (all_digits_no "/" _ eq_refl (str_nat_digits i)).
Qed.

(** *** The listing of a directory of the disk *)

Lemma sorted_glob_elem (path : string) (dk : disk) (k : string) :
  k ∈ sorted_glob path dk <->
  is_Some (files dk !! k) /\ String.prefix path k = true /\
  existsb (Ascii.eqb "/")
    (list_ascii_of_string
       (String.substring (String.length path) (String.length k - String.length path) k))
  = false.
Proof.
  unfold sorted_glob, Py.sort_strings. rewrite sort_by_Permutation.
  rewrite list_elem_of_In, filter_In, <- list_elem_of_In, andb_true_iff, negb_true_iff.
  rewrite list_elem_of_fmap. split.
  - intros [([k' c] & -> & Hin) Hp]. apply elem_of_map_to_list in Hin. simpl in *. eauto.
  - intros ([c Hc] & Hp). split; [|done]. exists (k, c). split; [done|].
    by apply elem_of_map_to_list.
Qed.

Lemma sorted_glob_NoDup (path : string) (dk : disk) : NoDup (sorted_glob path dk).
Proof.
  unfold sorted_glob, Py.sort_strings. rewrite sort_by_Permutation.
  apply NoDup_ListNoDup, List.NoDup_filter, NoDup_ListNoDup, NoDup_fst_map_to_list.
Qed.

Lemma sorted_glob_Sorted (path : string) (dk : disk) :
  Sorted (fun a b => String.leb a b = true) (sorted_glob path dk).
Proof.
  unfold sorted_glob, Py.sort_strings. apply sort_by_Sorted.
  intros a b Hab. destruct (String.leb_total a b); congruence.
Qed.

Lemma Sorted_weaken {A} (R S : A -> A -> Prop) (l : list A) :
  (forall a b, R a b -> S a b) -> Sorted R l -> Sorted S l.
Proof.
  intros HRS Hl. induction Hl as [|a l Hl IH Ha]; constructor; [done|].
  destruct Ha; constructor; auto.
Qed.

Lemma leb_sorted_unique (l1 l2 : list string) :
  Sorted (fun a b => String.leb a b = true) l1 ->
  Sorted (fun a b => String.leb a b = true) l2 ->
  l1 ≡ₚ l2 -> l1 = l2.
Proof.
  intros H1 H2. eapply (Sorted_unique String.le).
  - eapply Sorted_weaken; [|exact H1]. intros a b. apply Is_true_true_2.
  - eapply Sorted_weaken; [|exact H2]. intros a b. apply Is_true_true_2.
Qed.

(** The listing of a directory that holds the files of an export and
    nothing else. *)
Lemma sorted_glob_written (path s ext : string) (n : nat) (dk : disk) :
  existsb (Ascii.eqb "/") (list_ascii_of_string s) = false ->
  existsb (Ascii.eqb "/") (list_ascii_of_string ext) = false ->
  (forall i, (i < n)%nat -> is_Some (files dk !! export_name path s ext i)) ->
  (forall k, is_Some (files dk !! k) -> String.prefix path k = true ->
             k ∈ map (export_name path s ext) (seq 0 n)) ->
  sorted_glob path dk ≡ₚ map (export_name path s ext) (seq 0 n) /\
  ((n <= 10)%nat -> sorted_glob path dk = map (export_name path s ext) (seq 0 n)).
Proof.
  intros Hs Hext Hin Hout.
  assert (Hperm : sorted_glob path dk ≡ₚ map (export_name path s ext) (seq 0 n)).
  { apply NoDup_Permutation; [apply sorted_glob_NoDup | |].
    - assert (Hinj : Inj (=) (=) (export_name path s ext))
        by (intros i j; apply export_name_inj).
      apply (NoDup_fmap_2 _), NoDup_seq.
    - intros k. rewrite sorted_glob_elem. split.
      + intros (Hk & Hp & _). by apply Hout.
      + intros (i & -> & Hi)%list_elem_of_fmap. apply elem_of_seq in Hi.
        split; [apply Hin; lia|]. by apply export_name_under. }
  split; [done|]. intros Hn.
  apply leb_sorted_unique; [apply sorted_glob_Sorted | by apply export_names_sorted | done].
Qed.

(** Reading the listed files gives the arrays back, in the order of the
    listing. *)
Lemma read_back (read : string -> result ndarray) (name : nat -> string)
    (l : list ndarray) (listing : list string) :
  (forall i j, name i = name j -> i = j) ->
  (forall i x, l !! i = Some x -> read (name i) = Ok x) ->
  listing ≡ₚ map name (seq 0 (length l)) ->
  exists back, rmap read listing = Ok back /\ back ≡ₚ l /\
               (listing = map name (seq 0 (length l)) -> back = l).
Proof.
  intros Hinj Hread Hperm.
  set (g := fun p => match read p with Ok x => x | Raise _ => mkArray [] [] end).
  assert (Hnames : map g (map name (seq 0 (length l))) = l).
  { apply list_eq. intros i. rewrite !list_lookup_fmap.
    destruct (l !! i) as [x|] eqn:Hi.
    - rewrite lookup_seq_lt by (by eapply lookup_lt_Some). simpl.
      unfold g. by rewrite (Hread _ _ Hi).
    - apply lookup_ge_None in Hi. by rewrite lookup_seq_ge. }
  exists (map g listing). split_and!.
  - apply rmap_map, Forall_forall. intros p Hp.
    rewrite Hperm in Hp. apply list_elem_of_fmap in Hp as (i & -> & Hi).
    apply elem_of_seq in Hi. destruct (lookup_lt_is_Some_2 l i) as [x Hx]; [lia|].
    unfold g. by rewrite (Hread _ _ Hx).
  - etrans; [apply Permutation_map, Hperm|]. by rewrite Hnames.
  - by intros ->.
Qed.

(** *** The layout of an export directory *)

Section ExportLayout.
Variable d ext : string.
Variable content : ndarray -> file_content.
Variable X Y : list ndarray.
Variable dk : disk.
Hypothesis ext_flat : existsb (Ascii.eqb "/") (list_ascii_of_string ext) = false.
Hypothesis fresh_X : nothing_under (d +:+ "X/") dk.
Hypothesis fresh_Y : nothing_under (d +:+ "Y/") dk.

Local Abbreviation nameX := (export_name (d +:+ "X/") "X_" ext).
Local Abbreviation nameY := (export_name (d +:+ "Y/") "Y_" ext).
Local Abbreviation exported :=
  (write_all nameY content 0 Y
     (write_all nameX content 0 X
        (ensure_dir (d +:+ "Y/") (ensure_dir (d +:+ "X/") (ensure_dir d dk))))).

Lemma nameY_not_under_X (j : nat) : String.prefix (d +:+ "X/") (nameY j) = false.
Proof. unfold export_name. by rewrite append_assoc, prefix_append. Qed.

Lemma nameX_not_under_Y (i : nat) : String.prefix (d +:+ "Y/") (nameX i) = false.
Proof. unfold export_name. by rewrite append_assoc, prefix_append. Qed.

Lemma nameX_nameY (i j : nat) : nameX i <> nameY j.
Proof.
  intros Heq. pose proof (nameY_not_under_X j) as Hp. rewrite <- Heq in Hp.
  unfold export_name in Hp. by rewrite prefix_self in Hp.
Qed.

Lemma exported_dirs : d +:+ "X/" ∈ dirs exported /\ d +:+ "Y/" ∈ dirs exported.
Proof. clear ext_flat fresh_X fresh_Y. rewrite !write_all_dirs. simpl. set_solver. Qed.

Lemma exported_X (i : nat) (x : ndarray) :
  X !! i = Some x -> files exported !! nameX i = Some (content x).
Proof.
  intros Hi. rewrite write_all_other by (intros j _; apply nameX_nameY).
  apply (write_all_written nameX (export_name_inj _ _ _) content 0 X _ i x Hi).
Qed.

Lemma exported_Y (j : nat) (y : ndarray) :
  Y !! j = Some y -> files exported !! nameY j = Some (content y).
Proof.
  intros Hj. apply (write_all_written nameY (export_name_inj _ _ _) content 0 Y _ j y Hj).
Qed.

Lemma exported_X_listing :
  sorted_glob (d +:+ "X/") exported ≡ₚ map nameX (seq 0 (length X)) /\
  ((length X <= 10)%nat -> sorted_glob (d +:+ "X/") exported = map nameX (seq 0 (length X))).
Proof.
  apply sorted_glob_written; [done | done | |].
  - intros i Hi. destruct (lookup_lt_is_Some_2 X i Hi) as [x Hx].
    rewrite (exported_X i x Hx). by eexists.
  - intros k Hk Hp.
    apply write_all_is_Some in Hk as [Hk|Hk].
    { apply list_elem_of_fmap in Hk as (j & -> & _). by rewrite nameY_not_under_X in Hp. }
    apply write_all_is_Some in Hk as [Hk|Hk]; [done|].
    simpl in Hk. apply fresh_X in Hk. congruence.
Qed.

Lemma exported_Y_listing :
  sorted_glob (d +:+ "Y/") exported ≡ₚ map nameY (seq 0 (length Y)) /\
  ((length Y <= 10)%nat -> sorted_glob (d +:+ "Y/") exported = map nameY (seq 0 (length Y))).
Proof.
  apply sorted_glob_written; [done | done | |].
  - intros j Hj. destruct (lookup_lt_is_Some_2 Y j Hj) as [y Hy].
    rewrite (exported_Y j y Hy). by eexists.
  - intros k Hk Hp.
    apply write_all_is_Some in Hk as [Hk|Hk]; [done|].
    apply write_all_is_Some in Hk as [Hk|Hk].
    { apply list_elem_of_fmap in Hk as (i & -> & _). by rewrite nameX_not_under_Y in Hp. }
    simpl in Hk. apply fresh_Y in Hk. congruence.
Qed.

(** What an import reads back from the layout, given that each file is
    read as the array that it was written from. *)
Lemma exported_read_back (read : string -> result ndarray) :
  (forall i x, X !! i = Some x -> read (nameX i) = Ok x) ->
  (forall j y, Y !! j = Some y -> read (nameY j) = Ok y) ->
  exists X' Y',
    (Xs ← rmap read (sorted_glob (d +:+ "X/") exported);
     Ys ← rmap read (sorted_glob (d +:+ "Y/") exported);
     Ok (Xs, Ys)) = Ok (X', Y') /\
    X' ≡ₚ X /\ Y' ≡ₚ Y /\
    ((length X <= 10)%nat -> X' = X) /\ ((length Y <= 10)%nat -> Y' = Y).
Proof.
  intros HX HY.
  destruct exported_X_listing as [HpX HsX], exported_Y_listing as [HpY HsY].
  destruct (read_back read nameX X _ (export_name_inj _ _ _) HX HpX) as (X' & -> & HX' & HXs).
  destruct (read_back read nameY Y _ (export_name_inj _ _ _) HY HpY) as (Y' & -> & HY' & HYs).
  exists X', Y'. split_and!; [done | done | done | |]; eauto.
Qed.

End ExportLayout.

Lemma with_slash_nonempty (d : string) : d <> "" -> with_slash d = Ok (slashed d).
Proof.
  intros Hd. unfold with_slash, slashed.
  destruct (String.eqb d "") eqn:He; [by apply String.eqb_eq in He|].
  by destruct (Py.ends_with "/" d).
Qed.

Lemma fold_left_agree {A B} (f g : B -> A -> B) (l : list A) (b : B) :
  (forall b a, f b a = g b a) -> fold_left f l b = fold_left g l b.
Proof.
  intros Hfg. revert b. induction l as [|a l IH]; intros b; [done|].
  simpl. by rewrite Hfg, IH.
Qed.

Lemma XY_to_pickle_layout (X Y : list_or ndarray) (pickledir : string) (dk : disk) :
  pickledir <> "" ->
  XY_to_pickle X Y pickledir dk
  = Ok (write_all (export_name (slashed pickledir +:+ "Y/") "Y_" ".npy") F_npy 0 (as_list Y)
         (write_all (export_name (slashed pickledir +:+ "X/") "X_" ".npy") F_npy 0 (as_list X)
            (ensure_dir (slashed pickledir +:+ "Y/")
               (ensure_dir (slashed pickledir +:+ "X/")
                  (ensure_dir (slashed pickledir) dk))))).
Proof.
  intros Hd. unfold XY_to_pickle. rewrite (with_slash_nonempty _ Hd).
  cbn [mbind result_bind]. f_equal. unfold write_all.
  erewrite (fold_left_agree _ _ (zip (seq 0 (length (as_list Y))) (as_list Y))).
  - f_equal. apply fold_left_agree.
    intros b [i x]. unfold pickle_writeit, export_name. cbn [fst snd].
    by rewrite !append_assoc.
  - intros b [i x]. unfold pickle_writeit, export_name. cbn [fst snd].
    by rewrite !append_assoc.
Qed.

(** X23: what [XY_to_pickle] writes to a fresh directory, [XY_from_pickle]
    reads back: the same arrays on each side, in some order for any
    number of them, and in the order of the export when a side has at
    most ten. *)
Theorem XY_pickle_roundtrip :
  forall (X Y : list_or ndarray) (pickledir : string) (dk : disk),
    pickledir <> "" ->
    fresh_export_dir pickledir dk ->
    exists X' Y',
      (dk' ← XY_to_pickle X Y pickledir dk; XY_from_pickle pickledir dk') = Ok (X', Y') /\
      X' ≡ₚ as_list X /\ Y' ≡ₚ as_list Y /\
      ((length (as_list X) <= 10)%nat -> X' = as_list X) /\
      ((length (as_list Y) <= 10)%nat -> Y' = as_list Y).
Proof.
  intros X Y pickledir dk Hd [HfX HfY].
  rewrite (XY_to_pickle_layout _ _ _ _ Hd). cbn [mbind result_bind].
  unfold XY_from_pickle. rewrite (with_slash_nonempty _ Hd). cbn [mbind result_bind].
  destruct (exported_dirs (slashed pickledir) ".npy" F_npy (as_list X) (as_list Y) dk)
    as [HdX HdY].
  rewrite (bool_decide_eq_true_2 _ HdX), (bool_decide_eq_true_2 _ HdY). cbn [negb orb].
  apply (exported_read_back (slashed pickledir) ".npy" F_npy (as_list X) (as_list Y) dk
           eq_refl HfX HfY).
  - intros i x Hi. unfold pickle_readit.
    by rewrite (exported_X (slashed pickledir) ".npy" F_npy (as_list X) (as_list Y) dk i x Hi).
  - intros j y Hj. unfold pickle_readit.
    by rewrite (exported_Y (slashed pickledir) ".npy" F_npy (as_list X) (as_list Y) dk j y Hj).
Qed.

Lemma XY_pickle_roundtrip_three :
  let X := [mkArray [2; 1; 2] [1 # 2; 3; 0; 7]%Q; mkArray [2] [1; 2]%Q; cell_array 5] in
  let Y := cell_array 1 in
  "out" <> "" /\ fresh_export_dir "out" empty_disk /\
  exists X' Y',
    (dk' ← XY_to_pickle (Listed X) (Single Y) "out" empty_disk; XY_from_pickle "out" dk')
      = Ok (X', Y') /\
    X' ≡ₚ X /\ Y' ≡ₚ [Y] /\
    ((length X <= 10)%nat -> X' = X) /\ ((length [Y] <= 10)%nat -> Y' = [Y]).
Proof.
  assert (Hfresh : fresh_export_dir "out" empty_disk).
  { split; intros p [c Hc]; simpl in Hc; by rewrite lookup_empty in Hc. }
  split; [discriminate|]. split; [exact Hfresh|].
  apply (XY_pickle_roundtrip (Listed _) (Single _) "out" empty_disk); [discriminate | exact Hfresh].
Defined.

(** *** The shape line of a CSV file *)

Lemma append_nil_r (a : string) : a +:+ "" = a.
Proof. induction a as [|x a IH]; [done|]. by rewrite append_cons, IH. Qed.

Lemma split_commas_flat (a : string) :
  existsb (Ascii.eqb ",") (list_ascii_of_string a) = false -> split_commas a = [a].
Proof.
  induction a as [|x a IH]; [done|].
  cbn [list_ascii_of_string existsb split_commas]. intros Hx.
  apply orb_false_iff in Hx as [Hx Ha]. rewrite Ascii.eqb_sym in Hx.
  by rewrite Hx, (IH Ha).
Qed.

Lemma split_commas_app (a r : string) :
  existsb (Ascii.eqb ",") (list_ascii_of_string a) = false ->
  split_commas (a +:+ "," +:+ r) = a :: split_commas r.
Proof.
  induction a as [|x a IH]; [done|]. rewrite append_cons.
  cbn [list_ascii_of_string existsb split_commas]. intros Hx.
  apply orb_false_iff in Hx as [Hx Ha]. rewrite Ascii.eqb_sym in Hx.
  by rewrite Hx, (IH Ha).
Qed.

Lemma only_digits_append (a b : string) :
  only_digits (a +:+ b) = only_digits a +:+ only_digits b.
Proof.
  induction a as [|x a IH]; [done|]. rewrite append_cons. cbn [only_digits].
  destruct (is_digit x); [|done]. by rewrite append_cons, IH.
Qed.

Lemma only_digits_id (a : string) : all_digits a -> only_digits a = a.
Proof.
  unfold all_digits. induction a as [|x a IH]; [done|].
  cbn [list_ascii_of_string only_digits].
  intros [Hx Ha]%Forall_cons. by rewrite Hx, (IH Ha).
Qed.

(** The value of the digits of a number is the number. *)
Lemma digits_value (u : Decimal.uint) (acc : nat) :
  fold_left (fun acc c => 10 * acc + (Z.of_nat (nat_of_ascii c) - 48))
            (list_ascii_of_string (NilEmpty.string_of_uint u)) (Z.of_nat acc)
  = Z.of_nat (Nat.of_uint_acc u acc).
Proof.
  revert acc. induction u as [|u IH|u IH|u IH|u IH|u IH|u IH|u IH|u IH|u IH|u IH];
    intros acc; [done|..]; cbn [NilEmpty.string_of_uint list_ascii_of_string fold_left Nat.of_uint_acc];
    rewrite <- IH; f_equal; rewrite Nat.tail_mul_spec;
    match goal with
    | |- context [nat_of_ascii ?c] =>
        let v := eval vm_compute in (nat_of_ascii c) in change (nat_of_ascii c) with v
    end; lia.
Qed.

Lemma int_of_digits_str_nat (n : nat) : int_of_digits (Py.str_nat n) = Ok (Z.of_nat n).
Proof.
  unfold int_of_digits.
  assert (Hne : String.eqb (Py.str_nat n) "" = false).
  { unfold Py.str_nat, NilZero.string_of_uint. by destruct (Nat.to_uint n). }
  rewrite Hne. f_equal. unfold Py.str_nat.
  pose proof (DecimalNat.Unsigned.of_to n) as Hn. unfold Nat.of_uint in Hn.
  destruct (Nat.to_uint n) as [|u|u|u|u|u|u|u|u|u|u] eqn:Hu;
    [by rewrite <- Hn|..]; rewrite <- Hn; exact (digits_value _ 0).
Qed.

Lemma shape_tail (dims : list Z) (acc : string) :
  fold_left (fun acc m => acc +:+ ", " +:+ Py.str_nat (Z.to_nat m)) dims acc +:+ ")" +:+ newline
  = acc +:+ fold_right (fun m t => ", " +:+ Py.str_nat (Z.to_nat m) +:+ t) (")" +:+ newline) dims.
Proof.
  revert acc. induction dims as [|m dims IH]; intros acc; [done|].
  cbn [fold_left fold_right]. rewrite IH. by rewrite !append_assoc.
Qed.

Lemma parse_tail (w : string) (v : Z) (dims : list Z) :
  existsb (Ascii.eqb ",") (list_ascii_of_string w) = false ->
  int_of_digits (only_digits w) = Ok v ->
  Forall (fun n => 0 <= n) dims ->
  rmap (fun s => int_of_digits (only_digits s))
       (split_commas
          (w +:+ fold_right (fun m t => ", " +:+ Py.str_nat (Z.to_nat m) +:+ t)
                            (")" +:+ newline) dims))
  = Ok (v :: dims).
Proof.
  revert w v. induction dims as [|m dims IH]; intros w v Hw Hv Hdims; cbn [fold_right].
  - rewrite split_commas_flat.
    + cbn [rmap]. rewrite only_digits_append.
      change (only_digits (")" +:+ newline)) with "". by rewrite append_nil_r, Hv.
    + by rewrite list_ascii_append, existsb_app, Hw.
  - apply Forall_cons in Hdims as [Hm Hdims].
    set (t := fold_right _ _ dims).
    replace (w +:+ ", " +:+ Py.str_nat (Z.to_nat m) +:+ t)
      with (w +:+ "," +:+ (" " +:+ Py.str_nat (Z.to_nat m)) +:+ t)
      by (by rewrite append_assoc).
    rewrite (split_commas_app _ _ Hw). cbn [rmap]. rewrite Hv. cbn [mbind result_bind].
    unfold t. rewrite (IH _ m); [done | | | done].
    + rewrite list_ascii_append, existsb_app.
      by rewrite (all_digits_no "," _ eq_refl (str_nat_digits _)).
    + rewrite only_digits_append, (only_digits_id _ (str_nat_digits _)).
      change (only_digits " " +:+ ?s) with s.
      rewrite int_of_digits_str_nat. by rewrite Z2Nat.id.
Qed.

(** The shape line of an array of two or more dimensions is read back
    as the shape. *)
Lemma parse_header (sh : list Z) :
  (2 <= length sh)%nat -> Forall (fun n => 0 <= n) sh ->
  rmap (fun s => int_of_digits (only_digits s))
       (split_commas ("#Shape: " +:+ str_shape sh +:+ newline))
  = Ok sh.
Proof.
  destruct sh as [|n [|m dims]]; simpl length; [lia | lia |].
  intros _ [Hn Hdims]%Forall_cons. unfold str_shape.
  set (body := fold_left _ (m :: dims) _).
  replace ("#Shape: " +:+ ("(" +:+ body +:+ ")") +:+ newline)
    with ("#Shape: (" +:+ (body +:+ ")" +:+ newline))
    by (by rewrite !append_assoc).
  unfold body. rewrite shape_tail.
  rewrite <- append_assoc. apply parse_tail; [| |done].
  - rewrite list_ascii_append, existsb_app.
    by rewrite (all_digits_no "," _ eq_refl (str_nat_digits _)).
  - rewrite only_digits_append, (only_digits_id _ (str_nat_digits _)).
    change (only_digits "#Shape: (" +:+ ?s) with s.
    rewrite int_of_digits_str_nat. by rewrite Z2Nat.id.
Qed.

(** The shape line of a one-dimensional array ends in a comma, after
    which no digit follows. *)
Lemma parse_header_one_dimensional (n : Z) :
  rmap (fun s => int_of_digits (only_digits s))
       (split_commas ("#Shape: " +:+ str_shape [n] +:+ newline))
  = Raise (ValueError "invalid literal for int() with base 10: ''").
Proof.
  unfold str_shape.
  replace ("#Shape: " +:+ ("(" +:+ Py.str_nat (Z.to_nat n) +:+ ",)") +:+ newline)
    with (("#Shape: (" +:+ Py.str_nat (Z.to_nat n)) +:+ "," +:+ (")" +:+ newline))
    by (by rewrite !append_assoc).
  rewrite split_commas_app.
  - cbn [rmap]. rewrite only_digits_append, (only_digits_id _ (str_nat_digits _)).
    change (only_digits "#Shape: (" +:+ ?s) with s.
    rewrite int_of_digits_str_nat. reflexivity.
  - rewrite list_ascii_append, existsb_app.
    by rewrite (all_digits_no "," _ eq_refl (str_nat_digits _)).
Qed.

(** *** The rows of a CSV file *)

Lemma firstn_plus {A} (a b : nat) (l : list A) :
  firstn (a + b) l = firstn a l ++ firstn b (skipn a l).
Proof.
  revert l. induction a as [|a IH]; intros l; [done|].
  destruct l as [|x l]; simpl; [by rewrite firstn_nil|]. by rewrite IH.
Qed.

Lemma concat_chunks (r c : nat) (d : list Q) :
  length d = (r * c)%nat -> concat (chunks r c d) = d.
Proof.
  intros Hd. rewrite <- (firstn_all d) at 2. rewrite Hd. clear Hd.
  revert d. induction r as [|r IH]; intros d; [done|].
  cbn [chunks concat]. rewrite IH.
  replace (S r * c)%nat with (c + r * c)%nat by lia. by rewrite firstn_plus.
Qed.

Lemma Zprod_from (l : list Z) (a : Z) : fold_left Z.mul l a = a * Zprod l.
Proof.
  unfold Zprod. revert a. induction l as [|x l IH]; intros a; cbn [fold_left]; [lia|].
  rewrite (IH (a * x)), (IH (1 * x)). lia.
Qed.

Lemma Zprod_cons (n : Z) (l : list Z) : Zprod (n :: l) = n * Zprod l.
Proof. unfold Zprod at 1. cbn [fold_left]. rewrite Zprod_from. lia. Qed.

Lemma Zprod_nonneg (l : list Z) : Forall (fun n => 0 <= n) l -> 0 <= Zprod l.
Proof.
  induction 1 as [|n l Hn _ IH]; [done|]. rewrite Zprod_cons. lia.
Qed.

(** A written file is read as the array that it was written from. *)
Lemma csv_readit_content (x : ndarray) (p : string) (dk : disk) :
  well_formed x -> (2 <= ndim x)%nat ->
  files dk !! p = Some (csv_content x) -> csv_readit p dk = Ok x.
Proof.
  intros [Hdims Hsize] Hnd Hp. unfold csv_readit. rewrite Hp. unfold csv_content.
  rewrite (parse_header _ Hnd Hdims). cbn [mbind result_bind].
  destruct x as [sh d]. unfold ndim in Hnd. cbn [shape data] in *.
  destruct sh as [|n rest]; [simpl in Hnd; lia|].
  rewrite concat_chunks.
  - by rewrite Hsize, Z.eqb_refl.
  - apply Forall_cons in Hdims as [Hn Hrest]. apply Zprod_nonneg in Hrest.
    rewrite Zprod_cons in Hsize. unfold Py.len in Hsize.
    rewrite <- Z2Nat.inj_mul by done. rewrite Hsize. by rewrite Nat2Z.id.
Qed.

Lemma csv_readit_one_dimensional (x : ndarray) (p : string) (dk : disk) :
  ndim x = 1%nat -> files dk !! p = Some (csv_content x) ->
  exists e, csv_readit p dk = Raise e.
Proof.
  intros Hnd Hp. unfold csv_readit. rewrite Hp. unfold csv_content.
  destruct x as [[|n [|m rest]] d]; try discriminate. cbn [shape].
  rewrite parse_header_one_dimensional. by eexists.
Qed.

(** *** Export and import of CSV files *)

Lemma rfold_fold {A B} (f : B -> A -> result B) (g : B -> A -> B) (l : list A) (b : B) :
  (forall b a, a ∈ l -> f b a = Ok (g b a)) -> rfold f l b = Ok (fold_left g l b).
Proof.
  revert b. induction l as [|a l IH]; intros b Hfg; [done|].
  simpl. rewrite Hfg by left. cbn [mbind result_bind]. apply IH.
  intros b' a' Ha'. apply Hfg. by right.
Qed.

Lemma csv_write_all (path s : string) (l : list ndarray) (dk : disk) :
  Forall (fun x => shape x <> []) l ->
  rfold (fun dk (ix : nat * ndarray) => csv_writeit ix.2 path s ix.1 dk)
        (zip (seq 0 (length l)) l) dk
  = Ok (write_all (export_name path s ".csv") csv_content 0 l dk).
Proof.
  intros Hl. unfold write_all. apply rfold_fold.
  intros b [i x] Hix. apply elem_of_zip_r in Hix. cbn [fst snd] in *.
  rewrite Forall_forall in Hl. specialize (Hl x Hix).
  unfold csv_writeit, csv_content, export_name. by destruct (shape x).
Qed.

Lemma XY_to_CSV_layout (X Y : list_or ndarray) (csvdir : string) (dk : disk) :
  csvdir <> "" ->
  Forall (fun x => shape x <> []) (as_list X) ->
  Forall (fun x => shape x <> []) (as_list Y) ->
  XY_to_CSV X Y csvdir dk
  = Ok (write_all (export_name (slashed csvdir +:+ "Y/") "Y_" ".csv") csv_content 0 (as_list Y)
         (write_all (export_name (slashed csvdir +:+ "X/") "X_" ".csv") csv_content 0 (as_list X)
            (ensure_dir (slashed csvdir +:+ "Y/")
               (ensure_dir (slashed csvdir +:+ "X/")
                  (ensure_dir (slashed csvdir) dk))))).
Proof.
  intros Hd HX HY. unfold XY_to_CSV. rewrite (with_slash_nonempty _ Hd).
  cbn [mbind result_bind]. rewrite (csv_write_all _ _ _ _ HX). cbn [mbind result_bind].
  apply (csv_write_all _ _ _ _ HY).
Qed.

Lemma well_formed_shape (x : ndarray) : (1 <= ndim x)%nat -> shape x <> [].
Proof. unfold ndim. destruct (shape x); [simpl; lia | done]. Qed.

(** X24: what [XY_to_CSV] writes to a fresh directory for arrays of two
    or more dimensions, [XY_from_CSV] reads back: the same arrays on each
    side, in some order for any number of them, and in the order of the
    export when a side has at most ten. *)
Theorem XY_CSV_roundtrip :
  forall (X Y : list_or ndarray) (csvdir : string) (dk : disk),
    csvdir <> "" ->
    fresh_export_dir csvdir dk ->
    Forall (fun x => well_formed x /\ (2 <= ndim x)%nat) (as_list X ++ as_list Y) ->
    exists X' Y',
      (dk' ← XY_to_CSV X Y csvdir dk; XY_from_CSV csvdir dk') = Ok (X', Y') /\
      X' ≡ₚ as_list X /\ Y' ≡ₚ as_list Y /\
      ((length (as_list X) <= 10)%nat -> X' = as_list X) /\
      ((length (as_list Y) <= 10)%nat -> Y' = as_list Y).
Proof.
  intros X Y csvdir dk Hd [HfX HfY] [HX HY]%Forall_app.
  rewrite (XY_to_CSV_layout _ _ _ _ Hd).
  2,3: eapply Forall_impl; [eassumption|]; intros x [_ Hx]; apply well_formed_shape; lia.
  cbn [mbind result_bind].
  unfold XY_from_CSV. rewrite (with_slash_nonempty _ Hd). cbn [mbind result_bind].
  destruct (exported_dirs (slashed csvdir) ".csv" csv_content (as_list X) (as_list Y) dk)
    as [HdX HdY].
  rewrite (bool_decide_eq_true_2 _ HdX), (bool_decide_eq_true_2 _ HdY). cbn [negb orb].
  apply (exported_read_back (slashed csvdir) ".csv" csv_content (as_list X) (as_list Y) dk
           eq_refl HfX HfY).
  - intros i x Hi. rewrite Forall_forall in HX.
    destruct (HX x (list_elem_of_lookup_2 _ _ _ Hi)) as [Hwf Hnd].
    apply (csv_readit_content x _ _ Hwf Hnd).
    apply (exported_X (slashed csvdir) ".csv" csv_content (as_list X) (as_list Y) dk i x Hi).
  - intros j y Hj. rewrite Forall_forall in HY.
    destruct (HY y (list_elem_of_lookup_2 _ _ _ Hj)) as [Hwf Hnd].
    apply (csv_readit_content y _ _ Hwf Hnd).
    apply (exported_Y (slashed csvdir) ".csv" csv_content (as_list X) (as_list Y) dk j y Hj).
Qed.

Lemma XY_CSV_roundtrip_two :
  let X := [mkArray [2; 1; 2] [1 # 2; 3; 0; 7]%Q; mkArray [2; 3] [1; 2; 3; 4; 5; 6]%Q] in
  let Y := mkArray [2; 2] [1; 0; 0; 1]%Q in
  "out" <> "" /\ fresh_export_dir "out" empty_disk /\
  Forall (fun x => well_formed x /\ (2 <= ndim x)%nat) (X ++ [Y]) /\
  exists X' Y',
    (dk' ← XY_to_CSV (Listed X) (Single Y) "out" empty_disk; XY_from_CSV "out" dk')
      = Ok (X', Y') /\
    X' ≡ₚ X /\ Y' ≡ₚ [Y] /\
    ((length X <= 10)%nat -> X' = X) /\ ((length [Y] <= 10)%nat -> Y' = [Y]).
Proof.
  assert (Hfresh : fresh_export_dir "out" empty_disk).
  { split; intros p [c Hc]; simpl in Hc; by rewrite lookup_empty in Hc. }
  assert (Hwf : Forall (fun x => well_formed x /\ (2 <= ndim x)%nat)
                  ([mkArray [2; 1; 2] [1 # 2; 3; 0; 7]%Q; mkArray [2; 3] [1; 2; 3; 4; 5; 6]%Q]
                   ++ [mkArray [2; 2] [1; 0; 0; 1]%Q])).
  { repeat constructor; simpl; lia. }
  split; [discriminate|]. split; [exact Hfresh|]. split; [exact Hwf|].
  apply (XY_CSV_roundtrip (Listed _) (Single _) "out" empty_disk);
    [discriminate | exact Hfresh | exact Hwf].
Defined.

Lemma rmap_raise {A B} (f : A -> result B) (l : list A) (a : A) :
  a ∈ l -> (exists e, f a = Raise e) -> exists e, rmap f l = Raise e.
Proof.
  intros Ha [e He]. induction l as [|b l IH]; [by apply elem_of_nil in Ha|].
  simpl. destruct (f b) as [v|e'] eqn:Hb; [|by eexists]. cbn [mbind result_bind].
  apply elem_of_cons in Ha as [->|Ha]; [congruence|].
  destruct (IH Ha) as [e' ->]. by eexists.
Qed.

Lemma csv_written_shapes (path s : string) (l : list ndarray) (dk dk' : disk) :
  rfold (fun dk (ix : nat * ndarray) => csv_writeit ix.2 path s ix.1 dk)
        (zip (seq 0 (length l)) l) dk = Ok dk' ->
  Forall (fun x => shape x <> []) l.
Proof.
  intros Hw.
  set (P := fun (done : list (nat * ndarray)) (_ : disk) =>
              Forall (fun ix => shape ix.2 <> []) done).
  assert (Hstep : forall done a b b', P done b ->
            csv_writeit a.2 path s a.1 b = Ok b' -> P (done ++ [a]) b').
  { intros done a b b' Hdone Ha. apply Forall_app. split; [done|].
    apply Forall_singleton. unfold csv_writeit in Ha. by destruct (shape a.2). }
  pose proof (rfold_invariant _ P Hstep _ [] dk dk' (Forall_nil_2 _) Hw) as Hall.
  unfold P in Hall. simpl in Hall.
  rewrite <- (snd_zip (seq 0 (length l)) l) by (by rewrite length_seq).
  by apply Forall_fmap.
Qed.

Lemma XY_to_CSV_shapes (X Y : list_or ndarray) (csvdir : string) (dk dk' : disk) :
  XY_to_CSV X Y csvdir dk = Ok dk' ->
  Forall (fun x => shape x <> []) (as_list X) /\ Forall (fun x => shape x <> []) (as_list Y).
Proof.
  unfold XY_to_CSV. intros Hw. bind_inv Hw. bind_inv Hw.
  split; eapply csv_written_shapes; eassumption.
Qed.

(** X25: an export that holds a one-dimensional array cannot be read
    back: [XY_from_CSV] after [XY_to_CSV] raises whenever an array of
    either side has one dimension. *)
Theorem XY_CSV_one_dimensional :
  forall (X Y : list_or ndarray) (csvdir : string) (dk : disk),
    csvdir <> "" ->
    fresh_export_dir csvdir dk ->
    Exists (fun x => ndim x = 1%nat) (as_list X ++ as_list Y) ->
    exists e, (dk' ← XY_to_CSV X Y csvdir dk; XY_from_CSV csvdir dk') = Raise e.
Proof.
  intros X Y csvdir dk Hd [HfX HfY] Hone.
  destruct (XY_to_CSV X Y csvdir dk) as [dk'|e] eqn:Hto; [|by eexists].
  destruct (XY_to_CSV_shapes _ _ _ _ _ Hto) as [HX HY].
  rewrite (XY_to_CSV_layout _ _ _ _ Hd HX HY) in Hto. injection Hto as <-.
  cbn [mbind result_bind].
  unfold XY_from_CSV. rewrite (with_slash_nonempty _ Hd). cbn [mbind result_bind].
  destruct (exported_dirs (slashed csvdir) ".csv" csv_content (as_list X) (as_list Y) dk)
    as [HdX HdY].
  rewrite (bool_decide_eq_true_2 _ HdX), (bool_decide_eq_true_2 _ HdY). cbn [negb orb].
  destruct (exported_X_listing (slashed csvdir) ".csv" csv_content (as_list X) (as_list Y) dk
              eq_refl HfX) as [HpX _].
  destruct (exported_Y_listing (slashed csvdir) ".csv" csv_content (as_list X) (as_list Y) dk
              eq_refl HfY) as [HpY _].
  pose proof (exported_X (slashed csvdir) ".csv" csv_content (as_list X) (as_list Y) dk) as HXf.
  pose proof (exported_Y (slashed csvdir) ".csv" csv_content (as_list X) (as_list Y) dk) as HYf.
  set (dkf := write_all _ _ 0 (as_list Y) _) in *.
  set (nameX := export_name (slashed csvdir +:+ "X/") "X_" ".csv") in *.
  set (nameY := export_name (slashed csvdir +:+ "Y/") "Y_" ".csv") in *.
  apply Exists_app in Hone as [Hone|Hone]; apply Exists_exists in Hone as (x & Hx & Hnd);
    apply list_elem_of_lookup in Hx as [i Hi].
  - destruct (rmap_raise (fun p => csv_readit p dkf)
                (sorted_glob (slashed csvdir +:+ "X/") dkf) (nameX i)) as [e ->];
      [| |by eexists].
    + rewrite HpX. apply list_elem_of_fmap. exists i. split; [done|].
      apply elem_of_seq. apply lookup_lt_Some in Hi. lia.
    + apply (csv_readit_one_dimensional x _ _ Hnd). by apply HXf.
  - destruct (rmap (fun p => csv_readit p dkf) (sorted_glob (slashed csvdir +:+ "X/") dkf))
      as [Xs|e]; [|by eexists]. cbn [mbind result_bind].
    destruct (rmap_raise (fun p => csv_readit p dkf)
                (sorted_glob (slashed csvdir +:+ "Y/") dkf) (nameY i)) as [e ->];
      [| |by eexists].
    + rewrite HpY. apply list_elem_of_fmap. exists i. split; [done|].
      apply elem_of_seq. apply lookup_lt_Some in Hi. lia.
    + apply (csv_readit_one_dimensional x _ _ Hnd). by apply HYf.
Qed.

Lemma XY_CSV_one_dimensional_labels :
  let X := Listed [cell_array 3; cell_array 4] in
  let Y := Single (mkArray [2] [1; 0]%Q) in
  "out" <> "" /\ fresh_export_dir "out" empty_disk /\
  Exists (fun x => ndim x = 1%nat) (as_list X ++ as_list Y) /\
  exists e, (dk' ← XY_to_CSV X Y "out" empty_disk; XY_from_CSV "out" dk') = Raise e.
Proof.
  assert (Hfresh : fresh_export_dir "out" empty_disk).
  { split; intros p [c Hc]; simpl in Hc; by rewrite lookup_empty in Hc. }
  assert (Hone : Exists (fun x => ndim x = 1%nat)
                   ([cell_array 3; cell_array 4] ++ [mkArray [2] [1; 0]%Q])).
  { do 2 apply Exists_cons_tl. by apply Exists_cons_hd. }
  split; [discriminate|]. split; [exact Hfresh|]. split; [exact Hone|].
  apply (XY_CSV_one_dimensional (Listed _) (Single _) "out" empty_disk);
    [discriminate | exact Hfresh | exact Hone].
Defined.

(** ** What an export leaves alone *)

Lemma write_all_outside (path s ext : string) (content : ndarray -> file_content)
    (l : list ndarray) (dk : disk) (k : string) :
  String.prefix path k = false ->
  files (write_all (export_name path s ext) content 0 l dk) !! k = files dk !! k.
Proof.
  intros Hk. apply write_all_other. intros i _ ->.
  unfold export_name in Hk. by rewrite prefix_self in Hk.
Qed.

Lemma with_slash_Ok (d d' : string) : with_slash d = Ok d' -> d <> "".
Proof. intros Hd ->. discriminate. Qed.

(** X26: an export touches no file outside its two directories: after
    [XY_to_pickle] or [XY_to_CSV] has returned, every name that does not
    start with the path of [X/] or of [Y/] holds what it held before. *)
Theorem XY_export_keeps_other_files :
  forall (X Y : list_or ndarray) (dir : string) (dk dk' : disk) (k : string),
    XY_to_pickle X Y dir dk = Ok dk' \/ XY_to_CSV X Y dir dk = Ok dk' ->
    String.prefix (slashed dir +:+ "X/") k = false ->
    String.prefix (slashed dir +:+ "Y/") k = false ->
    files dk' !! k = files dk !! k.
Proof.
  intros X Y dir dk dk' k Hto HkX HkY.
  assert (Hd : dir <> "").
  { destruct Hto as [Hto|Hto]; [unfold XY_to_pickle in Hto | unfold XY_to_CSV in Hto];
      bind_inv Hto; by eapply with_slash_Ok. }
  destruct Hto as [Hto|Hto].
  - rewrite (XY_to_pickle_layout _ _ _ _ Hd) in Hto. injection Hto as <-.
    by rewrite !write_all_outside.
  - destruct (XY_to_CSV_shapes _ _ _ _ _ Hto) as [HX HY].
    rewrite (XY_to_CSV_layout _ _ _ _ Hd HX HY) in Hto. injection Hto as <-.
    by rewrite !write_all_outside.
Qed.

Lemma XY_export_keeps_other_files_notes :
  let dk := write_file "out/notes.txt" (F_csv "notes" []) empty_disk in
  exists dk',
    (XY_to_pickle (Listed [cell_array 1]) (Single (cell_array 2)) "out" dk = Ok dk' \/
     XY_to_CSV (Listed [cell_array 1]) (Single (cell_array 2)) "out" dk = Ok dk') /\
    String.prefix (slashed "out" +:+ "X/") "out/notes.txt" = false /\
    String.prefix (slashed "out" +:+ "Y/") "out/notes.txt" = false /\
    files dk' !! "out/notes.txt" = files dk !! "out/notes.txt".
Proof.
  eexists. split; [left; reflexivity|]. split; [reflexivity|]. split; [reflexivity|].
  eapply (XY_export_keeps_other_files (Listed [cell_array 1]) (Single (cell_array 2)) "out");
    [left; reflexivity | reflexivity | reflexivity].
Defined.

(** ** The text of a profile *)

(** X27: the text of a profile with post-processing sort columns says
    nothing of its pre-sort: the clause of [pre_sort_columns] is replaced
    by the clause of [sort_columns], so two profiles that differ only in
    their pre-sort instructions print the same. *)
Theorem ObjectProfile_str_hides_pre_sort `{PyRepr} :
  forall (p : ObjectProfile) (cols : option (list string)) (asc : asc_flag),
    sort_columns p <> None ->
    ObjectProfile_str (with_pre_sort p cols asc) = ObjectProfile_str p.
Proof.
  intros p cols asc Hsort. unfold ObjectProfile_str, with_pre_sort. cbn.
  by destruct (sort_columns p).
Qed.

Lemma ObjectProfile_str_hides_pre_sort_photons :
  let repr := {| repr_name := id; repr_max_size := fun _ => "5";
                 repr_columns := fun l => String.concat "," l;
                 repr_ascending := fun _ => "True"; repr_query := id;
                 repr_shuffle := fun _ => "False" |} in
  let p := mkObjectProfile "Photon" (Some 5) None (AscBool true) (Some ["PT"]) (AscBool true)
             None false PyNone PyNone "ObjectProfile" in
  sort_columns p <> None /\
  @ObjectProfile_str repr (with_pre_sort p (Some ["E"]) (AscBool false))
  = @ObjectProfile_str repr p.
Proof.
  split; [discriminate|].
  apply (@ObjectProfile_str_hides_pre_sort _ (mkObjectProfile "Photon" (Some 5) None
           (AscBool true) (Some ["PT"]) (AscBool true) None false PyNone PyNone "ObjectProfile")).
  discriminate.
Defined.

(** ** The argument decoder *)

Lemma decode_argument_profile_dict
    (construct : argument -> argument -> argument -> argument -> argument -> argument
                 -> result ObjectProfile) (a : argument) :
  is_profile_dict a = true ->
  decode_argument construct a = Raise (TypeError "string indices must be integers").
Proof.
  intros Ha. unfold decode_argument. rewrite Ha.
  destruct a as [| | | | |items|]; try discriminate.
  destruct items as [|[k v] items]; [discriminate|]. reflexivity.
Qed.

Lemma decode_argument_other
    (construct : argument -> argument -> argument -> argument -> argument -> argument
                 -> result ObjectProfile) (a : argument) :
  is_profile_dict a = false -> decode_argument construct a = Ok a.
Proof. intros Ha. unfold decode_argument. by rewrite Ha. Qed.

(** X28: the decoder never reconstitutes a profile. When no argument is
    a dictionary with [class_name] equal to ["ObjectProfile"] the
    arguments come back as they are; as soon as one is, the loop over it
    runs over its keys, and the first [profile['name']] on a key raises
    [TypeError], whatever the constructor would have done. *)
Theorem label_dir_pairs_args_decoder_never_decodes :
  forall (construct : argument -> argument -> argument -> argument -> argument -> argument
                      -> result ObjectProfile)
         (args : list argument) (kargs : list (string * argument)),
    label_dir_pairs_args_decoder construct args kargs
    = if existsb is_profile_dict args
      then Raise (TypeError "string indices must be integers")
      else Ok (args, kargs).
Proof.
  intros construct args kargs. unfold label_dir_pairs_args_decoder.
  assert (Hout : rmap (decode_argument construct) args
                 = if existsb is_profile_dict args
                   then Raise (TypeError "string indices must be integers")
                   else Ok args).
  { induction args as [|a args IH]; [done|]. cbn [rmap existsb].
    destruct (is_profile_dict a) eqn:Ha.
    - by rewrite (decode_argument_profile_dict _ _ Ha).
    - rewrite (decode_argument_other _ _ Ha). cbn [mbind result_bind orb].
      rewrite IH. by destruct (existsb is_profile_dict args). }
  rewrite Hout. by destruct (existsb is_profile_dict args).
Qed.
